(** * build_blog.py: a shallow embedding of the blog build script

    The script turns a directory of Markdown posts into HTML pages and
    rewrites the post list of [blog/index.html].  This development embeds
    the script function by function and states the properties of its
    specification against that embedding.

    Modelling conventions.
    - Text is [string]: a sequence of 8-bit characters.  The script reads
      its files as UTF-8; every delimiter it looks for is ASCII, and a
      UTF-8 byte of a non-ASCII character never equals an ASCII byte, so
      the byte view agrees with Python's code-point view on splitting,
      matching, replacing and (UTF-8 keeps code-point order) comparing.
      Python's [\s], [\d], [str.strip] and [str.title] also recognise
      white space, digits and letters outside ASCII; the functions here
      are the ASCII ones and treat every byte above 127 as an ordinary
      character.  Where the difference matters a statement says for
      which texts it speaks ([PyStr.isascii], [PyStr.has_wide],
      [PyStr.strip_is_ascii]), and one that ties a text to the bytes of a
      file asks for a text file ([IO.text_file]: UTF-8 without carriage
      returns).
    - A Python [dict] with string keys is a [gmap string string].
    - The file system is a finite map from paths to file contents;
      exceptions are values of type [exn] threaded by a small state and
      error monad. *)

From Stdlib Require Import Ascii String List ZArith Lia Bool.
From Stdlib Require Import Sorting.Permutation Sorting.Sorted.
From stdpp Require Import gmap strings.

(** ** Python's string primitives *)

Module PyStr.

(** The line feed and the double quote, which a literal cannot hold. *)
Definition LF : ascii := "010"%char.
Definition DQ : ascii := "034"%char.
Definition SQ : ascii := "039"%char.
Definition nl : string := String LF "".
Definition dq : string := String DQ "".

Definition code (c : ascii) : nat := nat_of_ascii c.

(** [str.isspace] on one character, ASCII range: TAB, LF, VT, FF, CR,
    the four separators FS GS RS US, and the space. *)
Definition isspace (c : ascii) : bool :=
  let n := code c in
  ((9 <=? n) && (n <=? 13)) || ((28 <=? n) && (n <=? 32)).

Definition isdigit (c : ascii) : bool :=
  let n := code c in (48 <=? n) && (n <=? 57).

Definition islower (c : ascii) : bool :=
  let n := code c in (97 <=? n) && (n <=? 122).

Definition isupper (c : ascii) : bool :=
  let n := code c in (65 <=? n) && (n <=? 90).

Definition isalpha (c : ascii) : bool := islower c || isupper c.

Definition upper (c : ascii) : ascii :=
  if islower c then ascii_of_nat (code c - 32) else c.

Definition lower (c : ascii) : ascii :=
  if isupper c then ascii_of_nat (code c + 32) else c.

Definition is_empty (s : string) : bool :=
  match s with EmptyString => true | String _ _ => false end.

Fixpoint drop (n : nat) (s : string) : string :=
  match n, s with
  | S n', String _ s' => drop n' s'
  | _, _ => s
  end.

Fixpoint take (n : nat) (s : string) : string :=
  match n, s with
  | S n', String c s' => String c (take n' s')
  | _, _ => EmptyString
  end.

(** [s.startswith(p)] *)
Fixpoint startswith (p s : string) : bool :=
  match p, s with
  | EmptyString, _ => true
  | String a p', String b s' => Ascii.eqb a b && startswith p' s'
  | String _ _, EmptyString => false
  end.

(** [p in s] *)
Fixpoint contains (p s : string) : bool :=
  startswith p s
  || match s with
     | EmptyString => false
     | String _ s' => contains p s'
     end.

(** [s.find(p)]: the index of the first occurrence, [None] for -1. *)
Fixpoint find (p s : string) : option nat :=
  if startswith p s then Some 0
  else match s with
       | EmptyString => None
       | String _ s' => option_map S (find p s')
       end.

(** [s.lstrip(...)], [s.rstrip(...)] and [s.strip(...)] for a set of
    characters given as a predicate. *)
Fixpoint lstrip_by (p : ascii -> bool) (s : string) : string :=
  match s with
  | EmptyString => EmptyString
  | String c s' => if p c then lstrip_by p s' else s
  end.

Fixpoint rstrip_by (p : ascii -> bool) (s : string) : string :=
  match s with
  | EmptyString => EmptyString
  | String c s' =>
      let r := rstrip_by p s' in
      if is_empty r && p c then EmptyString else String c r
  end.

Definition strip_by (p : ascii -> bool) (s : string) : string :=
  rstrip_by p (lstrip_by p s).

(** [s.strip()] *)
Definition strip (s : string) : string := strip_by isspace s.

(** [s.strip(c)] for a one-character argument *)
Definition strip_char (c : ascii) (s : string) : string :=
  strip_by (Ascii.eqb c) s.

(** [s.split(sep)] for a one-character separator: never empty, and one
    more piece than there are separators. *)
Fixpoint split (sep : ascii) (s : string) : list string :=
  match s with
  | EmptyString => [EmptyString]
  | String c s' =>
      if Ascii.eqb c sep then EmptyString :: split sep s'
      else match split sep s' with
           | h :: t => String c h :: t
           | [] => [String c EmptyString]
           end
  end.

(** [s.split(sep, 1)] when [sep in s]: the text before the first
    separator and the text after it; [None] when [sep] does not occur. *)
Fixpoint split_once (sep : ascii) (s : string) : option (string * string) :=
  match s with
  | EmptyString => None
  | String c s' =>
      if Ascii.eqb c sep then Some (EmptyString, s')
      else match split_once sep s' with
           | Some (k, v) => Some (String c k, v)
           | None => None
           end
  end.

(** [s.replace(old, new)] for a non-empty [old]: the occurrences of
    [old] are found from the left and do not overlap.  [skip] counts the
    characters of an occurrence that are still to be dropped. *)
Fixpoint replace_from (old new : string) (skip : nat) (s : string) : string :=
  match s with
  | EmptyString => EmptyString
  | String c s' =>
      match skip with
      | S n => replace_from old new n s'
      | O =>
          if startswith old s
          then new +:+ replace_from old new (String.length old - 1) s'
          else String c (replace_from old new 0 s')
      end
  end.

(** With an empty [old], Python puts [new] before every character and
    at the end. *)
Fixpoint intersperse (new s : string) : string :=
  match s with
  | EmptyString => new
  | String c s' => new +:+ String c (intersperse new s')
  end.

Definition replace (old new s : string) : string :=
  if is_empty old then intersperse new s else replace_from old new 0 s.

(** [s.title()], ASCII letters: a letter that follows a letter is
    lowered, any other letter is raised. *)
Fixpoint title_from (previous_is_cased : bool) (s : string) : string :=
  match s with
  | EmptyString => EmptyString
  | String c s' =>
      if isalpha c
      then String (if previous_is_cased then lower c else upper c)
                  (title_from true s')
      else String c (title_from false s')
  end.

Definition title (s : string) : string := title_from false s.

(** [str(n)] for a natural number, most significant digit first.  A
    number has no more decimal digits than binary ones, which bounds the
    loop. *)
Definition digit (n : N) : ascii := ascii_of_N (48 + n).

Fixpoint decimal_fuel (fuel : nat) (n : N) (acc : string) : string :=
  match fuel with
  | O => acc
  | S f =>
      let acc' := String (digit (n mod 10)) acc in
      if (n <? 10)%N then acc' else decimal_fuel f (n / 10) acc'
  end.

Definition decimal (n : N) : string :=
  decimal_fuel (S (N.size_nat n)) n "".

(** [int(s)] for a string of ASCII digits (possibly with white space
    around them, which [int] skips).  The value is a binary number, so a
    long digit string does not blow up. *)
Fixpoint int_from (acc : N) (s : string) : N :=
  match s with
  | EmptyString => acc
  | String c s' => int_from (10 * acc + (N_of_ascii c - 48))%N s'
  end.

Definition int (s : string) : N := int_from 0%N (strip s).

Fixpoint forallb_str (p : ascii -> bool) (s : string) : bool :=
  match s with
  | EmptyString => true
  | String c s' => p c && forallb_str p s'
  end.

(** [s.isdecimal() and s.isascii()] *)
Definition isdecimal (s : string) : bool :=
  negb (is_empty s) && forallb_str isdigit s.

(** [s.isidentifier()], ASCII range. *)
Definition isidentifier (s : string) : bool :=
  match s with
  | EmptyString => false
  | String c s' =>
      (isalpha c || Ascii.eqb c "_"%char)
      && forallb_str (fun a => isalpha a || isdigit a || Ascii.eqb a "_"%char) s'
  end.

(** [a < b] and [a >= b] on strings: lexicographic on character codes. *)
Definition str_lt (a b : string) : bool := String.ltb a b.
Definition str_ge (a b : string) : bool := negb (String.ltb a b).

(** *** Characters outside ASCII

    A text file of the script is UTF-8 and Python works on its
    characters, not on its bytes.  [isspace], [isdigit] and [title]
    above are Python's on ASCII; Python's own also take the white space,
    the decimal digits and the letters of the rest of Unicode.  The
    predicates below tell where a text holds such characters. *)

Definition CR : ascii := "013"%char.

Definition between (lo hi : nat) (c : ascii) : bool :=
  (lo <=? code c) && (code c <=? hi).

(** [s.isascii()] *)
Definition isascii (s : string) : bool := forallb_str (between 0 127) s.

(** The characters for which [str.isspace] holds outside ASCII, as
    UTF-8: U+0085 and U+00A0 in two bytes; U+1680, U+2000 to U+200A,
    U+2028, U+2029, U+202F, U+205F and U+3000 in three. *)
Definition wide2 (a b : ascii) : bool :=
  (code a =? 194) && ((code b =? 133) || (code b =? 160)).

Definition wide3 (a b c : ascii) : bool :=
  ((code a =? 225) && (code b =? 154) && (code c =? 128))
  || ((code a =? 226) && (code b =? 128)
      && (between 128 138 c || between 168 169 c || (code c =? 175)))
  || ((code a =? 226) && (code b =? 129) && (code c =? 159))
  || ((code a =? 227) && (code b =? 128) && (code c =? 128)).

(** The text starts with such a character. *)
Definition starts_wide (s : string) : bool :=
  match s with
  | String a (String b r) =>
      wide2 a b
      || match r with
         | String c _ => wide3 a b c
         | EmptyString => false
         end
  | _ => false
  end.

(** The text is one such character. *)
Definition is_wide (s : string) : bool :=
  match s with
  | String a (String b EmptyString) => wide2 a b
  | String a (String b (String c EmptyString)) => wide3 a b c
  | _ => false
  end.

(** The text ends with such a character, and holds one somewhere. *)
Fixpoint ends_wide (s : string) : bool :=
  is_wide s
  || match s with
     | EmptyString => false
     | String _ s' => ends_wide s'
     end.

Fixpoint has_wide (s : string) : bool :=
  starts_wide s
  || match s with
     | EmptyString => false
     | String _ s' => has_wide s'
     end.

(** The text is white space in Python's sense, all of it: what [\s*]
    can match. *)
Fixpoint isspace_text (s : string) : bool :=
  match s with
  | EmptyString => true
  | String a s1 =>
      if isspace a then isspace_text s1
      else match s1 with
           | EmptyString => false
           | String b s2 =>
               if wide2 a b then isspace_text s2
               else match s2 with
                    | EmptyString => false
                    | String c s3 => wide3 a b c && isspace_text s3
                    end
           end
  end.

(** [s.strip()] is the strip above: what is left when the ASCII white
    space is taken off the two ends of [s] neither starts nor ends with
    white space from outside ASCII, which Python would take off too. *)
Definition strip_is_ascii (s : string) : bool :=
  negb (starts_wide (strip s)) && negb (ends_wide (strip s)).

(** The bytes are well-formed UTF-8, as the decoder of Python checks
    them: no stray or missing continuation byte, no overlong form, no
    surrogate, nothing above U+10FFFF. *)
Definition cont (c : ascii) : bool := between 128 191 c.

Definition lead3 (a b : ascii) : bool :=
  ((code a =? 224) && between 160 191 b)
  || ((between 225 236 a || between 238 239 a) && cont b)
  || ((code a =? 237) && between 128 159 b).

Definition lead4 (a b : ascii) : bool :=
  ((code a =? 240) && between 144 191 b)
  || (between 241 243 a && cont b)
  || ((code a =? 244) && between 128 143 b).

Fixpoint utf8 (s : string) : bool :=
  match s with
  | EmptyString => true
  | String a s1 =>
      if code a <? 128 then utf8 s1
      else match s1 with
           | EmptyString => false
           | String b s2 =>
               if between 194 223 a then cont b && utf8 s2
               else match s2 with
                    | EmptyString => false
                    | String c s3 =>
                        if lead3 a b then cont c && utf8 s3
                        else match s3 with
                             | EmptyString => false
                             | String d s4 =>
                                 lead4 a b && cont c && cont d && utf8 s4
                             end
                    end
           end
  end.

End PyStr.

(** ** Python's [re]: a backtracking matcher

    The constructs are the ones the script's patterns (and the pattern
    [datetime.strptime] builds for ["%Y-%m-%d"]) use.  Alternatives are
    tried in the order written, a greedy star tries the longest run first
    and a lazy star the shortest, and the first way to match the whole
    pattern wins, as in [re]. *)

Module Re.
Import PyStr.

Inductive regex : Type :=
| Eps                              (* the empty pattern *)
| Chr (c : ascii)                  (* a literal character *)
| Cls (p : ascii -> bool)          (* a class: [\s], [\d], [[0-2]], [.] *)
| Seq (r1 r2 : regex)              (* r1 r2 *)
| Alt (r1 r2 : regex)              (* r1|r2 *)
| Star (p : ascii -> bool)         (* x*  for a one-character x *)
| StarLazy (p : ascii -> bool)     (* x*? for a one-character x *)
| Group (n : nat) (r : regex)      (* (r), the n-th capturing group *)
| Eol.                             (* $ *)

(** [.] under [re.DOTALL] *)
Definition any (c : ascii) : bool := true.

Definition range (lo hi : ascii) (c : ascii) : bool :=
  (code lo <=? code c) && (code c <=? code hi).

(** A literal string, and a sequence of patterns. *)
Fixpoint lit (s : string) : regex :=
  match s with
  | EmptyString => Eps
  | String c s' => Seq (Chr c) (lit s')
  end.

Definition cat (rs : list regex) : regex := foldr Seq Eps rs.

(** The number of capturing groups of a pattern. *)
Fixpoint groups (r : regex) : nat :=
  match r with
  | Seq r1 r2 | Alt r1 r2 => groups r1 + groups r2
  | Group _ r1 => S (groups r1)
  | _ => 0
  end.

Definition captures : Type := list (nat * string).

Fixpoint capture (n : nat) (caps : captures) : option string :=
  match caps with
  | [] => None
  | (m, s) :: caps' => if Nat.eqb m n then Some s else capture n caps'
  end.

Section Matcher.
Context {T : Type}.

Fixpoint star_greedy (p : ascii -> bool) (s : string)
    (k : string -> option T) : option T :=
  match s with
  | String c s' =>
      if p c
      then match star_greedy p s' k with
           | Some x => Some x
           | None => k s
           end
      else k s
  | EmptyString => k s
  end.

Fixpoint star_lazy (p : ascii -> bool) (s : string)
    (k : string -> option T) : option T :=
  match k s with
  | Some x => Some x
  | None =>
      match s with
      | String c s' => if p c then star_lazy p s' k else None
      | EmptyString => None
      end
  end.

(** [run r s caps k]: match [r] at the front of [s], then hand the rest
    of the text and the groups to the continuation [k]; when [k] fails
    the matcher backtracks into [r]. *)
Fixpoint run (r : regex) (s : string) (caps : captures)
    (k : string -> captures -> option T) : option T :=
  match r with
  | Eps => k s caps
  | Chr c =>
      match s with
      | String a s' => if Ascii.eqb a c then k s' caps else None
      | EmptyString => None
      end
  | Cls p =>
      match s with
      | String a s' => if p a then k s' caps else None
      | EmptyString => None
      end
  | Seq r1 r2 => run r1 s caps (fun s1 caps1 => run r2 s1 caps1 k)
  | Alt r1 r2 =>
      match run r1 s caps k with
      | Some x => Some x
      | None => run r2 s caps k
      end
  | Star p => star_greedy p s (fun s1 => k s1 caps)
  | StarLazy p => star_lazy p s (fun s1 => k s1 caps)
  | Group n r1 =>
      run r1 s caps (fun s1 caps1 =>
        k s1 ((n, take (String.length s - String.length s1) s) :: caps1))
  | Eol =>
      (* without re.MULTILINE: at the end, or before a final newline *)
      match s with
      | EmptyString => k s caps
      | String a EmptyString => if Ascii.eqb a LF then k s caps else None
      | _ => None
      end
  end.
End Matcher.

(** A match object: the text of group 0, the other groups, and the text
    after the match. *)
Record match_obj : Type := MatchObj {
  matched : string;
  caps : captures;
  rest : string
}.

(** [m.group(n)]; a group that took no part in the match is [None]. *)
Definition group (m : match_obj) (n : nat) : option string :=
  match n with
  | O => Some (matched m)
  | _ => capture n (caps m)
  end.

(** [re.match(r, s)]: the pattern is tried at the start of [s] only. *)
Definition re_match (r : regex) (s : string) : option match_obj :=
  run r s [] (fun s1 caps1 =>
    Some (MatchObj (take (String.length s - String.length s1) s) caps1 s1)).

(** *** Replacement templates ([re.sub] with a string replacement)

    [re] splits the replacement into tokens, a backslash taking the next
    character with it, and reads one token ahead: a lone backslash at
    the end is reported when the token before it is consumed. *)

Inductive token : Type :=
| TChr (c : ascii)       (* an ordinary character *)
| TEsc (c : ascii)       (* a backslash and the character after it *)
| TEnd.                  (* a backslash with nothing after it *)

Definition BS : ascii := "092"%char.

Fixpoint tokenize (s : string) : list token :=
  match s with
  | EmptyString => []
  | String c r =>
      if Ascii.eqb c BS
      then match r with
           | EmptyString => [TEnd]
           | String e r' => TEsc e :: tokenize r'
           end
      else TChr c :: tokenize r
  end.

Inductive error : Type :=
| re_error       (* re.error (re.PatternError) *)
| IndexError.    (* unknown group name *)

(** A parsed template: characters to copy and groups to insert. *)
Inductive piece : Type :=
| PChr (c : ascii)
| PEsc (c : ascii)       (* an escape that is kept as it is, backslash included *)
| PGroup (n : nat).

Definition isoct (c : ascii) : bool := range "0"%char "7"%char c.

Definition octval (c : ascii) : nat := code c - 48.

(** The tokenizer has just moved to [toks]: a dangling backslash there
    raises. *)
Definition dangling (toks : list token) : bool :=
  match toks with
  | TEnd :: _ => true
  | _ => false
  end.

(** The escapes with a meaning in a template (ESCAPES of [re._parser]). *)
Definition escape (c : ascii) : option ascii :=
  if Ascii.eqb c "a"%char then Some "007"%char
  else if Ascii.eqb c "b"%char then Some "008"%char
  else if Ascii.eqb c "f"%char then Some "012"%char
  else if Ascii.eqb c "n"%char then Some "010"%char
  else if Ascii.eqb c "r"%char then Some "013"%char
  else if Ascii.eqb c "t"%char then Some "009"%char
  else if Ascii.eqb c "v"%char then Some "011"%char
  else if Ascii.eqb c BS then Some BS
  else None.

Definition MAXGROUPS : N := 1073741823.

(** The group a name in [\g<name>] stands for, in a pattern without
    named groups. *)
Definition group_index (ngroups : nat) (name : string) : error + nat :=
  if is_empty name then inl re_error
  else if isdecimal name then
    let index := int name in
    if (MAXGROUPS <=? index)%N then inl re_error
    else if ngroups <? N.to_nat index then inl re_error
    else inr (N.to_nat index)
  else if isidentifier name then inl IndexError
  else inl re_error.

Definition cons_piece (p : piece) (r : error + list piece) : error + list piece :=
  match r with
  | inl e => inl e
  | inr ps => inr (p :: ps)
  end.

(** [re._parser.parse_template], as of CPython 3.12.  [name] is
    [Some acc] while the parser is inside [\g<...>], with [acc] the part
    of the name read so far. *)
Fixpoint parse_template (ngroups : nat) (name : option string)
    (toks : list token) : error + list piece :=
  match name with
  | Some acc =>
      match toks with
      | [] => inl re_error                     (* missing > *)
      | t :: toks1 =>
          if dangling toks1 then inl re_error
          else match t with
               | TChr c =>
                   if Ascii.eqb c ">"%char
                   then match group_index ngroups acc with
                        | inl e => inl e
                        | inr i => cons_piece (PGroup i)
                                     (parse_template ngroups None toks1)
                        end
                   else parse_template ngroups
                          (Some (acc +:+ String c "")) toks1
               | TEsc c =>
                   parse_template ngroups
                     (Some (acc +:+ String BS (String c ""))) toks1
               | TEnd => inl re_error
               end
      end
  | None =>
      match toks with
      | [] => inr []
      | t :: toks1 =>
          if dangling toks1 then inl re_error
          else match t with
          | TEnd => inl re_error
          | TChr c => cons_piece (PChr c) (parse_template ngroups None toks1)
          | TEsc c =>
              if Ascii.eqb c "g"%char then
                match toks1 with
                | TChr lt :: toks2 =>
                    if Ascii.eqb lt "<"%char
                    then if dangling toks2 then inl re_error
                         else parse_template ngroups (Some EmptyString) toks2
                    else inl re_error          (* missing < *)
                | _ => inl re_error
                end
              else if Ascii.eqb c "0"%char then
                match toks1 with
                | TChr d1 :: toks2 =>
                    if isoct d1 then
                      if dangling toks2 then inl re_error
                      else match toks2 with
                      | TChr d2 :: toks3 =>
                          if isoct d2 then
                            if dangling toks3 then inl re_error
                            else cons_piece
                                   (PChr (ascii_of_nat (8 * octval d1 + octval d2)))
                                   (parse_template ngroups None toks3)
                          else cons_piece (PChr (ascii_of_nat (octval d1)))
                                 (parse_template ngroups None toks2)
                      | _ => cons_piece (PChr (ascii_of_nat (octval d1)))
                               (parse_template ngroups None toks2)
                      end
                    else cons_piece (PChr "000"%char)
                           (parse_template ngroups None toks1)
                | _ => cons_piece (PChr "000"%char)
                         (parse_template ngroups None toks1)
                end
              else if isdigit c then
                let group1 :=
                  if ngroups <? octval c then inl re_error
                  else cons_piece (PGroup (octval c))
                         (parse_template ngroups None toks1) in
                match toks1 with
                | TChr d1 :: toks2 =>
                    if isdigit d1 then
                      if dangling toks2 then inl re_error
                      else
                        let group2 :=
                          let i := 10 * octval c + octval d1 in
                          if ngroups <? i then inl re_error
                          else cons_piece (PGroup i)
                                 (parse_template ngroups None toks2) in
                        match toks2 with
                        | TChr d2 :: toks3 =>
                            if isoct c && isoct d1 && isoct d2 then
                              if dangling toks3 then inl re_error
                              else
                                let v := 64 * octval c + 8 * octval d1 + octval d2 in
                                if 255 <? v then inl re_error
                                else cons_piece (PChr (ascii_of_nat v))
                                       (parse_template ngroups None toks3)
                            else group2
                        | _ => group2
                        end
                    else group1
                | _ => group1
                end
              else
                match escape c with
                | Some a => cons_piece (PChr a) (parse_template ngroups None toks1)
                | None =>
                    if isalpha c then inl re_error    (* bad escape *)
                    else cons_piece (PEsc c) (parse_template ngroups None toks1)
                end
          end
      end
  end.

(** [re._parser.parse_template] on a replacement string. *)
Definition compile_template (ngroups : nat) (repl : string) : error + list piece :=
  let toks := tokenize repl in
  if dangling toks then inl re_error else parse_template ngroups None toks.

(** [m.expand(template)] *)
Fixpoint expand (ps : list piece) (m : match_obj) : string :=
  match ps with
  | [] => EmptyString
  | PChr c :: ps' => String c (expand ps' m)
  | PEsc c :: ps' => String BS (String c (expand ps' m))
  | PGroup n :: ps' => default EmptyString (group m n) +:+ expand ps' m
  end.

(** The scan of [re.sub]: at each position the pattern is tried; a match
    is replaced and the scan resumes behind it.  [skip] counts the
    characters of the current match that are still to be passed over.
    The patterns of the script start with a literal, so a match is never
    empty; for an empty match the replacement is inserted and the scan
    moves on by one character. *)
Fixpoint sub_from (r : regex) (repl : match_obj -> string) (skip : nat)
    (s : string) : string :=
  match s with
  | EmptyString =>
      match skip, re_match r EmptyString with
      | O, Some m => repl m
      | _, _ => EmptyString
      end
  | String c s' =>
      match skip with
      | S n => sub_from r repl n s'
      | O =>
          match re_match r s with
          | Some m =>
              match String.length (matched m) with
              | O => repl m +:+ String c (sub_from r repl 0 s')
              | S n => repl m +:+ sub_from r repl n s'
              end
          | None => String c (sub_from r repl 0 s')
          end
      end
  end.

(** [re.sub(r, repl, s)] with a string [repl] and no count.  A
    replacement without a backslash is used as it is; any other is
    compiled first, before the text is looked at, so a template error is
    raised whether or not the pattern occurs. *)
Definition sub (r : regex) (repl : string) (s : string) : error + string :=
  if contains (String BS "") repl
  then match compile_template (groups r) repl with
       | inl e => inl e
       | inr ps => inr (sub_from r (expand ps) 0 s)
       end
  else inr (sub_from r (fun _ => repl) 0 s).

End Re.

(** ** Python's [datetime], as far as the script uses it *)

Module DateTime.
Import PyStr Re.

Record date : Type := Date { year : N; month : N; day : N }.

Local Open Scope N_scope.

Definition is_leap (y : N) : bool :=
  (y mod 4 =? 0) && (negb (y mod 100 =? 0) || (y mod 400 =? 0)).

Definition days_in_month (y m : N) : N :=
  match m with
  | 1 | 3 | 5 | 7 | 8 | 10 | 12 => 31
  | 4 | 6 | 9 | 11 => 30
  | 2 => if is_leap y then 29 else 28
  | _ => 0
  end.

(** The checks of the [date] constructor: MINYEAR is 1, MAXYEAR 9999. *)
Definition valid (y m d : N) : bool :=
  (1 <=? y) && (y <=? 9999) && (1 <=? m) && (m <=? 12)
  && (1 <=? d) && (d <=? days_in_month y m).

Local Close Scope N_scope.

Definition digit_class : regex := Cls isdigit.

(** The pattern [_strptime] compiles for the format ["%Y-%m-%d"]:
    (?P<Y>\d\d\d\d)-(?P<m>1[0-2]|0[1-9]|[1-9])-(?P<d>3[0-1]|[1-2]\d|0[1-9]|[1-9]| [1-9]) *)
Definition year_re : regex :=
  cat [digit_class; digit_class; digit_class; digit_class].

Definition month_re : regex :=
  Alt (Seq (Chr "1"%char) (Cls (range "0"%char "2"%char)))
 (Alt (Seq (Chr "0"%char) (Cls (range "1"%char "9"%char)))
      (Cls (range "1"%char "9"%char))).

Definition day_re : regex :=
  Alt (Seq (Chr "3"%char) (Cls (range "0"%char "1"%char)))
 (Alt (Seq (Cls (range "1"%char "2"%char)) digit_class)
 (Alt (Seq (Chr "0"%char) (Cls (range "1"%char "9"%char)))
 (Alt (Cls (range "1"%char "9"%char))
      (Seq (Chr " "%char) (Cls (range "1"%char "9"%char)))))).

Definition Ymd_pattern : regex :=
  cat [ Group 1 year_re; Chr "-"%char; Group 2 month_re; Chr "-"%char;
        Group 3 day_re ].

Definition group_int (m : match_obj) (n : nat) : N :=
  int (default EmptyString (group m n)).

(** [datetime.strptime(s, '%Y-%m-%d')]; [None] stands for ValueError:
    the pattern does not match, text remains after the match, or the
    numbers are not a date. *)
Definition strptime (s : string) : option date :=
  match re_match Ymd_pattern s with
  | None => None
  | Some m =>
      if is_empty (rest m) then
        let y := group_int m 1 in
        let mo := group_int m 2 in
        let d := group_int m 3 in
        if valid y mo d then Some (Date y mo d) else None
      else None
  end.

Definition month_name (m : N) : string :=
  match m with
  | 1 => "January" | 2 => "February" | 3 => "March" | 4 => "April"
  | 5 => "May" | 6 => "June" | 7 => "July" | 8 => "August"
  | 9 => "September" | 10 => "October" | 11 => "November"
  | 12 => "December"
  | _ => ""
  end%N.

(** [str(n).zfill(w)] *)
Fixpoint zeros (n : nat) : string :=
  match n with
  | O => ""
  | S n' => String "0"%char (zeros n')
  end.

Definition zfill (w : nat) (n : N) : string :=
  let s := decimal n in zeros (w - String.length s) +:+ s.

(** [d.strftime('%B %d, %Y')] in the C locale.  The year is padded to
    four digits, as recent versions of CPython do on every platform;
    older ones leave a year below 1000 to the C library, which may
    print it without the zeros.  From the year 1000 on all agree. *)
Definition strftime (d : date) : string :=
  month_name (month d) +:+ " " +:+ zfill 2 (day d) +:+ ", " +:+ zfill 4 (year d).

End DateTime.

(** ** The file system, the console and exceptions

    A path names a regular file (in [files]) or a directory (in [dirs]).
    Of the ways in which [open] can fail the model has the one the script
    meets on a site that is laid out as it expects: a file to read that is
    not there.  Opening a path that is a directory, or a path below a
    directory that is missing, is left out; the script writes only below
    directories it has just made.

    The script opens its files in text mode, as UTF-8.  A file holds in
    [files] the text that reading it gives, and writing a text stores that
    text; for a text file in the sense of [text_file] below this is the
    content of the file byte for byte, on a system whose line end is LF.
    Paths are relative to the directory the script runs in; two paths are
    the same file when they are the same string, which is so for the
    paths made of plain names ([canonical] below) in a directory tree
    without links. *)

Module IO.

Inductive exn : Type :=
| FileNotFoundError (path : string)
| FileExistsError (path : string)
| ReError (e : Re.error).

(** What the script did to the outside world, in order. *)
Inductive event : Type :=
| EvMkdir (path : string)
| EvRead (path : string)
| EvWrite (path : string)
| EvPrint (line : string).

Record world : Type := World {
  files : gmap string string;      (* regular files and their text *)
  dirs : gset string;              (* directories *)
  trace : list event
}.

Definition result (A : Type) : Type := (exn + A)%type.

(** A computation takes the world and gives a value or an exception
    together with the world it leaves behind: an exception undoes
    nothing. *)
Definition M (A : Type) : Type := world -> result A * world.

Definition ret {A} (x : A) : M A := fun w => (inr x, w).

Definition raise {A} (e : exn) : M A := fun w => (inl e, w).

Definition bind {A B} (c : M A) (k : A -> M B) : M B :=
  fun w =>
    match c w with
    | (inr x, w1) => k x w1
    | (inl e, w1) => (inl e, w1)
    end.

Definition log (e : event) (w : world) : world :=
  World (files w) (dirs w) (trace w ++ [e]).

(** [with open(path, 'r') as f: f.read()] *)
Definition read_file (path : string) : M string :=
  fun w =>
    match files w !! path with
    | Some text => (inr text, log (EvRead path) w)
    | None => (inl (FileNotFoundError path), w)
    end.

(** [with open(path, 'w') as f: f.write(text)] *)
Definition write_file (path text : string) : M unit :=
  fun w =>
    (inr tt, World (<[path := text]> (files w)) (dirs w)
                   (trace w ++ [EvWrite path])).

(** [path.mkdir(exist_ok=True)]: fine when the directory is there
    already, an error when the path is a regular file. *)
Definition mkdir (path : string) : M unit :=
  fun w =>
    match files w !! path with
    | Some _ => (inl (FileExistsError path), w)
    | None => (inr tt, World (files w) ({[path]} ∪ dirs w)
                             (trace w ++ [EvMkdir path]))
    end.

Definition print (line : string) : M unit :=
  fun w => (inr tt, log (EvPrint line) w).

(** A file that text mode reads as it is stored: well-formed UTF-8 (any
    other file makes [read] raise UnicodeDecodeError) without a carriage
    return (which reading would turn into a line feed, or drop before
    one). *)
Definition text_file (content : string) : bool :=
  PyStr.utf8 content
  && negb (PyStr.contains (String PyStr.CR EmptyString) content).

End IO.

Declare Scope io_scope.
Delimit Scope io_scope with io.
Notation "'let*' x ':=' c 'in' k" := (IO.bind c (fun x => k))
  (at level 10, x name, c at level 100, k at level 200) : io_scope.
Notation "c ';;' k" := (IO.bind c (fun _ => k))
  (at level 100, right associativity) : io_scope.

(** ** The script *)

Import PyStr.

(** A post record: the dict with the keys slug, title, date and
    description that [main] appends to [posts]. *)
Module Post.
Record post : Type := Post {
  slug : string;
  title : string;
  date : string;
  description : string
}.
End Post.
Abbreviation post := Post.post.

(** The metadata a frontmatter block gives: a dict from keys to values. *)
Abbreviation metadata_t := (gmap string string).

(** [pathlib]: [dir / name].  A component [.] (and an empty one) is
    dropped by [Path]. *)
Definition joinpath (dir name : string) : string :=
  if String.eqb name "." || is_empty name then dir
  else dir +:+ "/" +:+ name.

(** [Path.stem]: the file name without its last suffix; a leading dot and a
    trailing dot do not start a suffix. *)
Fixpoint rfind_dot (s : string) : option nat :=
  match s with
  | EmptyString => None
  | String c r =>
      match rfind_dot r with
      | Some i => Some (S i)
      | None => if Ascii.eqb c "."%char then Some 0 else None
      end
  end.

Definition stem (name : string) : string :=
  match rfind_dot name with
  | Some i =>
      if (0 <? i) && (i <? String.length name - 1) then take i name else name
  | None => name
  end.

(** Configuration *)
Definition BLOG_SRC_DIR : string := "blog_src".
Definition BLOG_OUTPUT_DIR : string := "blog".
Definition TEMPLATE_FILE : string := "blog/_template.html".
Definition BLOG_LISTING_FILE : string := "blog/index.html".

(** *** parse_frontmatter *)

(** The pattern ^---\s*\n(G1)\n---\s*\n(G2)$ with re.DOTALL, where group
    G1 is the lazy .*? and group G2 the greedy .* of the source;
    [re.match] tries the pattern at the start of the text only, which is
    all that the leading anchor asks for. *)
Definition frontmatter_pattern : Re.regex :=
  Re.cat [ Re.lit "---"; Re.Star isspace; Re.Chr LF;
           Re.Group 1 (Re.StarLazy Re.any);
           Re.Chr LF; Re.lit "---"; Re.Star isspace; Re.Chr LF;
           Re.Group 2 (Re.Star Re.any); Re.Eol ].

(** The body of the loop over the lines of the block. *)
Definition parse_line (metadata : metadata_t) (line : string) : metadata_t :=
  match split_once ":"%char line with
  | Some (key, value) =>
      let key := strip key in
      let value := strip_char SQ (strip_char DQ (strip value)) in
      <[key := value]> metadata
  | None => metadata
  end.

Definition parse_frontmatter (content : string) : metadata_t * string :=
  match Re.re_match frontmatter_pattern content with
  | Some m =>
      let frontmatter_text := default EmptyString (Re.group m 1) in
      let markdown_content := default EmptyString (Re.group m 2) in
      (fold_left parse_line (split LF frontmatter_text) ∅, markdown_content)
  | None => (∅, content)
  end.

(** *** The date, as [generate_blog_post] and [main] both format it *)

(** The pattern "\d{4}-\d{2}-\d{2}" *)
Definition iso_date_pattern : Re.regex :=
  let d := Re.Cls isdigit in
  Re.cat [ d; d; d; d; Re.Chr "-"%char; d; d; Re.Chr "-"%char; d; d ].

(** try: if re.match(...): date = strptime(date).strftime(...)
    except: pass *)
Definition format_date (date : string) : string :=
  match Re.re_match iso_date_pattern date with
  | Some _ =>
      match DateTime.strptime date with
      | Some date_obj => DateTime.strftime date_obj
      | None => date                    (* ValueError, swallowed *)
      end
  | None => date
  end.

(** metadata.get('date', datetime.now().strftime('%B %d, %Y')), then the
    reformatting above. *)
Definition post_date (now : DateTime.date) (metadata : metadata_t) : string :=
  format_date (default (DateTime.strftime now) (metadata !! "date")).

(** metadata.get('title', slug.replace('-', ' ').title()) *)
Definition post_title (metadata : metadata_t) (slug : string) : string :=
  default (title (replace "-" " " slug)) (metadata !! "title").

(** The dict [main] appends to [posts] for the file with this slug and
    metadata. *)
Definition post_record (now : DateTime.date) (slug : string)
    (metadata : metadata_t) : post :=
  Post.Post slug (post_title metadata slug) (post_date now metadata)
            (default EmptyString (metadata !! "description")).

Local Open Scope io_scope.

(** *** generate_blog_post *)

Definition generate_blog_post (now : DateTime.date) (metadata : metadata_t)
    (html_content slug template_path : string) : IO.M string :=
  let* template := IO.read_file template_path in
  let title := post_title metadata slug in
  let description := default EmptyString (metadata !! "description") in
  let date := post_date now metadata in
  let html := replace "{{TITLE}}" title template in
  let html := replace "{{DESCRIPTION}}" description html in
  let html := replace "{{DATE}}" date html in
  let html := replace "{{SLUG}}" slug html in
  let html := replace "{{CONTENT}}" html_content html in
  IO.ret html.

(** *** update_blog_listing *)

(** sorted(posts, key=..., reverse=True): a stable sort, so posts with the
    same key keep their order. *)
Section Sorted.
Context {A : Type} (key : A -> string).

Fixpoint insert_desc (x : A) (l : list A) : list A :=
  match l with
  | [] => [x]
  | y :: l' =>
      if str_lt (key x) (key y) then y :: insert_desc x l'
      else x :: y :: l'
  end.

Definition sorted_reverse (l : list A) : list A := foldr insert_desc [] l.
End Sorted.

Definition concat_str (l : list string) : string := foldr String.append EmptyString l.

(** The f-string appended to [blog_list_html] for one post. *)
Definition list_item (p : post) : string :=
  concat_str [
      nl;
      "          <div class="; dq; "view-list-item"; dq; " style="; dq; "margin-bottom: 1.5rem; padding-bottom: 1.5rem; border-bottom: 1px solid #e0e0e0;"; dq; ">"; nl;
      "            <i class="; dq; "far fa-file-alt pub-icon"; dq; " aria-hidden="; dq; "true"; dq; "></i>"; nl;
      "            <a href="; dq; "/blog/"; Post.slug p; "/"; dq; " style="; dq; "font-size: 1.1rem; font-weight: 500;"; dq; ">"; Post.title p; "</a>"; nl;
      "            <div class="; dq; "article-metadata"; dq; " style="; dq; "margin-top: 0.5rem;"; dq; ">"; nl;
      "              <span class="; dq; "article-date"; dq; ">"; Post.date p; "</span>"; nl;
      "            </div>"; nl;
      "            ";
      (if is_empty (Post.description p) then EmptyString
       else concat_str [ "<p style="; dq; "margin-top: 0.5rem; color: #666;"; dq; ">";
                         Post.description p; "</p>" ]);
      nl;
      "          </div>"; nl ].

Definition blog_list_html (posts : list post) : string :=
  match posts with
  | [] => "<p>No blog posts yet. Check back soon!</p>"
  | _ => concat_str (map list_item (sorted_reverse Post.date posts))
  end.

Definition blog_list_open : string :=
  concat_str [ "<div id="; dq; "blog-list"; dq; ">" ].

(** The pattern <div id="blog-list">.*?</div> with re.DOTALL *)
Definition blog_list_pattern : Re.regex :=
  Re.cat [ Re.lit blog_list_open; Re.StarLazy Re.any; Re.lit "</div>" ].

(** f'<div id="blog-list">{blog_list_html}\n          </div>' *)
Definition blog_list_region (blog_list_html : string) : string :=
  concat_str [ blog_list_open; blog_list_html; nl; "          </div>" ].

Definition update_blog_listing (posts : list post) : IO.M unit :=
  let* listing_html := IO.read_file BLOG_LISTING_FILE in
  match Re.sub blog_list_pattern (blog_list_region (blog_list_html posts))
               listing_html with
  | inl e => IO.raise (IO.ReError e)
  | inr listing_html => IO.write_file BLOG_LISTING_FILE listing_html
  end.

(** *** main *)

Section Main.

(** The Markdown converter of the [markdown] package. *)
Variable markdown_to_html : string -> string.

(** The clock: the date [datetime.now()] gives during the run. *)
Variable now : DateTime.date.

(** The body of the loop over [md_files]; [md_file] is the name of the
    file in [BLOG_SRC_DIR]. *)
Definition process (md_file : string) (posts : list post) : IO.M (list post) :=
  IO.print ("Processing " +:+ md_file +:+ "...");;
  let* content := IO.read_file (joinpath BLOG_SRC_DIR md_file) in
  let metadata := fst (parse_frontmatter content) in
  let markdown_content := snd (parse_frontmatter content) in
  let slug := stem md_file in
  let html_content := markdown_to_html markdown_content in
  let* post_html :=
    generate_blog_post now metadata html_content slug TEMPLATE_FILE in
  let post_dir := joinpath BLOG_OUTPUT_DIR slug in
  IO.mkdir post_dir;;
  let output_file := joinpath post_dir "index.html" in
  IO.write_file output_file post_html;;
  IO.print ("  Generated: " +:+ output_file);;
  IO.ret (posts ++ [ post_record now slug metadata ]).

Fixpoint process_all (md_files : list string) (posts : list post)
    : IO.M (list post) :=
  match md_files with
  | [] => IO.ret posts
  | md_file :: md_files' =>
      let* posts := process md_file posts in
      process_all md_files' posts
  end.

Definition check_mark : string :=
  String "195" (String "162" (String "197" (String "147"
    (String "226" (String "128" (String "156" EmptyString)))))).

(** [md_files] is what [BLOG_SRC_DIR.glob('*.md')] lists, in the order
    the operating system gives. *)
Definition main (md_files : list string) : IO.M unit :=
  IO.mkdir BLOG_SRC_DIR;;
  IO.mkdir BLOG_OUTPUT_DIR;;
  match md_files with
  | [] =>
      IO.print ("No markdown files found in " +:+ BLOG_SRC_DIR +:+ "/");;
      IO.print ("Create markdown files in " +:+ BLOG_SRC_DIR
                +:+ "/ to generate blog posts.")
  | _ =>
      let* posts := process_all md_files [] in
      IO.print (nl +:+ "Updating blog listing page...");;
      update_blog_listing posts;;
      IO.print ("  Updated: " +:+ BLOG_LISTING_FILE);;
      IO.print (nl +:+ check_mark +:+ " Build complete! Generated "
                +:+ decimal (N.of_nat (length posts)) +:+ " blog post(s).")
  end.

End Main.

(** ** What a pattern matches, without the search order *)

Module ReSpec.
Import PyStr Re.

(** Every character of [s] satisfies [p]. *)
Definition all_chars (p : ascii -> bool) (s : string) : Prop :=
  forallb_str p s = true.

(** [matches r w s1 caps caps1]: the pattern [r] matches the text [w]
    when [s1] follows it, and takes the groups from [caps] to [caps1]. *)
Inductive matches : regex -> string -> string -> captures -> captures -> Prop :=
| m_eps s1 caps : matches Eps EmptyString s1 caps caps
| m_chr c s1 caps : matches (Chr c) (String c EmptyString) s1 caps caps
| m_cls p c s1 caps :
    p c = true -> matches (Cls p) (String c EmptyString) s1 caps caps
| m_seq r1 r2 w1 w2 s2 caps caps1 caps2 :
    matches r1 w1 (w2 +:+ s2) caps caps1 ->
    matches r2 w2 s2 caps1 caps2 ->
    matches (Seq r1 r2) (w1 +:+ w2) s2 caps caps2
| m_alt_l r1 r2 w s1 caps caps1 :
    matches r1 w s1 caps caps1 -> matches (Alt r1 r2) w s1 caps caps1
| m_alt_r r1 r2 w s1 caps caps1 :
    matches r2 w s1 caps caps1 -> matches (Alt r1 r2) w s1 caps caps1
| m_star p w s1 caps : all_chars p w -> matches (Star p) w s1 caps caps
| m_lazy p w s1 caps : all_chars p w -> matches (StarLazy p) w s1 caps caps
| m_group n r w s1 caps caps1 :
    matches r w s1 caps caps1 ->
    matches (Group n r) w s1 caps ((n, w) :: caps1)
| m_eol s1 caps :
    s1 = EmptyString \/ s1 = nl -> matches Eol EmptyString s1 caps caps.
End ReSpec.

(** A frontmatter block at the start of a text: three hyphens, white
    space up to a line end, the text of the block, a line of three hyphens
    with white space up to a line end, and the body.  White space is
    Python's here, the characters outside ASCII included. *)
Definition frontmatter_block (content : string) : Prop :=
  exists ws1 text ws2 body : string,
    content = "---" +:+ ws1 +:+ PyStr.nl +:+ text +:+ PyStr.nl +:+ "---"
              +:+ ws2 +:+ PyStr.nl +:+ body
    /\ PyStr.isspace_text ws1 = true
    /\ PyStr.isspace_text ws2 = true.

(** A no-break space (U+00A0), and a document whose opening line ends
    with one. *)
Definition nbsp : string := String "194" (String "160" EmptyString).

Definition nbsp_document : string :=
  "---" +:+ nbsp +:+ PyStr.nl +:+ "title: x" +:+ PyStr.nl +:+ "---"
  +:+ PyStr.nl +:+ "Body".

(** [stripped p s t]: [t] is [s] without the characters of the set [p] at
    its two ends, all of them. *)
Definition starts_clean (p : ascii -> bool) (t : string) : Prop :=
  match t with
  | String c _ => p c = false
  | EmptyString => True
  end.

Fixpoint ends_clean (p : ascii -> bool) (t : string) : Prop :=
  match t with
  | EmptyString => True
  | String c EmptyString => p c = false
  | String _ t' => ends_clean p t'
  end.

Definition stripped (p : ascii -> bool) (s t : string) : Prop :=
  exists a b : string,
    s = a +:+ t +:+ b
    /\ ReSpec.all_chars p a /\ ReSpec.all_chars p b
    /\ starts_clean p t /\ ends_clean p t.

(** [trimmed s t]: [t] is [s] without the white space at its two ends,
    all of it, white space being Python's: what [s.strip()] gives. *)
Definition trimmed (s t : string) : Prop :=
  exists a b : string,
    s = a +:+ t +:+ b
    /\ PyStr.isspace_text a = true /\ PyStr.isspace_text b = true
    /\ starts_clean PyStr.isspace t /\ PyStr.starts_wide t = false
    /\ ends_clean PyStr.isspace t /\ PyStr.ends_wide t = false.

(** The specification's reading of the quotes of a value: one layer of
    surrounding single or double quotes is taken off, if there is one. *)
Definition spec_strip_one_layer (v : string) : string :=
  match v with
  | String c v' =>
      if (Ascii.eqb c PyStr.DQ || Ascii.eqb c PyStr.SQ)
         && PyStr.startswith (String c "") (PyStr.drop (String.length v' - 1) v')
         && negb (PyStr.is_empty v')
      then PyStr.take (String.length v' - 1) v'
      else v
  | EmptyString => v
  end.

(** Sample documents. *)
Definition doc_of_line (line : string) : string :=
  "---" +:+ PyStr.nl +:+ line +:+ PyStr.nl +:+ "---" +:+ PyStr.nl +:+ "Body".

Definition quoted (q : string) (v : string) : string := q +:+ v +:+ q.

(** ** Dates as text *)

(** YYYY-MM-DD and "Month DD, YYYY" for the numbers of a date. *)
Definition iso_text (y m d : N) : string :=
  DateTime.zfill 4 y +:+ "-" +:+ DateTime.zfill 2 m +:+ "-" +:+ DateTime.zfill 2 d.

Definition long_text (y m d : N) : string :=
  DateTime.month_name m +:+ " " +:+ DateTime.zfill 2 d +:+ ", "
  +:+ DateTime.zfill 4 y.

(** A check of all numbers from [start] on, [fuel] of them. *)
Fixpoint forall_from (f : N -> bool) (fuel : nat) (start : N) : bool :=
  match fuel with
  | O => true
  | S k => f start && forall_from f k (N.succ start)
  end.

(** The text of a number in [w] digits is [w] digits and reads back as
    the number. *)
Definition digits_ok (w : nat) (n : N) : bool :=
  let s := DateTime.zfill w n in
  (String.length s =? w) && PyStr.forallb_str PyStr.isdigit s
  && (PyStr.int s =? n)%N.




(** ** Templates *)

(** A template cut into pieces: plain text and placeholders. *)
Inductive segment : Type :=
| Text (s : string)
| TITLE | DESCRIPTION | DATE | SLUG | CONTENT.

Definition segment_text (g : segment) : string :=
  match g with
  | Text s => s
  | TITLE => "{{TITLE}}"
  | DESCRIPTION => "{{DESCRIPTION}}"
  | DATE => "{{DATE}}"
  | SLUG => "{{SLUG}}"
  | CONTENT => "{{CONTENT}}"
  end.

Definition template_text (segs : list segment) : string :=
  concat_str (map segment_text segs).

(** The values that go into a page. *)
Record page_values : Type := PageValues {
  v_title : string;
  v_description : string;
  v_date : string;
  v_slug : string;
  v_content : string
}.

(** Every placeholder replaced by its value, all at once. *)
Definition fill (v : page_values) (g : segment) : string :=
  match g with
  | Text s => s
  | TITLE => v_title v
  | DESCRIPTION => v_description v
  | DATE => v_date v
  | SLUG => v_slug v
  | CONTENT => v_content v
  end.

Definition filled (v : page_values) (segs : list segment) : string :=
  concat_str (map (fill v) segs).

(** An occurrence of [tok] can begin in [s]: [tok] occurs in [s], or
    [s] ends with a beginning of [tok], which the text behind [s] may
    complete. *)
Fixpoint starts_in (tok s : string) : bool :=
  match s with
  | EmptyString => false
  | String _ r =>
      PyStr.startswith tok s || PyStr.startswith s tok || starts_in tok r
  end.

(** None of the placeholders [gs] can begin in [s]. *)
Definition free_of (gs : list segment) (s : string) : bool :=
  forallb (fun g => negb (starts_in (segment_text g) s)) gs.

(** The placeholders in the order in which they are replaced, and the
    ones that are replaced after a given one: these are the replacements
    that the value of that one goes through. *)
Definition placeholders : list segment :=
  [ TITLE; DESCRIPTION; DATE; SLUG; CONTENT ].

Definition after (g : segment) : list segment :=
  match g with
  | TITLE => [ DESCRIPTION; DATE; SLUG; CONTENT ]
  | DESCRIPTION => [ DATE; SLUG; CONTENT ]
  | DATE => [ SLUG; CONTENT ]
  | SLUG => [ CONTENT ]
  | _ => []
  end.

(** No placeholder can begin in the plain text of the template, and the
    placeholder [g] cannot. *)
Definition texts_free (segs : list segment) : Prop :=
  forall s, In (Text s) segs -> free_of placeholders s = true.

Definition seg_free (g : segment) (segs : list segment) : Prop :=
  forall s, In (Text s) segs -> starts_in (segment_text g) s = false.

(** The values [generate_blog_post] puts into the page of a post. *)
Definition values_of (now : DateTime.date) (metadata : metadata_t)
    (html_content slug : string) : page_values :=
  PageValues (post_title metadata slug)
             (default EmptyString (metadata !! "description"))
             (post_date now metadata) slug html_content.

(** One placeholder replaced by a value; the value becomes plain text. *)
Definition is_text (g : segment) : bool :=
  match g with Text _ => true | _ => false end.

Definition same_placeholder (g h : segment) : bool :=
  match g, h with
  | TITLE, TITLE | DESCRIPTION, DESCRIPTION | DATE, DATE | SLUG, SLUG
  | CONTENT, CONTENT => true
  | _, _ => false
  end.

Definition put (g : segment) (v : string) (h : segment) : segment :=
  if same_placeholder g h then Text v else h.

(** [a] may stand before [b] in a list sorted down by [key]. *)
Definition before {A : Type} (key : A -> string) (a b : A) : Prop :=
  String.le (key b) (key a).

(** ** The site on disk *)

Definition src_path (md_file : string) : string := joinpath BLOG_SRC_DIR md_file.
Definition post_dir (slug : string) : string := joinpath BLOG_OUTPUT_DIR slug.
Definition page_path (slug : string) : string :=
  joinpath (post_dir slug) "index.html".

(** The page [generate_blog_post] makes from a template. *)
Definition page_html (now : DateTime.date) (metadata : metadata_t)
    (html_content slug template : string) : string :=
  PyStr.replace "{{CONTENT}}" html_content
    (PyStr.replace "{{SLUG}}" slug
      (PyStr.replace "{{DATE}}" (post_date now metadata)
        (PyStr.replace "{{DESCRIPTION}}"
           (default EmptyString (metadata !! "description"))
           (PyStr.replace "{{TITLE}}" (post_title metadata slug) template)))).

Section Site.
Variable markdown_to_html : string -> string.
Variable now : DateTime.date.

(** The page and the record of the source file [md_file] with the text
    [content]. *)
Definition page_of (template md_file content : string) : string :=
  page_html now (fst (parse_frontmatter content))
    (markdown_to_html (snd (parse_frontmatter content)))
    (stem md_file) template.

Definition record_of (md_file content : string) : post :=
  post_record now (stem md_file) (fst (parse_frontmatter content)).

Definition source (fs : gmap string string) (md_file : string) : string :=
  default EmptyString (fs !! src_path md_file).

(** The files after the pages of [md_files] have been written, the
    sources being read from [fs0]. *)
Definition write_pages (template : string) (fs0 : gmap string string)
    (md_files : list string) (fs : gmap string string) : gmap string string :=
  fold_left
    (fun acc md_file =>
       <[page_path (stem md_file)
         := page_of template md_file (source fs0 md_file)]> acc)
    md_files fs.
End Site.

(** A source file name as a directory can hold it, whose slug names a
    directory of its own.  The slug [..] of a file named ...md passes:
    its page has the path blog/../index.html; [slug_ok] below leaves it
    out. *)
Definition name_ok (md_file : string) : Prop :=
  PyStr.contains "/" (stem md_file) = false
  /\ stem md_file <> "." /\ stem md_file <> EmptyString.

(** The state in which the loop over [md_files] runs through: every
    source can be read, and no slug is taken by a regular file. *)
Definition sources_ok (fs : gmap string string) (md_files : list string) : Prop :=
  forall md_file, In md_file md_files ->
    name_ok md_file
    /\ is_Some (fs !! src_path md_file)
    /\ fs !! post_dir (stem md_file) = None.

(** The two directories of the site are not regular files. *)
Definition dirs_ok (fs : gmap string string) : Prop :=
  fs !! BLOG_SRC_DIR = None /\ fs !! BLOG_OUTPUT_DIR = None.

(** What the loop of [main] does to the outside world for one file. *)
Definition process_events (md_file : string) : list IO.event :=
  [ IO.EvPrint ("Processing " +:+ md_file +:+ "...");
    IO.EvRead (src_path md_file);
    IO.EvRead TEMPLATE_FILE;
    IO.EvMkdir (post_dir (stem md_file));
    IO.EvWrite (page_path (stem md_file));
    IO.EvPrint ("  Generated: " +:+ page_path (stem md_file)) ].

(** What [main] does before the loop and when there is nothing to do. *)
Definition startup_events : list IO.event :=
  [ IO.EvMkdir BLOG_SRC_DIR; IO.EvMkdir BLOG_OUTPUT_DIR ].

Definition no_files_events : list IO.event :=
  [ IO.EvPrint "No markdown files found in blog_src/";
    IO.EvPrint "Create markdown files in blog_src/ to generate blog posts." ].

(** The event touches the file at [path]. *)
Definition touches (path : string) (e : IO.event) : Prop :=
  e = IO.EvRead path \/ e = IO.EvWrite path.

(** [extends w w']: every file of [w] is still a file in [w']. *)
Definition extends (w w' : IO.world) : Prop :=
  forall path, is_Some (IO.files w !! path) -> is_Some (IO.files w' !! path).

(** Every file the trace says was written is on disk. *)
Definition written_on_disk (w : IO.world) : Prop :=
  forall path, In (IO.EvWrite path) (IO.trace w) -> is_Some (IO.files w !! path).

(** A computation that removes nothing, whether it returns or raises. *)
Definition keeps_files {A : Type} (c : IO.M A) : Prop :=
  forall w, extends w (snd (c w))
            /\ (written_on_disk w -> written_on_disk (snd (c w))).

(** Sample worlds. *)
Definition world_of (fs : gmap string string) : IO.world := IO.World fs ∅ [].

(** ** The listing *)

Definition blog_list_close : string := "</div>".

(** The text [update_blog_listing] hands to [re.sub] as replacement. *)
Definition region_of (posts : list post) : string :=
  blog_list_region (blog_list_html posts).

(** What a region-by-region insertion of the text [region], letter for
    letter, makes of a listing. *)
Definition literal_listing (region doc : string) : string :=
  Re.sub_from blog_list_pattern (fun _ => region) 0 doc.

(** The specification's reading of the update: the first region only,
    from its opening tag to the last closing tag of the document. *)
Fixpoint rfind (p s : string) : option nat :=
  match s with
  | EmptyString => if PyStr.startswith p s then Some 0 else None
  | String _ s' =>
      match rfind p s' with
      | Some i => Some (S i)
      | None => if PyStr.startswith p s then Some 0 else None
      end
  end.

Definition spec_replace_first_greedy (region doc : string) : string :=
  match PyStr.find blog_list_open doc with
  | None => doc
  | Some i =>
      let after := PyStr.drop (i + String.length blog_list_open) doc in
      match rfind blog_list_close after with
      | None => doc
      | Some j =>
          PyStr.take i doc +:+ region
          +:+ PyStr.drop (j + String.length blog_list_close) after
      end
  end.

(** Sample posts and listings. *)
Definition sample_post (title date description : string) : post :=
  Post.Post "hello" title date description.

Definition plain_post : post := sample_post "Hello" "March 05, 2024" "".

(** A backslash and a digit, a backslash and a group name, two
    backslashes, a backslash and the letter n. *)
Definition bs : string := String Re.BS EmptyString.
Definition group_one : string := bs +:+ "1".
Definition group_x : string := bs +:+ "g<x>".
Definition two_backslashes : string := "a" +:+ bs +:+ bs +:+ "b".
Definition backslash_n : string := "a" +:+ bs +:+ "n".

Definition listing_one_region : string :=
  "<body>" +:+ blog_list_open +:+ "old</div><p>footer</p></body>".

Definition listing_nested_close : string :=
  blog_list_open +:+ "old</div><p>footer</p></div>".

Definition listing_two_regions : string :=
  blog_list_open +:+ "a</div><hr>" +:+ blog_list_open +:+ "b</div>".

(** The listing [update_blog_listing] leaves on disk, if it leaves one. *)
Definition listing_written (posts : list post) (doc : string) : option string :=
  IO.files (snd (update_blog_listing posts
                   (world_of {[ BLOG_LISTING_FILE := doc ]})))
    !! BLOG_LISTING_FILE.

(** A small site: one post with an explicit date, a template and a
    listing with an empty region. *)
Definition sample_source : string :=
  "---" +:+ PyStr.nl +:+ "title: Hello" +:+ PyStr.nl +:+ "date: 2024-03-05"
  +:+ PyStr.nl +:+ "---" +:+ PyStr.nl +:+ "Text".

Definition sample_site : IO.world :=
  world_of (<[ "blog_src/hello.md" := sample_source ]>
           (<[ TEMPLATE_FILE := "<h1>{{TITLE}}</h1>{{CONTENT}}" ]>
           {[ BLOG_LISTING_FILE := "<body>" +:+ blog_list_open +:+ "</div></body>" ]})).

Definition sample_site_no_listing : IO.world :=
  world_of (<[ "blog_src/hello.md" := sample_source ]>
           {[ TEMPLATE_FILE := "<h1>{{TITLE}}</h1>{{CONTENT}}" ]}).

Definition sample_site_no_template : IO.world :=
  world_of {[ "blog_src/hello.md" := sample_source ]}.

Definition sample_template : list segment :=
  [ Text "<h1>"; TITLE; Text "</h1>"; CONTENT ].

(** A template with a style sheet, whose braces are not placeholders. *)
Definition styled_template : list segment :=
  [ Text "<style>h1 {color: red}</style><h1>"; TITLE; Text "</h1>"; CONTENT ].

(** ** Documents with a frontmatter block *)

(** A text that starts with a character outside the set [p]. *)
Definition starts_outside (p : ascii -> bool) (t : string) : Prop :=
  match t with
  | String c _ => p c = false
  | EmptyString => False
  end.

(** The line that closes a block, from the line end before it. *)
Definition closing_line : string := PyStr.nl +:+ "---".

(** A document whose block holds [text]: white space may follow the
    hyphens of either delimiter. *)
Definition block_doc (ws1 text ws2 body : string) : string :=
  "---" +:+ ws1 +:+ PyStr.nl +:+ text +:+ closing_line +:+ ws2 +:+ PyStr.nl
  +:+ body.

(** The metadata the loop over the lines of a block gives. *)
Definition metadata_of (text : string) : metadata_t :=
  fold_left parse_line (PyStr.split PyStr.LF text) ∅.

(** ** A run of the build that goes through *)

(** What [main] does to the outside world after the loop, with [n]
    posts. *)
Definition listing_events (n : nat) : list IO.event :=
  [ IO.EvPrint (PyStr.nl +:+ "Updating blog listing page...");
    IO.EvRead BLOG_LISTING_FILE;
    IO.EvWrite BLOG_LISTING_FILE;
    IO.EvPrint "  Updated: blog/index.html";
    IO.EvPrint (PyStr.nl +:+ check_mark +:+ " Build complete! Generated "
                +:+ PyStr.decimal (N.of_nat n) +:+ " blog post(s).") ].

(** The records [main] hands to [update_blog_listing]: one for every
    source file, in the order of the files. *)
Definition records_of (now : DateTime.date) (fs : gmap string string)
    (md_files : list string) : list post :=
  map (fun md_file => record_of now md_file (source fs md_file)) md_files.

(** A block of four lines: two titles, a line without a colon and an
    empty line. *)
Definition sample_block : string :=
  "title: A" +:+ PyStr.nl +:+ "just text" +:+ PyStr.nl +:+ PyStr.nl
  +:+ "title: B".

(** A site with the post my-first-post.md and a template. *)
Definition first_post_site : IO.world :=
  world_of (<[ "blog_src/my-first-post.md" := sample_source ]>
           {[ TEMPLATE_FILE := "<h1>{{TITLE}}</h1>{{CONTENT}}" ]}).

(** Every source file carries a date of its own in its frontmatter. *)
Definition dated (fs : gmap string string) (md_files : list string) : Prop :=
  forall md_file, In md_file md_files ->
    is_Some (fst (parse_frontmatter (source fs md_file)) !! "date").

(** The files a run that goes through leaves behind. *)
Definition built (markdown_to_html : string -> string) (now : DateTime.date)
    (template listing : string) (md_files : list string)
    (fs : gmap string string) : gmap string string :=
  <[BLOG_LISTING_FILE
    := literal_listing (region_of (records_of now fs md_files)) listing]>
    (write_pages markdown_to_html now template fs md_files fs).

(** ** Source file names *)

(** A name [glob('*.md')] lists whose part before the suffix is not
    empty. *)
Definition md_name (name : string) : Prop :=
  exists base : string, base <> EmptyString /\ name = base +:+ ".md".

(** ** The order of the months in the listing *)

(** The record of a post whose frontmatter gives the date [date]. *)
Definition dated_record (now : DateTime.date) (slug date : string) : post :=
  post_record now slug {[ "date" := date ]}.

(** ** What a run may change *)

(** The paths a run over [md_files] writes to: the listing and the pages
    of the posts. *)
Definition output_path (md_files : list string) (path : string) : Prop :=
  path = BLOG_LISTING_FILE
  \/ exists md_file, In md_file md_files /\ path = page_path (stem md_file).

(** An event that is not a write, or a write to an allowed path. *)
Definition writes_within (allowed : string -> Prop) (e : IO.event) : Prop :=
  forall path, e = IO.EvWrite path -> allowed path.

(** [changes_only allowed c]: whether [c] returns or raises, the trace
    has only grown, every write went to an allowed path, and a path that
    is not allowed holds what it held before. *)
Definition changes_only {A : Type} (allowed : string -> Prop) (c : IO.M A)
    : Prop :=
  forall w,
    (exists new,
        IO.trace (snd (c w)) = IO.trace w ++ new
        /\ Forall (writes_within allowed) new)
    /\ (forall path, ~ allowed path ->
          IO.files (snd (c w)) !! path = IO.files w !! path).

(** A site whose only post is named index.html.md. *)
Definition index_post_site : IO.world :=
  world_of (<[ "blog_src/index.html.md" := sample_source ]>
           (<[ TEMPLATE_FILE := "<h1>{{TITLE}}</h1>{{CONTENT}}" ]>
           {[ BLOG_LISTING_FILE := "<body>" +:+ blog_list_open +:+ "</div></body>" ]})).

(** ** What the metadata look like *)

(** A key as the parser stores it: no colon, no line end, no white space
    at its ends. *)
Definition clean_key (k : string) : Prop :=
  PyStr.contains ":" k = false
  /\ PyStr.contains PyStr.nl k = false
  /\ starts_clean PyStr.isspace k /\ ends_clean PyStr.isspace k.

(** A value as the parser stores it: no line end, no single quote at its
    ends. *)
Definition clean_value (v : string) : Prop :=
  PyStr.contains PyStr.nl v = false
  /\ starts_clean (Ascii.eqb PyStr.SQ) v /\ ends_clean (Ascii.eqb PyStr.SQ) v.

(** ** The replacement text *)

(** What follows the fragments in the replacement text: the line end,
    the indentation and the closing tag. *)
Definition region_tail : string := PyStr.nl +:+ "          </div>".

(** The listing [update_blog_listing] writes, and the one it writes when
    it is run on that. *)
Definition listing_once (posts : list post) (doc : string) : string :=
  literal_listing (region_of posts) doc.

Definition listing_twice (posts : list post) (doc : string) : string :=
  listing_once posts (listing_once posts doc).

(** ** Templates without placeholders *)

(** None of the five placeholders occurs in the text; other braces
    may, and so may the placeholders in another case. *)
Definition no_placeholder (template : string) : Prop :=
  PyStr.contains "{{TITLE}}" template = false
  /\ PyStr.contains "{{DESCRIPTION}}" template = false
  /\ PyStr.contains "{{DATE}}" template = false
  /\ PyStr.contains "{{SLUG}}" template = false
  /\ PyStr.contains "{{CONTENT}}" template = false.

(** A site whose listing has no list to fill. *)
Definition sample_site_plain : IO.world :=
  world_of (<[ "blog_src/hello.md" := sample_source ]>
           (<[ TEMPLATE_FILE := "<h1>{{TITLE}}</h1>{{CONTENT}}" ]>
           {[ BLOG_LISTING_FILE := "<body><p>Posts</p></body>" ]})).

(** ** Names and paths *)

(** A name that is one step of a path: not empty, neither [.] nor [..],
    and without a slash. *)
Definition plain_name (s : string) : Prop :=
  s <> EmptyString /\ s <> "." /\ s <> ".."
  /\ PyStr.contains "/" s = false.

(** A path made of plain names.  Such a path has no other spelling: [..]
    in a path leads out of a directory again, so that blog/../index.html
    is the file index.html. *)
Definition canonical (path : string) : Prop :=
  Forall plain_name (PyStr.split "/" path).

(** A source file whose slug is a plain name: its page goes to a
    directory of its own below the output directory. *)
Definition slug_ok (md_file : string) : Prop := plain_name (stem md_file).

(** ** Sites of plain text *)

(** ASCII text with LF line ends: a text file on which, moreover, white
    space, digits and letters are the ASCII ones for Python as well. *)
Definition ascii_text (s : string) : bool :=
  PyStr.isascii s && negb (PyStr.contains (String PyStr.CR EmptyString) s).

(** A date text that is not an ISO date of a year before 1000, whose
    long form depends on the C library. *)
Definition late_date (date : string) : bool :=
  match DateTime.strptime date with
  | Some d => (1000 <=? DateTime.year d)%N
  | None => true
  end.

(** A source file with an ASCII name and ASCII text whose date, if it
    gives one, is not before the year 1000. *)
Definition plain_source (md_file content : string) : bool :=
  PyStr.isascii md_file && ascii_text content
  && late_date (default EmptyString
                  (fst (parse_frontmatter content) !! "date")).

Definition plain_sources (fs : gmap string string) (md_files : list string)
    : Prop :=
  forall md_file, In md_file md_files ->
    plain_source md_file (source fs md_file) = true.

(** The day of the build is a date of the year 1000 or later. *)
Definition clock_ok (now : DateTime.date) : Prop :=
  DateTime.valid (DateTime.year now) (DateTime.month now) (DateTime.day now)
  = true
  /\ (1000 <= DateTime.year now)%N.

(** A listing with the line ends of another system. *)
Definition crlf_listing : string :=
  "<body>" +:+ String PyStr.CR PyStr.nl +:+ "</body>".

(** * Properties *)

(** ** Strings *)

#[local] Arguments String.append !_ _ / : simpl nomatch.

Section StringFacts.
Import PyStr.

Lemma append_nil_r (s : string) : s +:+ "" = s.
Proof. induction s as [|c s IH]; simpl; [done | by f_equal]. Qed.

Lemma append_assoc (a b c : string) : (a +:+ b) +:+ c = a +:+ (b +:+ c).
Proof. induction a as [|x a IH]; simpl; [done | by f_equal]. Qed.

Lemma length_append (a b : string) :
  String.length (a +:+ b) = String.length a + String.length b.
Proof. induction a as [|x a IH]; simpl; [done | by f_equal]. Qed.

Lemma drop_append (a b : string) : drop (String.length a) (a +:+ b) = b.
Proof. induction a as [|x a IH]; simpl; [by destruct b | done]. Qed.

Lemma take_append (a b : string) : take (String.length a) (a +:+ b) = a.
Proof. induction a as [|x a IH]; simpl; [by destruct b | by f_equal]. Qed.

Lemma take_drop (n : nat) (s : string) : take n s +:+ drop n s = s.
Proof.
  revert s; induction n as [|n IH]; intros [|c s]; simpl; try done.
  by f_equal.
Qed.

Lemma length_drop (n : nat) (s : string) :
  String.length (drop n s) = String.length s - n.
Proof. revert s; induction n as [|n IH]; intros [|c s]; simpl; auto. Qed.

Lemma startswith_append (p s : string) : startswith p (p +:+ s) = true.
Proof.
  induction p as [|c p IH]; simpl; [done |].
  by rewrite Ascii.eqb_refl, IH.
Qed.

Lemma startswith_split (p s : string) :
  startswith p s = true -> s = p +:+ drop (String.length p) s.
Proof.
  revert s; induction p as [|c p IH]; intros [|a s]; simpl; try done.
  intros [Hc Hp]%andb_prop. apply Ascii.eqb_eq in Hc as ->.
  by rewrite <- IH.
Qed.

Lemma startswith_iff (p s : string) :
  startswith p s = true <-> exists t, s = p +:+ t.
Proof.
  split.
  - intros H. eexists. by apply startswith_split.
  - intros [t ->]. apply startswith_append.
Qed.
End StringFacts.

(** ** The matcher against the meaning of a pattern *)

Section MatcherFacts.
Import PyStr Re ReSpec.
Context {T : Type}.

Lemma star_greedy_sound p s (k : string -> option T) x :
  star_greedy p s k = Some x ->
  exists w s1, s = w +:+ s1 /\ all_chars p w /\ k s1 = Some x.
Proof.
  induction s as [|c s IH]; simpl.
  - intros H. by exists EmptyString, EmptyString.
  - destruct (p c) eqn:Hp.
    + destruct (star_greedy p s k) as [y|] eqn:Hg.
      * intros [= <-]. destruct (IH eq_refl) as (w & s1 & -> & Hw & Hk).
        exists (String c w), s1. split; [done |]. split; [|done].
        unfold all_chars in *. simpl. by rewrite Hp.
      * intros H. by exists EmptyString, (String c s).
    + intros H. by exists EmptyString, (String c s).
Qed.

Lemma star_lazy_sound p s (k : string -> option T) x :
  star_lazy p s k = Some x ->
  exists w s1, s = w +:+ s1 /\ all_chars p w /\ k s1 = Some x.
Proof.
  induction s as [|c s IH]; simpl.
  - destruct (k EmptyString) eqn:Hk; [|done].
    intros [= <-]. by exists EmptyString, EmptyString.
  - destruct (k (String c s)) eqn:Hk.
    + intros [= <-]. by exists EmptyString, (String c s).
    + destruct (p c) eqn:Hp; [|done].
      intros (w & s1 & -> & Hw & Hk1)%IH. exists (String c w), s1.
      split; [done |]. split; [|done].
      unfold all_chars in *. simpl. by rewrite Hp.
Qed.

Lemma star_greedy_complete p w s1 (k : string -> option T) :
  all_chars p w -> star_greedy p (w +:+ s1) k = None -> k s1 = None.
Proof.
  unfold all_chars. induction w as [|c w IH]; simpl.
  - intros _. destruct s1 as [|c s1]; simpl; [done |].
    destruct (p c); [|done]. by destruct (star_greedy p s1 k).
  - intros [Hc Hw]%andb_prop. rewrite Hc.
    destruct (star_greedy p (w +:+ s1) k) eqn:Hg; [done |].
    intros _. by apply IH.
Qed.

Lemma star_lazy_complete p w s1 (k : string -> option T) :
  all_chars p w -> star_lazy p (w +:+ s1) k = None -> k s1 = None.
Proof.
  unfold all_chars. induction w as [|c w IH]; simpl.
  - intros _. destruct s1 as [|c s1]; simpl; by destruct (k _).
  - intros [Hc Hw]%andb_prop.
    destruct (k (String c (w +:+ s1))); [done |]. rewrite Hc. by apply IH.
Qed.
End MatcherFacts.

Section RunFacts.
Import PyStr Re ReSpec.

Lemma take_consumed (w s1 : string) :
  take (String.length (w +:+ s1) - String.length s1) (w +:+ s1) = w.
Proof.
  rewrite length_append.
  replace (String.length w + String.length s1 - String.length s1)
    with (String.length w) by lia.
  apply take_append.
Qed.

(** Soundness: an answer of the matcher comes from a match of the
    pattern on which the continuation gave that answer. *)
Lemma run_sound {T} (r : regex) :
  forall s caps (k : string -> captures -> option T) x,
    run r s caps k = Some x ->
    exists w s1 caps1,
      s = w +:+ s1 /\ matches r w s1 caps caps1 /\ k s1 caps1 = Some x.
Proof.
  induction r as [|c|p|r1 IH1 r2 IH2|r1 IH1 r2 IH2|p|p|n r IH|];
    intros s caps k x; simpl.
  - intros H. exists EmptyString, s, caps. split; [done |].
    split; [constructor | done].
  - destruct s as [|a s]; [done |]. destruct (Ascii.eqb a c) eqn:Ha; [|done].
    apply Ascii.eqb_eq in Ha as ->. intros H.
    exists (String c EmptyString), s, caps. split; [done |].
    split; [constructor | done].
  - destruct s as [|a s]; [done |]. destruct (p a) eqn:Ha; [|done].
    intros H. exists (String a EmptyString), s, caps. split; [done |].
    split; [by constructor | done].
  - intros (w1 & s1 & caps1 & -> & Hm1 & H)%IH1.
    apply IH2 in H as (w2 & s2 & caps2 & -> & Hm2 & H).
    exists (w1 +:+ w2), s2, caps2. split; [by rewrite append_assoc |].
    split; [by econstructor | done].
  - destruct (run r1 s caps k) as [y|] eqn:H1.
    + intros [= <-]. apply IH1 in H1 as (w & s1 & caps1 & -> & Hm & H).
      exists w, s1, caps1. split; [done |]. split; [by apply m_alt_l | done].
    + intros (w & s1 & caps1 & -> & Hm & H)%IH2.
      exists w, s1, caps1. split; [done |]. split; [by apply m_alt_r | done].
  - intros (w & s1 & -> & Hw & H)%star_greedy_sound.
    exists w, s1, caps. split; [done |]. split; [by constructor | done].
  - intros (w & s1 & -> & Hw & H)%star_lazy_sound.
    exists w, s1, caps. split; [done |]. split; [by constructor | done].
  - intros (w & s1 & caps1 & -> & Hm & H)%IH.
    rewrite take_consumed in H.
    exists w, s1, ((n, w) :: caps1). split; [done |].
    split; [by constructor | done].
  - destruct s as [|a [|b s]]; try done.
    + intros H. exists EmptyString, EmptyString, caps. split; [done |].
      split; [constructor; by left | done].
    + destruct (Ascii.eqb a LF) eqn:Ha; [|done].
      apply Ascii.eqb_eq in Ha as ->. intros H.
      exists EmptyString, nl, caps. split; [done |].
      split; [constructor; by right | done].
Qed.

(** Completeness: when the matcher gives up, the continuation has
    refused every match of the pattern. *)
Lemma run_complete {T} r w s1 caps caps1 :
  matches r w s1 caps caps1 ->
  forall k : string -> captures -> option T,
    run r (w +:+ s1) caps k = None -> k s1 caps1 = None.
Proof.
  intros Hm.
  induction Hm as [s1 caps|c s1 caps|p c s1 caps Hp
                  |r1 r2 w1 w2 s2 caps caps1 caps2 _ IH1 _ IH2
                  |r1 r2 w s1 caps caps1 _ IH|r1 r2 w s1 caps caps1 _ IH
                  |p w s1 caps Hw|p w s1 caps Hw
                  |n r w s1 caps caps1 _ IH|s1 caps Hs];
    intros k Hrun; simpl in Hrun.
  - done.
  - by rewrite Ascii.eqb_refl in Hrun.
  - by rewrite Hp in Hrun.
  - rewrite append_assoc in Hrun. apply IH1 in Hrun. by apply IH2.
  - destruct (run r1 (w +:+ s1) caps k) eqn:H1; [done |]. by apply IH.
  - destruct (run r1 (w +:+ s1) caps k) eqn:H1; [done |]. by apply IH.
  - by apply (star_greedy_complete p w s1 (fun s => k s caps) Hw).
  - by apply (star_lazy_complete p w s1 (fun s => k s caps) Hw).
  - apply IH in Hrun. by rewrite take_consumed in Hrun.
  - destruct Hs as [-> | ->]; [done |].
    unfold nl in Hrun. by rewrite Ascii.eqb_refl in Hrun.
Qed.

Lemma re_match_sound r s m :
  re_match r s = Some m ->
  s = matched m +:+ rest m /\ matches r (matched m) (rest m) [] (caps m).
Proof.
  unfold re_match.
  intros (w & s1 & caps1 & -> & Hm & [= <-])%run_sound.
  simpl. by rewrite take_consumed.
Qed.

Lemma re_match_complete r w s1 caps1 :
  matches r w s1 [] caps1 -> exists m, re_match r (w +:+ s1) = Some m.
Proof.
  intros Hm. destruct (re_match r (w +:+ s1)) as [m|] eqn:H; [by exists m |].
  unfold re_match in H. by apply (run_complete _ _ _ _ _ Hm) in H.
Qed.
End RunFacts.

(** ** Taking a match apart *)

Section MatchShape.
Import PyStr Re ReSpec.

Lemma matches_seq r1 r2 w s2 caps caps2 :
  matches (Seq r1 r2) w s2 caps caps2 ->
  exists w1 w2 caps1,
    w = w1 +:+ w2 /\ matches r1 w1 (w2 +:+ s2) caps caps1
    /\ matches r2 w2 s2 caps1 caps2.
Proof. inversion 1; subst. eauto 10. Qed.


Lemma matches_group n r w s1 caps caps1 :
  matches (Group n r) w s1 caps caps1 ->
  exists caps0, matches r w s1 caps caps0 /\ caps1 = (n, w) :: caps0.
Proof. inversion 1; subst; eauto. Qed.

Lemma matches_chr c w s1 caps caps1 :
  matches (Chr c) w s1 caps caps1 -> w = String c EmptyString /\ caps1 = caps.
Proof. by inversion 1. Qed.


Lemma matches_star p w s1 caps caps1 :
  matches (Star p) w s1 caps caps1 -> all_chars p w /\ caps1 = caps.
Proof. by inversion 1. Qed.

Lemma matches_lazy p w s1 caps caps1 :
  matches (StarLazy p) w s1 caps caps1 -> all_chars p w /\ caps1 = caps.
Proof. by inversion 1. Qed.

Lemma matches_eps w s1 caps caps1 :
  matches Eps w s1 caps caps1 -> w = EmptyString /\ caps1 = caps.
Proof. by inversion 1. Qed.

Lemma matches_eol w s1 caps caps1 :
  matches Eol w s1 caps caps1 ->
  w = EmptyString /\ caps1 = caps /\ (s1 = EmptyString \/ s1 = nl).
Proof. by inversion 1. Qed.

Lemma matches_lit p w s1 caps caps1 :
  matches (lit p) w s1 caps caps1 -> w = p /\ caps1 = caps.
Proof.
  revert w s1 caps1; induction p as [|c p IH]; intros w s1 caps1 H; simpl in H.
  - by apply matches_eps in H.
  - apply matches_seq in H as (w1 & w2 & caps0 & -> & H1 & H2).
    apply matches_chr in H1 as [-> ->]. by apply IH in H2 as [-> ->].
Qed.

Lemma lit_matches p s1 caps : matches (lit p) p s1 caps caps.
Proof.
  revert s1; induction p as [|c p IH]; intros s1; simpl; [constructor |].
  apply (m_seq (Chr c) (lit p) (String c EmptyString) p s1 caps caps caps);
    [constructor | apply IH].
Qed.
End MatchShape.

(** Take the first piece off a match of a sequence: [w] names the text
    of the piece and [H1] its match. *)
Ltac pop H w H1 :=
  let w2 := fresh "rest" in
  let c := fresh "caps" in
  apply matches_seq in H as (w & w2 & c & -> & H1 & H).

Ltac pop_lit H :=
  let w := fresh "w" in
  let H1 := fresh "H" in
  pop H w H1; apply matches_lit in H1 as [-> ->].

Ltac pop_chr H :=
  let w := fresh "w" in
  let H1 := fresh "H" in
  pop H w H1; apply matches_chr in H1 as [-> ->].

Ltac pop_star H w Hw :=
  let H1 := fresh "H" in
  pop H w H1;
  first [ apply matches_star in H1 as [Hw ->]
        | apply matches_lazy in H1 as [Hw ->] ].


(** ** parse_frontmatter *)

Section Frontmatter.
Import PyStr Re ReSpec.

Lemma frontmatter_pattern_block w s1 caps1 :
  matches frontmatter_pattern w s1 [] caps1 ->
  exists ws1 text ws2 body,
    w +:+ s1 = "---" +:+ ws1 +:+ nl +:+ text +:+ nl +:+ "---" +:+ ws2 +:+ nl +:+ body
    /\ all_chars isspace ws1 /\ all_chars isspace ws2
    /\ caps1 = [(2, take (String.length body - String.length s1) body); (1, text)].
Proof.
  intros H. unfold frontmatter_pattern, cat in H. cbn [foldr] in H.
  pop_lit H. pop_star H ws1 Hws1. pop_chr H.
  pop H text H1. apply matches_group in H1 as (c0 & H1 & ->).
  apply matches_lazy in H1 as [_ ->].
  pop_chr H. pop_lit H. pop_star H ws2 Hws2. pop_chr H.
  pop H body H1. apply matches_group in H1 as (c0 & H1 & ->).
  apply matches_star in H1 as [_ ->].
  pop H w H1. apply matches_eol in H1 as (-> & -> & _).
  apply matches_eps in H as [-> ->].
  exists ws1, text, ws2, (body +:+ s1). rewrite !append_assoc.
  split; [done |]. split; [done |]. split; [done |].
  simpl. by rewrite take_consumed.
Qed.

(** ASCII white space is white space. *)
Lemma isspace_text_all ws : all_chars isspace ws -> isspace_text ws = true.
Proof.
  unfold all_chars. induction ws as [|c ws IH]; [done |].
  cbn [forallb_str isspace_text]. intros [-> Hws]%andb_prop. by apply IH.
Qed.

(** A no-break space after the hyphens is white space as well: the
    document is one with a block. *)
Lemma nbsp_document_block : frontmatter_block nbsp_document.
Proof. by exists nbsp, "title: x", EmptyString, "Body". Qed.

Lemma no_dashes_no_block content :
  startswith "---" content = false -> ~ frontmatter_block content.
Proof.
  intros H (ws1 & text & ws2 & body & -> & _). by simpl in H.
Qed.
End Frontmatter.

(** C7. A text that does not begin with a frontmatter block is returned
    whole, with empty metadata; the parser is a total function and raises
    nothing.  The block is the one of the pattern: three hyphens at the
    very start, white space up to a line end, a text, and a line that
    starts with three hyphens and has only white space up to its end,
    where white space is all that Python counts as such. *)
Theorem parse_frontmatter_absent (content : string) :
  ~ frontmatter_block content -> parse_frontmatter content = (∅, content).
Proof.
  intros Hno. unfold parse_frontmatter.
  destruct (Re.re_match frontmatter_pattern content) as [m|] eqn:Hm; [|done].
  destruct Hno. apply re_match_sound in Hm as [-> Hm].
  apply frontmatter_pattern_block in Hm as (ws1 & text & ws2 & body & ? & ? & ? & _).
  exists ws1, text, ws2, body. split; [done |].
  split; by apply isspace_text_all.
Qed.

Lemma parse_frontmatter_absent_witness :
  ~ frontmatter_block "# Hello" /\ parse_frontmatter "# Hello" = (∅, "# Hello").
Proof.
  assert (H : ~ frontmatter_block "# Hello")
    by (apply no_dashes_no_block; reflexivity).
  split; [exact H | exact (parse_frontmatter_absent "# Hello" H)].
Defined.

(** ** strip *)

Section Strip.
Import PyStr ReSpec.
Variable p : ascii -> bool.

Lemma lstrip_by_all a s : all_chars p a -> lstrip_by p (a +:+ s) = lstrip_by p s.
Proof.
  unfold all_chars. induction a as [|c a IH]; simpl; [done |].
  intros [Hc Ha]%andb_prop. rewrite Hc. by apply IH.
Qed.

Lemma lstrip_by_clean t : starts_clean p t -> lstrip_by p t = t.
Proof. destruct t as [|c t]; simpl; [done |]. by intros ->. Qed.

Lemma rstrip_by_all b : all_chars p b -> rstrip_by p b = EmptyString.
Proof.
  unfold all_chars. induction b as [|c b IH]; simpl; [done |].
  intros [Hc Hb]%andb_prop. by rewrite (IH Hb), Hc.
Qed.

Lemma rstrip_by_clean t b :
  ends_clean p t -> all_chars p b -> rstrip_by p (t +:+ b) = t.
Proof.
  intros Ht Hb. induction t as [|c t IH]; simpl.
  - by apply rstrip_by_all.
  - destruct t as [|c' t].
    + simpl in *. rewrite (rstrip_by_all _ Hb). simpl. by rewrite Ht.
    + rewrite (IH Ht). done.
Qed.

Lemma strip_by_unique s t : stripped p s t -> strip_by p s = t.
Proof.
  intros (a & b & -> & Ha & Hb & Hs & He). unfold strip_by.
  rewrite (lstrip_by_all _ _ Ha). destruct t as [|c t].
  - simpl. replace b with (b +:+ EmptyString) by apply append_nil_r.
    rewrite (lstrip_by_all _ _ Hb). done.
  - rewrite lstrip_by_clean; [by apply rstrip_by_clean |]. exact Hs.
Qed.

Lemma lstrip_by_split s :
  exists a, s = a +:+ lstrip_by p s /\ all_chars p a
            /\ starts_clean p (lstrip_by p s).
Proof.
  induction s as [|c s (a & Hs & Ha & Hc)]; simpl.
  - by exists EmptyString.
  - destruct (p c) eqn:Hp.
    + exists (String c a). simpl. split; [by f_equal |].
      split; [|done]. unfold all_chars in *. simpl. by rewrite Hp.
    + by exists EmptyString.
Qed.

Lemma rstrip_by_split s :
  exists b, s = rstrip_by p s +:+ b /\ all_chars p b
            /\ ends_clean p (rstrip_by p s).
Proof.
  induction s as [|c s (b & Hs & Hb & Hc)]; simpl.
  - by exists EmptyString.
  - destruct (rstrip_by p s) as [|c' r] eqn:Hr; simpl.
    + destruct (p c) eqn:Hp.
      * exists (String c s). split; [done |]. split; [|done].
        simpl in Hs. subst b. unfold all_chars in *. simpl. by rewrite Hp.
      * exists b. simpl in Hs. by subst b.
    + exists b. split; [by f_equal |]. done.
Qed.

Lemma rstrip_by_starts s : starts_clean p s -> starts_clean p (rstrip_by p s).
Proof.
  destruct s as [|c s]; simpl; [done |]. intros Hc.
  rewrite Hc, andb_false_r. done.
Qed.

(** [strip_by] takes every character of the set off both ends. *)
Lemma strip_by_stripped s : stripped p s (strip_by p s).
Proof.
  destruct (lstrip_by_split s) as (a & Hs & Ha & Hc).
  destruct (rstrip_by_split (lstrip_by p s)) as (b & Hs' & Hb & He).
  exists a, b. unfold strip_by. split; [by rewrite <- Hs', <- Hs |].
  repeat split; try done. by apply rstrip_by_starts.
Qed.
End Strip.

Section ParseLine.
Import PyStr ReSpec.

Lemma split_once_first sep key value :
  contains (String sep "") key = false ->
  split_once sep (key +:+ String sep value) = Some (key, value).
Proof.
  induction key as [|c key IH]; simpl.
  - by rewrite Ascii.eqb_refl.
  - intros [Hc Hk]%orb_false_elim.
    rewrite Ascii.eqb_sym in Hc.
    destruct (Ascii.eqb c sep); [done |]. by rewrite (IH Hk).
Qed.

Lemma split_once_none sep line :
  contains (String sep "") line = false -> split_once sep line = None.
Proof.
  induction line as [|c line IH]; simpl; [done |].
  intros [Hc Hk]%orb_false_elim. rewrite Ascii.eqb_sym in Hc.
  destruct (Ascii.eqb c sep); [done |]. by rewrite (IH Hk).
Qed.
End ParseLine.

(** The value of a line: white space off both ends, then every double
    quote off both ends, then every single quote off both ends. *)
Lemma parse_line_stripped (metadata : metadata_t) (key value k v1 v2 v3 : string) :
  PyStr.contains ":" key = false ->
  stripped PyStr.isspace key k ->
  stripped PyStr.isspace value v1 ->
  stripped (Ascii.eqb PyStr.DQ) v1 v2 ->
  stripped (Ascii.eqb PyStr.SQ) v2 v3 ->
  parse_line metadata (key +:+ ":" +:+ value) = <[k := v3]> metadata.
Proof.
  intros Hkey Hk H1 H2 H3. unfold parse_line.
  change (key +:+ ":" +:+ value) with (key +:+ String ":" value).
  rewrite (split_once_first ":"%char key value Hkey).
  unfold PyStr.strip, PyStr.strip_char.
  rewrite (strip_by_unique _ _ _ Hk), (strip_by_unique _ _ _ H1).
  by rewrite (strip_by_unique _ _ _ H2), (strip_by_unique _ _ _ H3).
Qed.

(** Where Python's strip is the ASCII one, the strip here trims as
    Python does. *)
Lemma strip_trimmed (s : string) :
  PyStr.strip_is_ascii s = true -> trimmed s (PyStr.strip s).
Proof.
  unfold PyStr.strip_is_ascii.
  intros [Hs%negb_true_iff He%negb_true_iff]%andb_prop.
  destruct (strip_by_stripped PyStr.isspace s) as (a & b & Heq & Ha & Hb & Hc & Hd).
  exists a, b. fold (PyStr.strip s) in *.
  repeat split; try done; by apply isspace_text_all.
Qed.

(** C3, as amended.  On a line with a colon the parser trims the key and
    the text after the first colon, and then takes off the value every
    leading and trailing double quote and after that every leading and
    trailing single quote, however many there are and whether or not they
    pair up.  A value in one pair of double quotes loses it; so does a
    value in two pairs; single quotes around double quotes leave the
    double quotes in place.  The statement is for keys and values that
    have no white space from outside ASCII left at their ends once the
    ASCII white space is off; Python would trim that as well, the strip
    here does not. *)
Theorem parse_line_strips_all_quotes :
  (forall (metadata : metadata_t) (key value : string),
      PyStr.contains ":" key = false ->
      PyStr.strip_is_ascii key = true ->
      PyStr.strip_is_ascii value = true ->
      exists k v1 v2 v3 : string,
        trimmed key k
        /\ trimmed value v1
        /\ stripped (Ascii.eqb PyStr.DQ) v1 v2
        /\ stripped (Ascii.eqb PyStr.SQ) v2 v3
        /\ parse_line metadata (key +:+ ":" +:+ value) = <[k := v3]> metadata)
  /\ parse_frontmatter (doc_of_line ("title: " +:+ quoted PyStr.dq "Hello"))
     = ({[ "title" := "Hello" ]}, "Body")
  /\ parse_frontmatter
       (doc_of_line ("title: " +:+ quoted PyStr.dq (quoted PyStr.dq "Hello")))
     = ({[ "title" := "Hello" ]}, "Body")
  /\ parse_frontmatter
       (doc_of_line ("title: " +:+ quoted "'" (quoted PyStr.dq "Hello")))
     = ({[ "title" := quoted PyStr.dq "Hello" ]}, "Body").
Proof.
  split; [|by vm_compute].
  intros metadata key value Hkey Hk Hv.
  exists (PyStr.strip key), (PyStr.strip value),
    (PyStr.strip_char PyStr.DQ (PyStr.strip value)),
    (PyStr.strip_char PyStr.SQ (PyStr.strip_char PyStr.DQ (PyStr.strip value))).
  split; [by apply strip_trimmed |]. split; [by apply strip_trimmed |].
  split; [apply strip_by_stripped |]. split; [apply strip_by_stripped |].
  unfold parse_line.
  change (key +:+ ":" +:+ value) with (key +:+ String ":" value).
  by rewrite (split_once_first ":"%char key value Hkey).
Qed.

Lemma parse_line_strips_all_quotes_witness :
  PyStr.contains ":" "title" = false
  /\ PyStr.strip_is_ascii "title" = true
  /\ PyStr.strip_is_ascii (" " +:+ quoted PyStr.dq "Hello") = true
  /\ exists k v1 v2 v3 : string,
      trimmed "title" k
      /\ trimmed (" " +:+ quoted PyStr.dq "Hello") v1
      /\ stripped (Ascii.eqb PyStr.DQ) v1 v2
      /\ stripped (Ascii.eqb PyStr.SQ) v2 v3
      /\ parse_line ∅ ("title" +:+ ":" +:+ " " +:+ quoted PyStr.dq "Hello")
         = <[k := v3]> ∅.
Proof.
  split; [reflexivity |]. split; [reflexivity |]. split; [reflexivity |].
  exact (proj1 parse_line_strips_all_quotes ∅ "title"
           (" " +:+ quoted PyStr.dq "Hello") eq_refl eq_refl eq_refl).
Defined.

(** The claim as it was stated fails on a value in two pairs of double
    quotes: one layer off would leave one pair, the parser leaves none. *)
Lemma one_layer_counterexample :
  let value := quoted PyStr.dq (quoted PyStr.dq "Hello") in
  fst (parse_frontmatter (doc_of_line ("title: " +:+ value))) !! "title"
    = Some "Hello"
  /\ spec_strip_one_layer value = quoted PyStr.dq "Hello"
  /\ fst (parse_frontmatter (doc_of_line ("title: " +:+ value))) !! "title"
     <> Some (spec_strip_one_layer value).
Proof. by vm_compute. Qed.

(** ** Dates *)

Section Dates.
Import PyStr Re ReSpec DateTime.

Lemma forall_from_spec f fuel start :
  forall_from f fuel start = true ->
  forall n, (start <= n < start + N.of_nat fuel)%N -> f n = true.
Proof.
  revert start; induction fuel as [|k IH]; intros start H n Hn; [lia |].
  simpl in H. apply andb_prop in H as [H0 H].
  destruct (N.eq_dec n start) as [-> | Hne]; [done |].
  apply (IH _ H). lia.
Qed.

Lemma years_ok : forall_from (digits_ok 4) (100 * 100) 0 = true.
Proof. by vm_compute. Qed.

Lemma two_digits_ok : forall_from (digits_ok 2) 100 0 = true.
Proof. by vm_compute. Qed.






Lemma year_text y :
  (y <= 9999)%N ->
  exists c1 c2 c3 c4,
    zfill 4 y = String c1 (String c2 (String c3 (String c4 EmptyString)))
    /\ isdigit c1 = true /\ isdigit c2 = true /\ isdigit c3 = true
    /\ isdigit c4 = true /\ int (zfill 4 y) = y.
Proof.
  intros Hy. assert (H : digits_ok 4 y = true)
    by (apply (forall_from_spec _ _ _ years_ok); lia).
  unfold digits_ok in H. apply andb_prop in H as [H Hint%N.eqb_eq].
  apply andb_prop in H as [Hlen%Nat.eqb_eq Hdig].
  destruct (zfill 4 y) as [|c1 [|c2 [|c3 [|c4 [|c5 s]]]]]; try done.
  simpl in Hdig.
  apply andb_prop in Hdig as [H1 Hdig]. apply andb_prop in Hdig as [H2 Hdig].
  apply andb_prop in Hdig as [H3 Hdig]. apply andb_prop in Hdig as [H4 _].
  by exists c1, c2, c3, c4.
Qed.

Lemma two_digit_text n :
  (n <= 99)%N ->
  exists c1 c2,
    zfill 2 n = String c1 (String c2 EmptyString)
    /\ isdigit c1 = true /\ isdigit c2 = true /\ int (zfill 2 n) = n.
Proof.
  intros Hn. assert (H : digits_ok 2 n = true)
    by (apply (forall_from_spec _ _ _ two_digits_ok); lia).
  unfold digits_ok in H. apply andb_prop in H as [H Hint%N.eqb_eq].
  apply andb_prop in H as [Hlen%Nat.eqb_eq Hdig].
  destruct (zfill 2 n) as [|c1 [|c2 [|c3 s]]]; try done.
  simpl in Hdig.
  apply andb_prop in Hdig as [H1 Hdig]. apply andb_prop in Hdig as [H2 _].
  by exists c1, c2.
Qed.
End Dates.

Section Strptime.
Import PyStr Re ReSpec DateTime.

Lemma take_two a b t :
  take (String.length (String a (String b t)) - String.length t)
       (String a (String b t)) = String a (String b EmptyString).
Proof. exact (take_consumed (String a (String b EmptyString)) t). Qed.

Lemma take_four a b c d t :
  take (String.length (String a (String b (String c (String d t))))
        - String.length t)
       (String a (String b (String c (String d t))))
  = String a (String b (String c (String d EmptyString))).
Proof.
  exact (take_consumed (String a (String b (String c (String d EmptyString)))) t).
Qed.

Lemma run_seq {T} r1 r2 s caps (k : string -> captures -> option T) :
  run (Seq r1 r2) s caps k = run r1 s caps (fun s1 caps1 => run r2 s1 caps1 k).
Proof. reflexivity. Qed.

Lemma run_chr {T} c s caps (k : string -> captures -> option T) :
  run (Chr c) (String c s) caps k = k s caps.
Proof. simpl. by rewrite Ascii.eqb_refl. Qed.

Lemma run_eps {T} s caps (k : string -> captures -> option T) :
  run Eps s caps k = k s caps.
Proof. reflexivity. Qed.

Lemma run_year {T} c1 c2 c3 c4 t caps (k : string -> captures -> option T) :
  isdigit c1 = true -> isdigit c2 = true -> isdigit c3 = true ->
  isdigit c4 = true ->
  run (Group 1 year_re) (String c1 (String c2 (String c3 (String c4 t)))) caps k
  = k t ((1, String c1 (String c2 (String c3 (String c4 EmptyString)))) :: caps).
Proof.
  intros H1 H2 H3 H4. cbn [run year_re cat foldr digit_class].
  rewrite H1, H2, H3, H4. by rewrite take_four.
Qed.

(** One month or day: print the number, run the matcher on the two
    digits, and the first way through the alternatives is the one that
    takes both. *)
Ltac two_digit_case :=
  match goal with
  | |- context [zfill 2 ?n] =>
      let s := eval vm_compute in (zfill 2 n) in change (zfill 2 n) with s
  end;
  let Hk := fresh "Hk" in
  intros Hk; cbn -[take String.length Nat.sub];
  rewrite take_two, Hk; reflexivity.

Lemma run_month {T} m t caps (k : string -> captures -> option T) x :
  (1 <= m <= 12)%N ->
  k t ((2, zfill 2 m) :: caps) = Some x ->
  run (Group 2 month_re) (zfill 2 m +:+ t) caps k = Some x.
Proof.
  intros Hm.
  assert (Hc : In m [1; 2; 3; 4; 5; 6; 7; 8; 9; 10; 11; 12]%N) by (simpl; lia).
  clear Hm. simpl in Hc.
  repeat (destruct Hc as [<- | Hc]; [two_digit_case |]). done.
Qed.

Lemma run_day {T} d t caps (k : string -> captures -> option T) x :
  (1 <= d <= 31)%N ->
  k t ((3, zfill 2 d) :: caps) = Some x ->
  run (Group 3 day_re) (zfill 2 d +:+ t) caps k = Some x.
Proof.
  intros Hd.
  assert (Hc : In d [1; 2; 3; 4; 5; 6; 7; 8; 9; 10; 11; 12; 13; 14; 15; 16;
                     17; 18; 19; 20; 21; 22; 23; 24; 25; 26; 27; 28; 29;
                     30; 31]%N) by (simpl; lia).
  clear Hd. simpl in Hc.
  repeat (destruct Hc as [<- | Hc]; [two_digit_case |]). done.
Qed.

Lemma valid_bounds y m d :
  valid y m d = true ->
  (1 <= y <= 9999 /\ 1 <= m <= 12 /\ 1 <= d <= 31)%N.
Proof.
  unfold valid. rewrite !andb_true_iff, !N.leb_le.
  intros (((((? & ?) & ?) & ?) & ?) & Hd).
  assert (Hc : In m [1; 2; 3; 4; 5; 6; 7; 8; 9; 10; 11; 12]%N) by (simpl; lia).
  assert (days_in_month y m <= 31)%N; [|lia].
  simpl in Hc.
  repeat (destruct Hc as [<- | Hc];
          [simpl; try destruct (is_leap y); lia |]). done.
Qed.

(** The text of a valid date parses back to the date. *)
Lemma strptime_iso_text y m d :
  valid y m d = true -> strptime (iso_text y m d) = Some (Date y m d).
Proof.
  intros Hv. destruct (valid_bounds _ _ _ Hv) as (Hy & Hm & Hd).
  destruct (year_text y) as (c1 & c2 & c3 & c4 & HY & H1 & H2 & H3 & H4 & Hiy);
    [lia |].
  destruct (two_digit_text m) as (a1 & a2 & HM & _ & _ & Him); [lia |].
  destruct (two_digit_text d) as (b1 & b2 & HD & _ & _ & Hid); [lia |].
  unfold strptime.
  assert (Hrun : re_match Ymd_pattern (iso_text y m d)
            = Some (MatchObj (iso_text y m d)
                      [(3, zfill 2 d); (2, zfill 2 m); (1, zfill 4 y)]
                      EmptyString)).
  { unfold re_match, Ymd_pattern, cat, iso_text. cbn [foldr].
    rewrite run_seq. rewrite HY at 1. cbn [String.append].
    rewrite (run_year c1 c2 c3 c4 _ _ _ H1 H2 H3 H4).
    rewrite run_seq, run_chr, run_seq.
    apply run_month; [done |]. rewrite run_seq, run_chr, run_seq.
    rewrite <- (append_nil_r (zfill 2 d)) at 1.
    apply run_day; [done |]. rewrite run_eps.
    cbn [String.length]. rewrite Nat.sub_0_r.
    f_equal. f_equal; [| by rewrite HY].
    rewrite <- (append_nil_r (zfill 4 y +:+ _)) at 2.
    rewrite <- (take_append (zfill 4 y +:+ _) EmptyString) at 3.
    by rewrite !append_nil_r. }
  rewrite Hrun. unfold group_int. cbn [rest is_empty group capture caps Nat.eqb default].
  simpl. rewrite Hiy, Him, Hid, Hv. done.
Qed.
End Strptime.

Section FormatDate.
Import PyStr Re ReSpec DateTime.

Lemma matches_cons_cls p c r w s1 caps caps1 :
  p c = true -> matches r w s1 caps caps1 ->
  matches (Seq (Cls p) r) (String c w) s1 caps caps1.
Proof.
  intros Hp Hm.
  apply (m_seq (Cls p) r (String c EmptyString) w s1 caps caps caps1);
    [by constructor | done].
Qed.

Lemma matches_cons_chr c r w s1 caps caps1 :
  matches r w s1 caps caps1 ->
  matches (Seq (Chr c) r) (String c w) s1 caps caps1.
Proof.
  intros Hm.
  apply (m_seq (Chr c) r (String c EmptyString) w s1 caps caps caps1);
    [constructor | done].
Qed.


Lemma iso_date_pattern_text y m d :
  (y <= 9999)%N -> (m <= 99)%N -> (d <= 99)%N ->
  exists mo, re_match iso_date_pattern (iso_text y m d) = Some mo.
Proof.
  intros Hy Hm Hd.
  destruct (year_text y Hy) as (c1 & c2 & c3 & c4 & HY & H1 & H2 & H3 & H4 & _).
  destruct (two_digit_text m Hm) as (a1 & a2 & HM & Ha1 & Ha2 & _).
  destruct (two_digit_text d Hd) as (b1 & b2 & HD & Hb1 & Hb2 & _).
  unfold iso_text. rewrite HY, HM, HD.
  rewrite <- (append_nil_r (_ +:+ _)).
  apply (re_match_complete _ _ _ []).
  unfold iso_date_pattern, cat. cbn [foldr String.append].
  repeat first [ apply matches_cons_cls; [done |]
               | apply matches_cons_chr
               | apply m_eps ].
Qed.



End FormatDate.




(** ** str.replace and the placeholders *)

Section Replace.
Import PyStr.

Lemma replace_from_skip old new n s :
  replace_from old new n s = replace_from old new 0 (drop n s).
Proof.
  revert n; induction s as [|c s IH]; intros [|n]; try done.
  simpl. apply IH.
Qed.

Lemma startswith_cons_append c p s :
  startswith (String c p) (String c (p +:+ s)) = true.
Proof. exact (startswith_append (String c p) s). Qed.

(** An occurrence at the front is replaced, and the scan goes on
    behind it. *)
Lemma replace_hit old new s :
  old <> EmptyString ->
  replace old new (old +:+ s) = new +:+ replace old new s.
Proof.
  intros Hne. unfold replace. destruct old as [|c old]; [done |].
  cbn [is_empty]. change (String c old +:+ s) with (String c (old +:+ s)).
  cbn [replace_from].
  rewrite startswith_cons_append.
  rewrite replace_from_skip. f_equal.
  replace (String.length (String c old) - 1) with (String.length old)
    by (simpl; lia).
  by rewrite drop_append.
Qed.

Lemma replace_miss old new c s :
  old <> EmptyString -> startswith old (String c s) = false ->
  replace old new (String c s) = String c (replace old new s).
Proof.
  intros Hne Hs. unfold replace. destruct old as [|a old]; [done |].
  cbn [is_empty replace_from]. by rewrite Hs.
Qed.

(** Where [tok] starts a text made of two parts, it starts the first
    part or the first part is a beginning of [tok]. *)
Lemma startswith_app_cases tok : forall c p t,
  startswith tok (String c p +:+ t) = true ->
  startswith tok (String c p) = true \/ startswith (String c p) tok = true.
Proof.
  induction tok as [|a tok IH]; intros c p t; [by left |].
  change (String c p +:+ t) with (String c (p +:+ t)).
  cbn [startswith]. rewrite (Ascii.eqb_sym c a).
  destruct (Ascii.eqb a c); [|done]. cbn [andb].
  destruct p as [|d p]; [intros _; right; by destruct tok |].
  intros H. by apply IH in H.
Qed.

(** No occurrence of [tok] begins in a text in which none can begin,
    whatever follows the text. *)
Lemma starts_in_no_start tok c s t :
  starts_in tok (String c s) = false ->
  startswith tok (String c (s +:+ t)) = false.
Proof.
  cbn [starts_in]. intros [[H1 H2]%orb_false_elim _]%orb_false_elim.
  destruct (startswith tok (String c (s +:+ t))) eqn:E; [|done].
  apply (startswith_app_cases tok c s t) in E as [E | E]; congruence.
Qed.

Lemma starts_in_tail tok c s :
  starts_in tok (String c s) = false -> starts_in tok s = false.
Proof. cbn [starts_in]. by intros [_ H]%orb_false_elim. Qed.

Lemma replace_free tok v s t :
  tok <> EmptyString -> starts_in tok s = false ->
  replace tok v (s +:+ t) = s +:+ replace tok v t.
Proof.
  intros Hne. induction s as [|c s IH]; [done |]. intros Hs.
  change (String c s +:+ t) with (String c (s +:+ t)).
  rewrite replace_miss; [| done | by apply starts_in_no_start].
  by rewrite (IH (starts_in_tail _ _ _ Hs)).
Qed.

Lemma free_of_in gs g s :
  free_of gs s = true -> In g gs -> starts_in (segment_text g) s = false.
Proof.
  unfold free_of. rewrite forallb_forall. intros H Hin.
  apply negb_true_iff. by apply H.
Qed.

Lemma concat_str_cons s l : concat_str (s :: l) = s +:+ concat_str l.
Proof. reflexivity. Qed.

Lemma replace_empty old new : replace old new EmptyString
                              = if is_empty old then new else EmptyString.
Proof. by destruct old. Qed.

(** A placeholder at the front that is not the one looked for is
    passed over. *)
Lemma replace_other g h v t :
  is_text g = false -> is_text h = false -> same_placeholder g h = false ->
  replace (segment_text g) v (segment_text h +:+ t)
  = segment_text h +:+ replace (segment_text g) v t.
Proof. destruct g, h; try done; intros _ _ _; reflexivity. Qed.

Lemma replace_same g h v t :
  is_text g = false -> same_placeholder g h = true ->
  replace (segment_text g) v (segment_text h +:+ t)
  = v +:+ replace (segment_text g) v t.
Proof.
  destruct g, h; try done; intros _ _; by apply replace_hit.
Qed.

(** One [replace] of the chain, on a template in whose plain text the
    placeholder cannot begin: the placeholder becomes its value and
    nothing else moves. *)
Lemma replace_segments g v segs :
  is_text g = false -> seg_free g segs ->
  replace (segment_text g) v (template_text segs)
  = template_text (map (put g v) segs).
Proof.
  intros Hg. unfold template_text.
  induction segs as [|h segs IH]; intros Hfree.
  - by destruct g.
  - cbn [map]. rewrite !concat_str_cons.
    assert (Hrest : seg_free g segs)
      by (intros s Hs; apply Hfree; by right).
    specialize (IH Hrest). unfold put at 1.
    destruct (same_placeholder g h) eqn:Hsame.
    + rewrite replace_same, IH; done.
    + destruct (is_text h) eqn:Hh.
      * destruct h as [s| | | | |]; try done.
        cbn [segment_text].
        rewrite replace_free, IH; [done | by destruct g |].
        apply Hfree. by left.
      * rewrite replace_other, IH; done.
Qed.

(** A value put in place of a placeholder is plain text from then on. *)
Lemma put_free g h v segs :
  starts_in (segment_text g) v = false -> seg_free g segs ->
  seg_free g (map (put h v) segs).
Proof.
  intros Hv Hfree s [k [Hs Hin]]%in_map_iff. unfold put in Hs.
  destruct (same_placeholder h k); [by injection Hs as <- |].
  subst k. by apply Hfree.
Qed.

Lemma texts_free_seg g segs :
  In g placeholders -> texts_free segs -> seg_free g segs.
Proof.
  intros Hg Hfree s Hs.
  apply (free_of_in placeholders g s); [by apply Hfree | done].
Qed.

Lemma fill_put v segs :
  template_text
    (map (put CONTENT (v_content v))
      (map (put SLUG (v_slug v))
        (map (put DATE (v_date v))
          (map (put DESCRIPTION (v_description v))
            (map (put TITLE (v_title v)) segs)))))
  = filled v segs.
Proof.
  unfold template_text, filled. rewrite !map_map. f_equal.
  apply map_ext. by intros [].
Qed.
End Replace.

(** C4, as amended.  The five placeholders are replaced one after the
    other, in the order TITLE, DESCRIPTION, DATE, SLUG, CONTENT, each
    replacement working on the text the one before it left; so the value
    of a placeholder goes through the replacements that come after its
    own.  When none of the placeholders can begin in the plain text of
    the template, and none of those that are replaced later can begin in
    the title, the description, the date and the slug -- the text neither
    holds the placeholder nor ends with a beginning of it -- the page is
    the template with every placeholder replaced by its value, the values
    verbatim.  Braces of any other kind may be there, a value may hold
    its own placeholder or one replaced before it, and the content, which
    goes in last, may hold anything.  The template is a text file, read
    as it is stored. *)
Theorem generate_blog_post_fills (now : DateTime.date) (metadata : metadata_t)
    (html_content slug template_path : string) (segs : list segment)
    (w : IO.world) :
  IO.files w !! template_path = Some (template_text segs) ->
  IO.text_file (template_text segs) = true ->
  texts_free segs ->
  free_of (after TITLE) (post_title metadata slug) = true ->
  free_of (after DESCRIPTION) (default EmptyString (metadata !! "description"))
  = true ->
  free_of (after DATE) (post_date now metadata) = true ->
  free_of (after SLUG) slug = true ->
  generate_blog_post now metadata html_content slug template_path w
  = (inr (filled (values_of now metadata html_content slug) segs),
     IO.log (IO.EvRead template_path) w).
Proof.
  intros Hfile _ Hsegs Ht Hd Hdate Hslug.
  assert (Hseg : forall g, In g placeholders -> seg_free g segs)
    by (intros g Hg; by apply texts_free_seg).
  assert (Hin : forall g gs s, free_of gs s = true -> In g gs ->
                  starts_in (segment_text g) s = false)
    by (intros g gs s; apply free_of_in).
  unfold generate_blog_post, IO.bind, IO.read_file, IO.ret. rewrite Hfile.
  f_equal. f_equal.
  rewrite (replace_segments TITLE), (replace_segments DESCRIPTION),
    (replace_segments DATE), (replace_segments SLUG),
    (replace_segments CONTENT); try done;
    repeat (apply put_free);
    try (apply Hseg; cbn; tauto);
    try (eapply Hin; [eassumption | cbn; tauto]).
  apply (fill_put (values_of now metadata html_content slug)).
Qed.

(** ** The order of the listing *)

Section SortedReverse.
Import PyStr.
Context {A : Type} (key : A -> string).

Local Abbreviation before := (before key).

Lemma str_lt_le a b : str_lt a b = false <-> String.le b a.
Proof.
  unfold str_lt, String.ltb, String.le, String.leb.
  rewrite (String.compare_antisym a b).
  destruct (String.compare b a); simpl; split; done.
Qed.

Lemma str_lt_le_strict a b : str_lt a b = true -> String.le a b.
Proof.
  unfold str_lt, String.ltb, String.le, String.leb.
  by destruct (String.compare a b).
Qed.

Lemma insert_desc_perm x l : Permutation (insert_desc key x l) (x :: l).
Proof.
  induction l as [|y l IH]; simpl; [done |].
  destruct (str_lt (key x) (key y)); [|done].
  rewrite IH. apply perm_swap.
Qed.

Lemma sorted_reverse_perm l : Permutation (sorted_reverse key l) l.
Proof.
  induction l as [|x l IH]; simpl; [done |].
  rewrite insert_desc_perm. by constructor.
Qed.

Lemma before_trans a b c : before a b -> before b c -> before a c.
Proof. unfold before. intros Hab Hbc. by transitivity (key b). Qed.

Lemma insert_desc_sorted x l :
  StronglySorted before l -> StronglySorted before (insert_desc key x l).
Proof.
  induction l as [|y l IH]; simpl; intros Hs.
  - repeat constructor.
  - apply StronglySorted_inv in Hs as [Hs Hy].
    destruct (str_lt (key x) (key y)) eqn:Hlt.
    + constructor; [by apply IH |].
      rewrite (insert_desc_perm x l). constructor; [|done].
      by apply str_lt_le_strict.
    + apply str_lt_le in Hlt. constructor; [by constructor |].
      constructor; [done |].
      eapply Forall_impl; [exact Hy |]. intros z Hz.
      by apply (before_trans x y z).
Qed.

Lemma sorted_reverse_sorted l : StronglySorted before (sorted_reverse key l).
Proof.
  induction l as [|x l IH]; simpl; [constructor | by apply insert_desc_sorted].
Qed.

(** The sort is stable: the posts with one and the same key stand in the
    order in which they came. *)
Lemma insert_desc_filter k x l :
  StronglySorted before l ->
  List.filter (fun a => String.eqb (key a) k) (insert_desc key x l)
  = List.filter (fun a => String.eqb (key a) k) (x :: l).
Proof.
  induction l as [|y l IH]; intros Hs; [done |].
  apply StronglySorted_inv in Hs as [Hs Hy]. cbn [insert_desc].
  destruct (str_lt (key x) (key y)) eqn:Hlt; [|done].
  cbn [List.filter] in *. rewrite (IH Hs).
  destruct (String.eqb (key x) k) eqn:Hx; [|done].
  destruct (String.eqb (key y) k) eqn:Hy'; [|done].
  apply String.eqb_eq in Hx, Hy'. rewrite Hx, Hy' in Hlt.
  unfold str_lt, String.ltb in Hlt.
  pose proof (String.compare_antisym k k) as Hc.
  by destruct (String.compare k k).
Qed.

Lemma sorted_reverse_stable k l :
  List.filter (fun a => String.eqb (key a) k) (sorted_reverse key l)
  = List.filter (fun a => String.eqb (key a) k) l.
Proof.
  induction l as [|x l IH]; [done |]. cbn [sorted_reverse foldr].
  rewrite insert_desc_filter by apply sorted_reverse_sorted.
  cbn [List.filter]. unfold sorted_reverse in IH. by rewrite IH.
Qed.
End SortedReverse.

Lemma post_date_explicit now (metadata : metadata_t) date :
  metadata !! "date" = Some date -> post_date now metadata = format_date date.
Proof. intros H. unfold post_date. by rewrite H. Qed.

(** C5. The posts of the listing are the posts of the build, ordered by
    their date strings from the greatest down, posts with the same date
    in the order in which they came.  With two posts whose frontmatter
    dates are 2024-01-01 and 2024-06-01, the records hold the long forms
    "January 01, 2024" and "June 01, 2024", and the fragment of the June
    post stands before that of the January post, whichever was read
    first. *)
Theorem listing_sorted_by_date_string :
  (forall posts : list post,
      Permutation (sorted_reverse Post.date posts) posts
      /\ StronglySorted (fun a b => String.le (Post.date b) (Post.date a))
           (sorted_reverse Post.date posts)
      /\ (forall k,
            List.filter (fun a => String.eqb (Post.date a) k)
              (sorted_reverse Post.date posts)
            = List.filter (fun a => String.eqb (Post.date a) k) posts)
      /\ (posts <> [] ->
          blog_list_html posts
          = concat_str (map list_item (sorted_reverse Post.date posts))))
  /\ (forall (now : DateTime.date) (jan_slug jun_slug : string)
             (jan_metadata jun_metadata : metadata_t),
        jan_metadata !! "date" = Some "2024-01-01" ->
        jun_metadata !! "date" = Some "2024-06-01" ->
        let jan := post_record now jan_slug jan_metadata in
        let jun := post_record now jun_slug jun_metadata in
        Post.date jan = "January 01, 2024"
        /\ Post.date jun = "June 01, 2024"
        /\ blog_list_html [jan; jun] = list_item jun +:+ list_item jan
        /\ blog_list_html [jun; jan] = list_item jun +:+ list_item jan).
Proof.
  split.
  - intros posts. split; [apply sorted_reverse_perm |].
    split; [apply (sorted_reverse_sorted Post.date) |].
    split; [intros k; apply sorted_reverse_stable |].
    by destruct posts.
  - intros now jan_slug jun_slug jan_metadata jun_metadata Hjan Hjun jan jun.
    assert (Hdj : Post.date jan = "January 01, 2024")
      by (unfold jan; cbn [post_record Post.date];
          by rewrite (post_date_explicit _ _ _ Hjan)).
    assert (Hdn : Post.date jun = "June 01, 2024")
      by (unfold jun; cbn [post_record Post.date];
          by rewrite (post_date_explicit _ _ _ Hjun)).
    split; [done |]. split; [done |].
    unfold blog_list_html, sorted_reverse. cbn [foldr insert_desc].
    rewrite Hdj, Hdn.
    change (PyStr.str_lt "January 01, 2024" "June 01, 2024") with true.
    change (PyStr.str_lt "June 01, 2024" "January 01, 2024") with false.
    cbn [map concat_str foldr]. by rewrite append_nil_r.
Qed.

Lemma listing_sorted_by_date_string_witness :
  let jan := post_record (DateTime.Date 2025 1 1) "old" {[ "date" := "2024-01-01" ]} in
  let jun := post_record (DateTime.Date 2025 1 1) "new" {[ "date" := "2024-06-01" ]} in
  blog_list_html [jan; jun] = list_item jun +:+ list_item jan.
Proof.
  intros jan jun.
  exact (proj1 (proj2 (proj2
    (proj2 listing_sorted_by_date_string (DateTime.Date 2025 1 1) "old" "new"
       {[ "date" := "2024-01-01" ]} {[ "date" := "2024-06-01" ]}
       eq_refl eq_refl)))).
Defined.

(** ** main *)

Section MainFacts.
Import PyStr IO.
Variable markdown_to_html : string -> string.
Variable now : DateTime.date.

Lemma generate_blog_post_read metadata html_content slug template_path w :
  generate_blog_post now metadata html_content slug template_path w
  = match files w !! template_path with
    | Some template =>
        (inr (page_html now metadata html_content slug template),
         log (EvRead template_path) w)
    | None => (inl (FileNotFoundError template_path), w)
    end.
Proof.
  unfold generate_blog_post, bind, read_file, ret.
  by destruct (files w !! template_path).
Qed.

Lemma joinpath_plain dir name :
  name <> "." -> name <> EmptyString -> joinpath dir name = dir +:+ "/" +:+ name.
Proof.
  intros H1 H2. unfold joinpath.
  destruct (String.eqb_spec name "."); [done |]. by destruct name.
Qed.

Lemma post_dir_plain slug :
  slug <> "." -> slug <> EmptyString -> post_dir slug = "blog/" +:+ slug.
Proof. intros. unfold post_dir. by rewrite joinpath_plain. Qed.

Lemma page_path_plain slug :
  slug <> "." -> slug <> EmptyString ->
  page_path slug = "blog/" +:+ slug +:+ "/index.html".
Proof.
  intros. unfold page_path. rewrite post_dir_plain by done.
  rewrite joinpath_plain by done. by rewrite append_assoc.
Qed.

Lemma src_path_cases name :
  src_path name = "blog_src" \/ src_path name = "blog_src/" +:+ name.
Proof.
  unfold src_path, joinpath.
  destruct (String.eqb name "." || is_empty name); auto.
Qed.

Lemma append_length_inj (a b c d : string) :
  String.length a = String.length b -> a +:+ c = b +:+ d -> a = b /\ c = d.
Proof.
  revert b; induction a as [|x a IH]; intros [|y b] Hlen Heq; try done.
  simpl in *. injection Heq as -> Heq. injection Hlen as Hlen.
  by destruct (IH _ Hlen Heq) as [-> ->].
Qed.

Lemma append_cancel_r (a b c : string) : a +:+ c = b +:+ c -> a = b.
Proof.
  intros Heq. apply (append_length_inj a b c c); [|done].
  apply (f_equal String.length) in Heq. rewrite !length_append in Heq. lia.
Qed.

Lemma contains_append p a b :
  contains p b = true -> contains p (a +:+ b) = true.
Proof.
  intros Hb. induction a as [|c a IH]; [done |].
  simpl. rewrite IH. apply orb_true_r.
Qed.

Section Paths.
Variables s s' : string.
Hypothesis Hs : s <> "." /\ s <> EmptyString.
Hypothesis Hs' : s' <> "." /\ s' <> EmptyString.

Lemma page_path_inj : page_path s = page_path s' -> s = s'.
Proof.
  destruct Hs as [Ha Hb], Hs' as [Ha' Hb']. rewrite !page_path_plain by done.
  intros [= Heq]. by apply append_cancel_r in Heq.
Qed.

Lemma page_path_not_template : page_path s <> TEMPLATE_FILE.
Proof.
  destruct Hs as [Ha Hb]. rewrite page_path_plain by done. intros [= Heq].
  apply (f_equal String.length) in Heq as Hlen.
  rewrite length_append in Hlen. simpl in Hlen.
  destruct s as [|c1 [|c2 [|c3 [|c4 ?]]]]; simpl in Hlen; try lia.
  discriminate Heq.
Qed.

Lemma page_path_not_listing : page_path s <> BLOG_LISTING_FILE.
Proof.
  destruct Hs as [Ha Hb]. rewrite page_path_plain by done. intros [= Heq].
  apply (f_equal String.length) in Heq.
  rewrite length_append in Heq. simpl in Heq. lia.
Qed.

Lemma page_path_not_source name : page_path s <> src_path name.
Proof.
  destruct Hs as [Ha Hb]. rewrite page_path_plain by done.
  by destruct (src_path_cases name) as [-> | ->].
Qed.

Lemma page_path_not_dir :
  contains "/" s' = false -> page_path s <> post_dir s'.
Proof.
  destruct Hs as [Ha Hb], Hs' as [Ha' Hb'].
  rewrite page_path_plain, post_dir_plain by done.
  intros Hno [= Heq]. rewrite <- Heq in Hno.
  by rewrite contains_append in Hno.
Qed.
End Paths.

(** One turn of the loop, when nothing is in its way. *)
Lemma process_spec md_file content template posts w :
  name_ok md_file ->
  files w !! src_path md_file = Some content ->
  files w !! TEMPLATE_FILE = Some template ->
  files w !! post_dir (stem md_file) = None ->
  process markdown_to_html now md_file posts w
  = (inr (posts ++ [record_of now md_file content]),
     World (<[page_path (stem md_file)
              := page_of markdown_to_html now template md_file content]>
              (files w))
           ({[post_dir (stem md_file)]} ∪ dirs w)
           (trace w ++ process_events md_file)).
Proof.
  intros Hname Hsrc Htpl Hdir.
  unfold process, bind, print, read_file.
  cbn [files log]. fold (src_path md_file). rewrite Hsrc.
  rewrite generate_blog_post_read. cbn [files log]. rewrite Htpl.
  unfold mkdir. cbn [files log]. fold (post_dir (stem md_file)).
  rewrite Hdir. unfold write_file, ret. cbn [files dirs trace log].
  fold (page_path (stem md_file)). unfold process_events, log.
  cbn [files dirs trace]. by rewrite <- !app_assoc.
Qed.

Lemma sources_ok_tail fs md_file md_files :
  sources_ok fs (md_file :: md_files) -> sources_ok fs md_files.
Proof. intros H name Hin. apply H. by right. Qed.

Lemma name_ok_stem name : name_ok name -> stem name <> "." /\ stem name <> "".
Proof. by intros (_ & ? & ?). Qed.

(** Writing a page leaves the rest of the loop its sources, its
    template and its free slugs. *)
Lemma sources_ok_insert fs md_file page md_files :
  name_ok md_file -> sources_ok fs md_files ->
  sources_ok (<[page_path (stem md_file) := page]> fs) md_files.
Proof.
  intros Hname Hok name Hin. destruct (Hok name Hin) as (Hn & Hsrc & Hdir).
  split; [done |]. split.
  - rewrite lookup_insert_ne; [done |].
    apply page_path_not_source. by apply name_ok_stem.
  - rewrite lookup_insert_ne; [done |].
    apply page_path_not_dir; [by apply name_ok_stem.. | by destruct Hn].
Qed.

Lemma process_all_spec template fs0 md_files : forall posts w,
  files w !! TEMPLATE_FILE = Some template ->
  sources_ok (files w) md_files ->
  (forall name, In name md_files ->
     files w !! src_path name = fs0 !! src_path name) ->
  exists w',
    process_all markdown_to_html now md_files posts w
    = (inr (posts ++ map (fun name => record_of now name (source fs0 name))
                         md_files), w')
    /\ files w' = write_pages markdown_to_html now template fs0 md_files (files w)
    /\ trace w' = trace w ++ concat (map process_events md_files).
Proof.
  induction md_files as [|name md_files IH]; intros posts w Htpl Hok Hsrc.
  - exists w. cbn. by rewrite !app_nil_r.
  - destruct (Hok name (or_introl eq_refl)) as (Hname & [content Hc] & Hdir).
    cbn [process_all]. unfold bind at 1.
    rewrite (process_spec name content template posts w Hname Hc Htpl Hdir).
    assert (Hcontent : source fs0 name = content).
    { unfold source. rewrite <- Hsrc by (by left). by rewrite Hc. }
    set (w1 := World _ _ _).
    destruct (IH (posts ++ [record_of now name content]) w1)
      as (w' & Hrun & Hf & Ht).
    { cbn [w1 files]. rewrite lookup_insert_ne; [done |].
      apply page_path_not_template. by apply name_ok_stem. }
    { apply sources_ok_insert; [done |]. by eapply sources_ok_tail. }
    { intros n Hin. cbn [w1 files]. rewrite lookup_insert_ne.
      - apply Hsrc. by right.
      - apply page_path_not_source. by apply name_ok_stem. }
    exists w'. split; [|split].
    + rewrite Hrun. cbn [map]. by rewrite Hcontent, <- app_assoc.
    + rewrite Hf. unfold write_pages. cbn [fold_left w1 files].
      by rewrite Hcontent.
    + rewrite Ht. cbn [w1 trace map concat]. by rewrite <- app_assoc.
Qed.

Lemma write_pages_cons template fs0 name md_files fs :
  write_pages markdown_to_html now template fs0 (name :: md_files) fs
  = write_pages markdown_to_html now template fs0 md_files
      (<[page_path (stem name)
         := page_of markdown_to_html now template name (source fs0 name)]> fs).
Proof. reflexivity. Qed.

Lemma write_pages_other template fs0 md_files : forall fs path,
  (forall name, In name md_files -> path <> page_path (stem name)) ->
  write_pages markdown_to_html now template fs0 md_files fs !! path = fs !! path.
Proof.
  induction md_files as [|name md_files IH]; intros fs path Hne; [done |].
  rewrite write_pages_cons.
  rewrite IH by (intros n Hn; apply Hne; by right).
  rewrite lookup_insert_ne; [done |]. intros Heq.
  by apply (Hne name (or_introl eq_refl)).
Qed.

Lemma write_pages_page template fs0 md_files : forall fs name,
  (forall n, In n md_files -> name_ok n) ->
  NoDup (map stem md_files) -> In name md_files ->
  write_pages markdown_to_html now template fs0 md_files fs
    !! page_path (stem name)
  = Some (page_of markdown_to_html now template name (source fs0 name)).
Proof.
  induction md_files as [|n md_files IH]; intros fs name Hok Hnd Hin; [done |].
  rewrite write_pages_cons.
  cbn [map] in Hnd. apply NoDup_cons in Hnd as [Hfresh Hnd].
  destruct (in_dec String.string_dec name md_files) as [Hin' | Hnot].
  - apply IH; [|done..]. intros n' Hn'. apply Hok. by right.
  - destruct Hin as [-> | Hin]; [|done].
    rewrite write_pages_other; [by rewrite lookup_insert_eq |].
    intros n' Hn' Heq. apply Hfresh.
    apply page_path_inj in Heq; [| apply name_ok_stem, Hok; by left
                                 | apply name_ok_stem, Hok; by right].
    rewrite Heq. apply list_elem_of_In. by apply in_map.
Qed.

Lemma write_pages_keeps template fs0 md_files : forall fs path,
  is_Some (fs !! path) ->
  is_Some (write_pages markdown_to_html now template fs0 md_files fs !! path).
Proof.
  induction md_files as [|name md_files IH]; intros fs path Hsome; [done |].
  rewrite write_pages_cons.
  apply IH. destruct (decide (page_path (stem name) = path)) as [<- | Hne].
  - by rewrite lookup_insert_eq.
  - by rewrite lookup_insert_ne.
Qed.
End MainFacts.

(** ** Nothing is cleaned up *)

Section KeepsFiles.
Import IO.

Lemma keeps_same {A} (c : M A) : (forall w, snd (c w) = w) -> keeps_files c.
Proof. intros H w. rewrite H. split; [by intros path Hp | done]. Qed.

Lemma keeps_ret {A} (x : A) : keeps_files (ret x).
Proof. by apply keeps_same. Qed.

Lemma keeps_raise {A} e : keeps_files (@raise A e).
Proof. by apply keeps_same. Qed.

(** A step that only adds an event other than a write. *)
Lemma keeps_log e w :
  (forall path, e <> EvWrite path) ->
  extends w (log e w) /\ (written_on_disk w -> written_on_disk (log e w)).
Proof.
  intros He. split; [by intros path Hp |]. intros Hw path Hin. cbn in *.
  apply in_app_or in Hin as [Hin | [Hin | []]]; [by apply Hw |].
  by destruct (He path).
Qed.

Lemma keeps_bind {A B} (c : M A) (k : A -> M B) :
  keeps_files c -> (forall x, keeps_files (k x)) -> keeps_files (bind c k).
Proof.
  intros Hc Hk w. unfold bind. destruct (Hc w) as [He Hw].
  destruct (c w) as [[e|x] w1]; [done |]. cbn [snd] in *.
  destruct (Hk x w1) as [He' Hw']. split.
  - intros path Hp. by apply He', He.
  - intros H. by apply Hw', Hw.
Qed.

Lemma keeps_print line : keeps_files (print line).
Proof. intros w. by apply keeps_log. Qed.

Lemma keeps_read_file path : keeps_files (read_file path).
Proof.
  intros w. unfold read_file. destruct (files w !! path).
  - by apply keeps_log.
  - by apply (keeps_same (raise (FileNotFoundError path))).
Qed.

Lemma keeps_mkdir path : keeps_files (mkdir path).
Proof.
  intros w. unfold mkdir. destruct (files w !! path).
  - by apply (keeps_same (raise (FileExistsError path))).
  - split; [by intros p Hp |]. intros Hw p Hin. cbn in *.
    apply in_app_or in Hin as [Hin | [Hin | []]]; [by apply Hw | done].
Qed.

Lemma keeps_write_file path text : keeps_files (write_file path text).
Proof.
  intros w. unfold write_file. cbn [snd]. split.
  - intros p Hp. cbn [files]. destruct (decide (path = p)) as [<- | Hne];
      [by rewrite lookup_insert_eq | by rewrite lookup_insert_ne].
  - intros Hw p Hin. cbn [files trace] in *.
    destruct (decide (path = p)) as [<- | Hne];
      [by rewrite lookup_insert_eq | rewrite lookup_insert_ne by done].
    apply in_app_or in Hin as [Hin | [[= <-] | []]]; [by apply Hw | done].
Qed.

Variable markdown_to_html : string -> string.
Variable now : DateTime.date.

Lemma keeps_generate metadata html_content slug template_path :
  keeps_files (generate_blog_post now metadata html_content slug template_path).
Proof.
  apply keeps_bind; [apply keeps_read_file |]. intros. apply keeps_ret.
Qed.

Lemma keeps_update posts : keeps_files (update_blog_listing posts).
Proof.
  apply keeps_bind; [apply keeps_read_file |]. intros listing_html.
  destruct (Re.sub _ _ _); [apply keeps_raise | apply keeps_write_file].
Qed.

Lemma keeps_process md_file posts :
  keeps_files (process markdown_to_html now md_file posts).
Proof.
  unfold process.
  repeat first [ apply keeps_print | apply keeps_read_file
               | apply keeps_generate | apply keeps_mkdir
               | apply keeps_write_file | apply keeps_ret
               | apply keeps_bind; [|intros ?] ].
Qed.

Lemma keeps_process_all md_files :
  forall posts, keeps_files (process_all markdown_to_html now md_files posts).
Proof.
  induction md_files as [|md_file md_files IH]; intros posts.
  - apply keeps_ret.
  - apply keeps_bind; [apply keeps_process | apply IH].
Qed.

Lemma keeps_main md_files : keeps_files (main markdown_to_html now md_files).
Proof.
  destruct md_files as [|md_file md_files]; unfold main;
    repeat first [ apply keeps_print | apply keeps_mkdir
                 | apply keeps_process_all | apply keeps_update
                 | apply keeps_bind; [|intros ?] ].
Qed.
End KeepsFiles.

(** C8. With no Markdown file in the source directory [main] makes sure
    of its two directories, prints its two lines and returns: it exits
    with success, every file is as it was, and none of its steps reads or
    writes the listing. *)
Theorem main_no_markdown_files (markdown_to_html : string -> string)
    (now : DateTime.date) (w : IO.world) :
  dirs_ok (IO.files w) ->
  exists w',
    main markdown_to_html now [] w = (inr tt, w')
    /\ IO.files w' = IO.files w
    /\ IO.files w' !! BLOG_LISTING_FILE = IO.files w !! BLOG_LISTING_FILE
    /\ IO.trace w' = IO.trace w ++ startup_events ++ no_files_events
    /\ Forall (fun e => ~ touches BLOG_LISTING_FILE e)
         (startup_events ++ no_files_events).
Proof.
  intros [Hsrc Hout]. eexists. split.
  - unfold main, IO.bind, IO.mkdir, IO.print. cbn [IO.files IO.log].
    rewrite Hsrc. cbn [IO.files]. rewrite Hout. reflexivity.
  - cbn [IO.files IO.trace IO.log]. split; [done |]. split; [done |].
    split; [by rewrite <- !app_assoc |].
    repeat constructor; by intros [? | ?].
Qed.

Lemma main_no_markdown_files_witness :
  dirs_ok (IO.files (world_of {[ BLOG_LISTING_FILE := "<html></html>" ]}))
  /\ exists w',
      main (fun s => s) (DateTime.Date 2024 1 1) []
        (world_of {[ BLOG_LISTING_FILE := "<html></html>" ]}) = (inr tt, w')
      /\ IO.files w' !! BLOG_LISTING_FILE = Some "<html></html>".
Proof.
  assert (H : dirs_ok (IO.files (world_of {[ BLOG_LISTING_FILE := "<html></html>" ]})))
    by (split; reflexivity).
  split; [exact H |].
  destruct (main_no_markdown_files (fun s => s) (DateTime.Date 2024 1 1) _ H)
    as (w' & Hrun & _ & Hlisting & _).
  exists w'. split; [exact Hrun |]. rewrite Hlisting. reflexivity.
Defined.

Section Abort.
Import IO.
Variable markdown_to_html : string -> string.
Variable now : DateTime.date.

Lemma main_startup md_file md_files w :
  dirs_ok (files w) ->
  main markdown_to_html now (md_file :: md_files) w
  = bind (process_all markdown_to_html now (md_file :: md_files) [])
      (fun posts =>
         bind (print (PyStr.nl +:+ "Updating blog listing page..."))
           (fun _ => bind (update_blog_listing posts)
             (fun _ => bind (print ("  Updated: " +:+ BLOG_LISTING_FILE))
               (fun _ => print (PyStr.nl +:+ check_mark
                   +:+ " Build complete! Generated "
                   +:+ PyStr.decimal (N.of_nat (length posts))
                   +:+ " blog post(s).")))))
      (World (files w) ({[BLOG_OUTPUT_DIR]} ∪ ({[BLOG_SRC_DIR]} ∪ dirs w))
             (trace w ++ startup_events)).
Proof.
  intros [Hsrc Hout]. unfold main. unfold bind at 1, mkdir at 1.
  rewrite Hsrc. unfold bind at 1, mkdir at 1. cbn [files]. rewrite Hout.
  cbn [dirs trace]. unfold startup_events. by rewrite <- app_assoc.
Qed.

(** The template cannot be read: the first post fails, before any page
    is written. *)
Lemma main_template_missing md_file md_files w :
  dirs_ok (files w) ->
  is_Some (files w !! src_path md_file) ->
  files w !! TEMPLATE_FILE = None ->
  exists w',
    main markdown_to_html now (md_file :: md_files) w
    = (inl (FileNotFoundError TEMPLATE_FILE), w')
    /\ files w' = files w
    /\ Forall (fun e => forall path, e <> EvWrite path)
         (skipn (length (trace w)) (trace w')).
Proof.
  intros Hdirs [content Hsrc] Htpl. rewrite main_startup by done.
  eexists. split.
  - unfold bind at 1. cbn [process_all]. unfold bind at 1.
    unfold process. unfold bind at 1, print at 1.
    unfold bind at 1, read_file at 1. cbn [files log].
    fold (src_path md_file). rewrite Hsrc.
    unfold bind at 1. rewrite generate_blog_post_read. cbn [files log].
    rewrite Htpl. reflexivity.
  - cbn [files log trace]. split; [done |].
    rewrite <- !app_assoc, drop_app_length. by repeat constructor.
Qed.

(** The listing cannot be read: every post has its page by then, and
    the pages stay. *)
Lemma main_listing_missing md_files template w :
  md_files <> [] ->
  dirs_ok (files w) ->
  sources_ok (files w) md_files ->
  NoDup (map stem md_files) ->
  files w !! TEMPLATE_FILE = Some template ->
  files w !! BLOG_LISTING_FILE = None ->
  exists w',
    main markdown_to_html now md_files w
    = (inl (FileNotFoundError BLOG_LISTING_FILE), w')
    /\ (forall md_file, In md_file md_files ->
          files w' !! page_path (stem md_file)
          = Some (page_of markdown_to_html now template md_file
                    (source (files w) md_file))).
Proof.
  intros Hne Hdirs Hok Hnd Htpl Hlist.
  destruct md_files as [|md_file md_files]; [done |].
  rewrite main_startup by done. set (w1 := World _ _ _).
  destruct (process_all_spec markdown_to_html now template (files w)
              (md_file :: md_files) [] w1) as (w2 & Hrun & Hf & _);
    [done.. |].
  unfold bind at 1. rewrite Hrun. unfold bind at 1, print at 1.
  unfold bind at 1, update_blog_listing. unfold bind at 1, read_file.
  cbn [files log]. rewrite Hf. cbn [w1 files].
  rewrite write_pages_other.
  2:{ intros name Hin Heq. symmetry in Heq. revert Heq.
      apply page_path_not_listing, name_ok_stem, Hok, Hin. }
  rewrite Hlist. eexists. split; [reflexivity |].
  intros name Hin. cbn [files log]. rewrite Hf. cbn [w1 files].
  apply write_pages_page; [|done..]. intros n Hn. by apply Hok.
Qed.
End Abort.

(** C9. A template or a listing that cannot be read ends the run with
    the error, at that point: without the template the first post fails
    and no page is written; without the listing every post has been given
    its page before the failure, and each page is on disk afterwards.
    Whatever the outcome of a run, it removes no file, and every file it
    has written is on disk when it ends: there is no retry and no
    cleanup. *)
Theorem read_errors_abort_without_cleanup (markdown_to_html : string -> string)
    (now : DateTime.date) :
  (forall (md_file : string) (md_files : list string) (w : IO.world),
      dirs_ok (IO.files w) ->
      is_Some (IO.files w !! src_path md_file) ->
      IO.files w !! TEMPLATE_FILE = None ->
      exists w',
        main markdown_to_html now (md_file :: md_files) w
        = (inl (IO.FileNotFoundError TEMPLATE_FILE), w')
        /\ IO.files w' = IO.files w
        /\ Forall (fun e => forall path, e <> IO.EvWrite path)
             (skipn (length (IO.trace w)) (IO.trace w')))
  /\ (forall (md_files : list string) (template : string) (w : IO.world),
        md_files <> [] ->
        dirs_ok (IO.files w) ->
        sources_ok (IO.files w) md_files ->
        NoDup (map stem md_files) ->
        IO.files w !! TEMPLATE_FILE = Some template ->
        IO.files w !! BLOG_LISTING_FILE = None ->
        exists w',
          main markdown_to_html now md_files w
          = (inl (IO.FileNotFoundError BLOG_LISTING_FILE), w')
          /\ (forall md_file, In md_file md_files ->
                IO.files w' !! page_path (stem md_file)
                = Some (page_of markdown_to_html now template md_file
                          (source (IO.files w) md_file))))
  /\ (forall (md_files : list string) (w : IO.world),
        extends w (snd (main markdown_to_html now md_files w))
        /\ (written_on_disk w ->
            written_on_disk (snd (main markdown_to_html now md_files w)))).
Proof.
  split; [|split].
  - intros. by apply main_template_missing.
  - intros. by apply main_listing_missing.
  - intros md_files w. apply keeps_main.
Qed.

(** ** re.sub on the listing *)

Section Sub.
Import PyStr Re.

Lemma run_lit {T} p s caps (k : string -> captures -> option T) :
  run (lit p) s caps k
  = if startswith p s then k (drop (String.length p) s) caps else None.
Proof.
  revert s; induction p as [|c p IH]; intros s; [by destruct s |].
  cbn [lit run]. destruct s as [|a s]; [done |].
  cbn [startswith String.length drop]. rewrite (Ascii.eqb_sym c a).
  destruct (Ascii.eqb a c); [apply IH | done].
Qed.

Lemma star_lazy_find {T} p s (g : string -> T) :
  star_lazy any s (fun s2 => if startswith p s2 then Some (g s2) else None)
  = option_map (fun j => g (drop j s)) (find p s).
Proof.
  induction s as [|c s IH]; cbn [star_lazy find].
  - by destruct (startswith p EmptyString).
  - destruct (startswith p (String c s)); [done |].
    cbn [any]. rewrite IH. by destruct (find p s).
Qed.

Lemma find_bound p s j : find p s = Some j -> j + String.length p <= String.length s.
Proof.
  revert j; induction s as [|c s IH]; intros j; cbn [find].
  - destruct p; [|done]. intros [= <-]. simpl. lia.
  - destruct (startswith p (String c s)) eqn:Hp.
    + intros [= <-]. apply startswith_split in Hp.
      apply (f_equal String.length) in Hp. rewrite length_append in Hp. lia.
    + destruct (find p s) as [i|]; [|done]. intros [= <-].
      specialize (IH i eq_refl). simpl. lia.
Qed.

Lemma find_startswith p s j :
  find p s = Some j -> startswith p (drop j s) = true.
Proof.
  revert j; induction s as [|c s IH]; intros j; cbn [find].
  - destruct (startswith p EmptyString) eqn:Hp; [|done]. by intros [= <-].
  - destruct (startswith p (String c s)) eqn:Hp; [by intros [= <-] |].
    destruct (find p s) as [i|]; [|done]. intros [= <-]. by apply IH.
Qed.

Lemma drop_drop n m s : drop n (drop m s) = drop (m + n) s.
Proof.
  revert s; induction m as [|m IH]; intros s; [done |].
  destruct s as [|c s]; [by destruct n |]. apply IH.
Qed.

Lemma take_length n s : n <= String.length s -> String.length (take n s) = n.
Proof.
  revert s; induction n as [|n IH]; intros [|c s] H; simpl in *; try lia.
  by rewrite IH by lia.
Qed.

Lemma star_lazy_ext {T} p s (k k' : string -> option T) :
  (forall s1, k s1 = k' s1) -> star_lazy p s k = star_lazy p s k'.
Proof.
  intros Hk. induction s as [|c s IH]; cbn [star_lazy]; rewrite Hk; [done |].
  by rewrite IH.
Qed.

(** The match of the pattern at the front of [s]: the opening tag, and
    then everything up to the first closing tag. *)
Lemma re_match_blog_list s :
  re_match blog_list_pattern s
  = if startswith blog_list_open s then
      match find blog_list_close (drop 20 s) with
      | Some j => Some (MatchObj (take (20 + j + 6) s) []
                                 (drop (20 + j + 6) s))
      | None => None
      end
    else None.
Proof.
  unfold re_match, blog_list_pattern, cat. cbn [foldr run].
  rewrite run_lit. destruct (startswith blog_list_open s) eqn:Ho; [|done].
  change (String.length blog_list_open) with 20.
  rewrite (star_lazy_ext any (drop 20 s) _
    (fun s2 => if startswith blog_list_close s2
               then Some (MatchObj
                      (take (String.length s - String.length (drop 6 s2)) s)
                      [] (drop 6 s2))
               else None)).
  2:{ intros s1. by rewrite run_lit. }
  rewrite star_lazy_find.
  destruct (find blog_list_close (drop 20 s)) as [j|] eqn:Hj; [|done].
  cbn [option_map]. rewrite !drop_drop.
  replace (20 + (j + 6)) with (20 + j + 6) by lia.
  apply find_bound in Hj. rewrite length_drop in Hj.
  change (String.length blog_list_close) with 6 in Hj.
  rewrite length_drop.
  replace (String.length s - (String.length s - (20 + j + 6)))
    with (20 + j + 6); [done |].
  assert (20 <= String.length s); [|lia].
  apply startswith_split, (f_equal String.length) in Ho.
  rewrite length_append in Ho. change (String.length blog_list_open) with 20 in Ho.
  lia.
Qed.

Lemma sub_from_skip r f n s :
  n <= String.length s -> sub_from r f n s = sub_from r f 0 (drop n s).
Proof.
  revert n; induction s as [|c s IH]; intros [|n] Hn; try done.
  - simpl in Hn. lia.
  - cbn [sub_from drop]. apply IH. simpl in Hn. lia.
Qed.

Lemma sub_from_miss r f c s :
  re_match r (String c s) = None ->
  sub_from r f 0 (String c s) = String c (sub_from r f 0 s).
Proof. intros H. cbn [sub_from]. by rewrite H. Qed.

Lemma sub_from_hit r f s m :
  re_match r s = Some m -> matched m <> EmptyString ->
  sub_from r f 0 s = f m +:+ sub_from r f 0 (rest m).
Proof.
  intros Hm Hne. destruct (re_match_sound _ _ _ Hm) as [Hs _].
  destruct (matched m) as [|c w] eqn:Hw; [done |].
  rewrite Hs. change (String c w +:+ rest m) with (String c (w +:+ rest m)).
  cbn [sub_from]. change (String c (w +:+ rest m)) with (String c w +:+ rest m).
  rewrite <- Hs, Hm, Hw. cbn [String.length]. f_equal.
  rewrite sub_from_skip by (rewrite length_append; lia).
  by rewrite drop_append.
Qed.

Lemma find_none_suffix p a t : find p (a +:+ t) = None -> find p t = None.
Proof.
  induction a as [|c a IH]; [done |].
  change (String c a +:+ t) with (String c (a +:+ t)). cbn [find].
  destruct (startswith p (String c (a +:+ t))); [done |].
  destruct (find p (a +:+ t)); [done |]. intros _. by apply IH.
Qed.

(** No closing tag, no match, anywhere. *)
Lemma sub_from_no_close f s :
  find blog_list_close s = None -> sub_from blog_list_pattern f 0 s = s.
Proof.
  induction s as [|c s IH]; intros Hno.
  - cbn [sub_from]. by rewrite re_match_blog_list.
  - assert (Hs : find blog_list_close s = None).
    { cbn [find] in Hno. destruct (startswith _ (String c s)); [done |].
      by destruct (find blog_list_close s). }
    rewrite sub_from_miss; [by rewrite (IH Hs) |].
    rewrite re_match_blog_list.
    destruct (startswith blog_list_open (String c s)); [|done].
    rewrite <- (take_drop 20 (String c s)) in Hno.
    by rewrite (find_none_suffix _ _ _ Hno).
Qed.

(** Before the first opening tag nothing matches. *)
Lemma sub_from_before_open f s i :
  find blog_list_open s = Some i ->
  sub_from blog_list_pattern f 0 s
  = take i s +:+ sub_from blog_list_pattern f 0 (drop i s).
Proof.
  revert i; induction s as [|c s IH]; intros i; cbn [find].
  - intros H. by vm_compute in H.
  - destruct (startswith blog_list_open (String c s)) eqn:Ho;
      [by intros [= <-] |].
    destruct (find blog_list_open s) as [j|]; [|done]. intros [= <-].
    rewrite sub_from_miss by (by rewrite re_match_blog_list, Ho).
    cbn [take drop String.append]. by rewrite (IH j).
Qed.

Lemma sub_from_no_open f s :
  find blog_list_open s = None -> sub_from blog_list_pattern f 0 s = s.
Proof.
  induction s as [|c s IH]; cbn [find].
  - intros _. cbn [sub_from]. by rewrite re_match_blog_list.
  - destruct (startswith blog_list_open (String c s)) eqn:Ho; [done |].
    destruct (find blog_list_open s) as [j|]; [done |]. intros _.
    rewrite sub_from_miss by (by rewrite re_match_blog_list, Ho).
    by rewrite IH.
Qed.
End Sub.

Section Listing.
Import PyStr Re IO.

Lemma find_close_after_open t :
  find blog_list_close (blog_list_open +:+ t)
  = option_map (fun j => 20 + j) (find blog_list_close t).
Proof.
  unfold blog_list_open, blog_list_close. cbn.
  by destruct (find "</div>" t).
Qed.

Lemma literal_listing_no_open region doc :
  find blog_list_open doc = None -> literal_listing region doc = doc.
Proof. apply sub_from_no_open. Qed.

Lemma open_at doc i :
  find blog_list_open doc = Some i ->
  drop i doc = blog_list_open +:+ drop (i + 20) doc.
Proof.
  intros Hi. apply find_startswith, startswith_split in Hi.
  by rewrite drop_drop in Hi.
Qed.

Lemma literal_listing_no_close region doc i :
  find blog_list_open doc = Some i ->
  find blog_list_close (drop (i + 20) doc) = None ->
  literal_listing region doc = doc.
Proof.
  intros Hi Hc. unfold literal_listing.
  rewrite (sub_from_before_open _ _ _ Hi).
  rewrite sub_from_no_close; [apply take_drop |].
  by rewrite (open_at _ _ Hi), find_close_after_open, Hc.
Qed.

Lemma sub_from_region f doc i j :
  find blog_list_open doc = Some i ->
  find blog_list_close (drop (i + 20) doc) = Some j ->
  sub_from blog_list_pattern f 0 doc
  = take i doc
    +:+ f (MatchObj (take (20 + j + 6) (drop i doc)) []
                    (drop (i + 20 + j + 6) doc))
    +:+ sub_from blog_list_pattern f 0 (drop (i + 20 + j + 6) doc).
Proof.
  intros Hi Hc. rewrite (sub_from_before_open _ _ _ Hi). f_equal.
  assert (Hm : re_match blog_list_pattern (drop i doc)
               = Some (MatchObj (take (20 + j + 6) (drop i doc)) []
                                (drop (i + 20 + j + 6) doc))).
  { rewrite re_match_blog_list, (find_startswith _ _ _ Hi).
    rewrite (drop_drop 20 i doc), Hc, (drop_drop (20 + j + 6) i doc).
    by replace (i + (20 + j + 6)) with (i + 20 + j + 6) by lia. }
  rewrite (sub_from_hit _ _ _ _ Hm); [done |]. cbn [matched].
  rewrite (open_at _ _ Hi). discriminate.
Qed.

Lemma update_blog_listing_run posts doc w :
  files w !! BLOG_LISTING_FILE = Some doc ->
  update_blog_listing posts w
  = match Re.sub blog_list_pattern (region_of posts) doc with
    | inl e => (inl (ReError e), log (EvRead BLOG_LISTING_FILE) w)
    | inr out =>
        (inr tt, World (<[BLOG_LISTING_FILE := out]> (files w)) (dirs w)
                       (trace w ++ [EvRead BLOG_LISTING_FILE;
                                    EvWrite BLOG_LISTING_FILE]))
    end.
Proof.
  intros Hdoc. unfold update_blog_listing, bind, read_file. rewrite Hdoc.
  fold (region_of posts).
  destruct (Re.sub blog_list_pattern (region_of posts) doc); [done |].
  unfold write_file, log. cbn [files dirs trace]. by rewrite <- app_assoc.
Qed.
End Listing.

(** C1, as amended.  When the replacement text holds no backslash, the
    updater writes the listing back with every region replaced by the new
    region, the assembled fragment wrapped in the opening tag and a
    closing tag: a region starts at the first opening tag
    <div id="blog-list"> not yet passed and ends with the first closing
    tag </div> after that tag, the nearest one, and the search goes on
    behind it.  A listing without such a region is written back as it
    was.  The listing is a text file: UTF-8, and without carriage returns,
    which reading in text mode would not hand on as they are. *)
Theorem listing_regions_replaced :
  (forall (posts : list post) (doc : string) (w : IO.world),
      IO.files w !! BLOG_LISTING_FILE = Some doc ->
      IO.text_file doc = true ->
      PyStr.contains (String Re.BS "") (region_of posts) = false ->
      update_blog_listing posts w
      = (inr tt,
         IO.World (<[BLOG_LISTING_FILE
                     := literal_listing (region_of posts) doc]> (IO.files w))
                  (IO.dirs w)
                  (IO.trace w ++ [IO.EvRead BLOG_LISTING_FILE;
                                  IO.EvWrite BLOG_LISTING_FILE])))
  /\ (forall posts : list post,
        region_of posts
        = blog_list_open +:+ blog_list_html posts +:+ PyStr.nl
          +:+ "          </div>")
  /\ (forall region doc : string,
        PyStr.find blog_list_open doc = None ->
        literal_listing region doc = doc)
  /\ (forall (region doc : string) (i : nat),
        PyStr.find blog_list_open doc = Some i ->
        PyStr.find blog_list_close (PyStr.drop (i + 20) doc) = None ->
        literal_listing region doc = doc)
  /\ (forall (region doc : string) (i j : nat),
        PyStr.find blog_list_open doc = Some i ->
        PyStr.find blog_list_close (PyStr.drop (i + 20) doc) = Some j ->
        literal_listing region doc
        = PyStr.take i doc +:+ region
          +:+ literal_listing region (PyStr.drop (i + 20 + j + 6) doc)).
Proof.
  split; [|split; [|split; [|split]]].
  - intros posts doc w Hdoc _ Hbs. rewrite (update_blog_listing_run _ _ _ Hdoc).
    unfold Re.sub. by rewrite Hbs.
  - intros posts. unfold region_of, blog_list_region.
    cbn [concat_str foldr]. by rewrite append_nil_r.
  - apply literal_listing_no_open.
  - apply literal_listing_no_close.
  - intros region doc i j Hi Hj. unfold literal_listing.
    by rewrite (sub_from_region _ _ _ _ Hi Hj).
Qed.

Lemma listing_regions_replaced_witness :
  IO.files (world_of {[ BLOG_LISTING_FILE := listing_one_region ]})
    !! BLOG_LISTING_FILE = Some listing_one_region
  /\ IO.text_file listing_one_region = true
  /\ PyStr.contains (String Re.BS "") (region_of [plain_post]) = false
  /\ PyStr.find blog_list_open listing_one_region = Some 6
  /\ PyStr.find blog_list_close (PyStr.drop (6 + 20) listing_one_region) = Some 3
  /\ update_blog_listing [plain_post]
       (world_of {[ BLOG_LISTING_FILE := listing_one_region ]})
     = (inr tt,
        IO.World (<[BLOG_LISTING_FILE
                    := literal_listing (region_of [plain_post]) listing_one_region]>
                    {[ BLOG_LISTING_FILE := listing_one_region ]})
                 ∅ [IO.EvRead BLOG_LISTING_FILE; IO.EvWrite BLOG_LISTING_FILE])
  /\ literal_listing (region_of [plain_post]) listing_one_region
     = "<body>" +:+ region_of [plain_post]
       +:+ literal_listing (region_of [plain_post]) "<p>footer</p></body>"
  /\ literal_listing (region_of [plain_post]) "<p>footer</p></body>"
     = "<p>footer</p></body>".
Proof.
  destruct listing_regions_replaced as (Hrun & _ & Hnone & _ & Hsome).
  split; [reflexivity |]. split; [reflexivity |]. split; [reflexivity |].
  split; [reflexivity |]. split; [reflexivity |].
  split; [exact (Hrun [plain_post] listing_one_region
                   (world_of {[ BLOG_LISTING_FILE := listing_one_region ]})
                   eq_refl eq_refl eq_refl) |].
  split; [exact (Hsome (region_of [plain_post]) listing_one_region 6 3
                   eq_refl eq_refl) |].
  exact (Hnone (region_of [plain_post]) "<p>footer</p></body>" eq_refl).
Defined.

(** The claim as it was stated fails on a listing whose region is
    followed by another closing tag: the replaced span ends at the first
    closing tag, not the last, so the text between the two stays; and on a
    listing with two regions both are replaced, not only the first. *)
Lemma first_greedy_counterexample :
  let region := region_of [plain_post] in
  listing_written [plain_post] listing_nested_close
    = Some (region +:+ "<p>footer</p></div>")
  /\ spec_replace_first_greedy region listing_nested_close = region
  /\ listing_written [plain_post] listing_nested_close
     <> Some (spec_replace_first_greedy region listing_nested_close)
  /\ listing_written [plain_post] listing_two_regions
     = Some (region +:+ "<hr>" +:+ region)
  /\ listing_written [plain_post] listing_two_regions
     <> Some (spec_replace_first_greedy region listing_two_regions).
Proof. by vm_compute. Qed.

(** C10. The replacement text goes through the template language of
    [re.sub]: a post whose title holds a backslash and a digit makes the
    update raise re.error, and one whose date holds \g<x> makes it raise
    IndexError, whatever the listing is, and the listing is not written;
    a description with a backslash and the letter n, and a title with two
    backslashes, give a region that differs from the text letter for
    letter.  Only a replacement without any backslash is inserted as it
    is. *)
Theorem replacement_is_a_template :
  (forall (doc : string) (w : IO.world),
      IO.files w !! BLOG_LISTING_FILE = Some doc ->
      update_blog_listing [sample_post group_one "March 05, 2024" ""] w
      = (inl (IO.ReError Re.re_error), IO.log (IO.EvRead BLOG_LISTING_FILE) w))
  /\ (forall (doc : string) (w : IO.world),
        IO.files w !! BLOG_LISTING_FILE = Some doc ->
        update_blog_listing [sample_post "Hello" group_x ""] w
        = (inl (IO.ReError Re.IndexError),
           IO.log (IO.EvRead BLOG_LISTING_FILE) w))
  /\ (exists out,
        listing_written [sample_post "Hello" "March 05, 2024" backslash_n]
          listing_one_region = Some out
        /\ out <> literal_listing
                    (region_of [sample_post "Hello" "March 05, 2024" backslash_n])
                    listing_one_region)
  /\ (exists out,
        listing_written [sample_post two_backslashes "March 05, 2024" ""]
          listing_one_region = Some out
        /\ out <> literal_listing
                    (region_of [sample_post two_backslashes "March 05, 2024" ""])
                    listing_one_region)
  /\ (forall (posts : list post) (doc : string),
        PyStr.contains bs (region_of posts) = false ->
        Re.sub blog_list_pattern (region_of posts) doc
        = inr (literal_listing (region_of posts) doc)).
Proof.
  split; [|split; [|split; [|split]]].
  - intros doc w Hdoc. rewrite (update_blog_listing_run _ _ _ Hdoc).
    unfold Re.sub.
    assert (Hbs : PyStr.contains (String Re.BS "")
                    (region_of [sample_post group_one "March 05, 2024" ""]) = true)
      by (by vm_compute).
    assert (Htpl : Re.compile_template (Re.groups blog_list_pattern)
                     (region_of [sample_post group_one "March 05, 2024" ""])
                   = inl Re.re_error) by (by vm_compute).
    by rewrite Hbs, Htpl.
  - intros doc w Hdoc. rewrite (update_blog_listing_run _ _ _ Hdoc).
    unfold Re.sub.
    assert (Hbs : PyStr.contains (String Re.BS "")
                    (region_of [sample_post "Hello" group_x ""]) = true)
      by (by vm_compute).
    assert (Htpl : Re.compile_template (Re.groups blog_list_pattern)
                     (region_of [sample_post "Hello" group_x ""])
                   = inl Re.IndexError) by (by vm_compute).
    by rewrite Hbs, Htpl.
  - eexists. split; [by vm_compute |]. by vm_compute.
  - eexists. split; [by vm_compute |]. by vm_compute.
  - intros posts doc Hbs. unfold Re.sub, bs in *. by rewrite Hbs.
Qed.

Lemma replacement_is_a_template_witness :
  IO.files (world_of {[ BLOG_LISTING_FILE := listing_one_region ]})
    !! BLOG_LISTING_FILE = Some listing_one_region
  /\ update_blog_listing [sample_post group_one "March 05, 2024" ""]
       (world_of {[ BLOG_LISTING_FILE := listing_one_region ]})
     = (inl (IO.ReError Re.re_error),
        IO.log (IO.EvRead BLOG_LISTING_FILE)
          (world_of {[ BLOG_LISTING_FILE := listing_one_region ]}))
  /\ PyStr.contains bs (region_of [plain_post]) = false
  /\ Re.sub blog_list_pattern (region_of [plain_post]) listing_one_region
     = inr (literal_listing (region_of [plain_post]) listing_one_region).
Proof.
  destruct replacement_is_a_template as (Hone & _ & _ & _ & Hlit).
  split; [reflexivity |].
  split; [exact (Hone listing_one_region
                   (world_of {[ BLOG_LISTING_FILE := listing_one_region ]})
                   eq_refl) |].
  split; [reflexivity |].
  exact (Hlit [plain_post] listing_one_region eq_refl).
Defined.

(** C4: the claim as it was stated fails on a title that holds the
    placeholder of the content.  The title goes in first and the content
    last, so the placeholder inside the title is replaced too: the page
    holds the content twice and the text of the title nowhere. *)
Lemma nested_placeholder_counterexample :
  let w := world_of {[ TEMPLATE_FILE := template_text sample_template ]} in
  let metadata : metadata_t := {[ "title" := "{{CONTENT}}" ]} in
  fst (generate_blog_post (DateTime.Date 2024 1 1) metadata "<p>Hi</p>"
         "hello" TEMPLATE_FILE w)
  = inr "<h1><p>Hi</p></h1><p>Hi</p>"
  /\ PyStr.contains "{{CONTENT}}" "<h1><p>Hi</p></h1><p>Hi</p>" = false
  /\ fst (generate_blog_post (DateTime.Date 2024 1 1) metadata "<p>Hi</p>"
            "hello" TEMPLATE_FILE w)
     <> inr (filled (values_of (DateTime.Date 2024 1 1) metadata "<p>Hi</p>"
                       "hello") sample_template).
Proof. by vm_compute. Qed.

Lemma styled_template_free : texts_free styled_template.
Proof.
  intros s [H | [H | [H | [H | []]]]]; try discriminate H;
    injection H as <-; reflexivity.
Qed.

Lemma generate_blog_post_fills_witness :
  let w := world_of {[ TEMPLATE_FILE := template_text styled_template ]} in
  let metadata : metadata_t := {[ "title" := "{{TITLE}} and f-strings: {x}" ]} in
  generate_blog_post (DateTime.Date 2024 1 1) metadata "<p>{{TITLE}}</p>"
    "hello" TEMPLATE_FILE w
  = (inr ("<style>h1 {color: red}</style>"
          +:+ "<h1>{{TITLE}} and f-strings: {x}</h1><p>{{TITLE}}</p>"),
     IO.log (IO.EvRead TEMPLATE_FILE) w).
Proof.
  intros w metadata.
  exact (generate_blog_post_fills (DateTime.Date 2024 1 1) metadata
           "<p>{{TITLE}}</p>" "hello" TEMPLATE_FILE styled_template w
           eq_refl eq_refl styled_template_free eq_refl eq_refl eq_refl
           eq_refl).
Defined.

Lemma sample_sources_ok (fs : gmap string string) :
  fs !! "blog_src/hello.md" = Some sample_source ->
  fs !! "blog/hello" = None ->
  sources_ok fs ["hello.md"].
Proof.
  intros Hsrc Hdir md_file [<- | []]. split; [|split].
  - split; [reflexivity | split; discriminate].
  - exists sample_source. exact Hsrc.
  - exact Hdir.
Qed.

Lemma read_errors_abort_without_cleanup_witness :
  (exists w',
      main (fun s => s) (DateTime.Date 2024 1 1) ["hello.md"]
        sample_site_no_template
      = (inl (IO.FileNotFoundError TEMPLATE_FILE), w')
      /\ IO.files w' = IO.files sample_site_no_template)
  /\ (exists w',
        main (fun s => s) (DateTime.Date 2024 1 1) ["hello.md"]
          sample_site_no_listing
        = (inl (IO.FileNotFoundError BLOG_LISTING_FILE), w')
        /\ IO.files w' !! "blog/hello/index.html" = Some "<h1>Hello</h1>Text").
Proof.
  destruct (read_errors_abort_without_cleanup (fun s => s) (DateTime.Date 2024 1 1))
    as (Htemplate & Hlisting & _).
  split.
  - destruct (Htemplate "hello.md" [] sample_site_no_template)
      as (w' & Hrun & Hfiles & _).
    + split; reflexivity.
    + exists sample_source. reflexivity.
    + reflexivity.
    + exists w'. split; [exact Hrun | exact Hfiles].
  - destruct (Hlisting ["hello.md"] "<h1>{{TITLE}}</h1>{{CONTENT}}"
                sample_site_no_listing) as (w' & Hrun & Hpages).
    + discriminate.
    + split; reflexivity.
    + apply sample_sources_ok; reflexivity.
    + apply NoDup_singleton.
    + reflexivity.
    + reflexivity.
    + exists w'. split; [exact Hrun |].
      exact (Hpages "hello.md" (or_introl eq_refl)).
Defined.

(** C2.  The pages of a second run are those of the first, but the
    listing is not: the region the first run wrote holds closing tags of
    its own, the pattern of the second run stops at the first of them, and
    what follows it, the rest of the old list and the old closing tag,
    stays behind the new region.  On the sample site, with one post whose
    date is explicit, the second run writes a listing that is longer than
    the one it read. *)
Theorem second_run_changes_listing (markdown_to_html : string -> string)
    (now : DateTime.date) :
  exists (w1 w2 : IO.world) (listing1 listing2 : string),
    main markdown_to_html now ["hello.md"] sample_site = (inr tt, w1)
    /\ main markdown_to_html now ["hello.md"] w1 = (inr tt, w2)
    /\ IO.files w2 !! page_path "hello" = IO.files w1 !! page_path "hello"
    /\ IO.files w1 !! BLOG_LISTING_FILE = Some listing1
    /\ IO.files w2 !! BLOG_LISTING_FILE = Some listing2
    /\ listing1 = "<body>" +:+ region_of [plain_post] +:+ "</body>"
    /\ listing2 = "<body>" +:+ region_of [plain_post]
                  +:+ PyStr.drop 463 (region_of [plain_post]) +:+ "</body>"
    /\ listing1 <> listing2
    /\ String.length listing1 < String.length listing2.
Proof.
  eexists _, _, _, _.
  split; [vm_compute; reflexivity |].
  split; [vm_compute; reflexivity |].
  split; [vm_compute; reflexivity |].
  split; [vm_compute; reflexivity |].
  split; [vm_compute; reflexivity |].
  split; [vm_compute; reflexivity |].
  split; [vm_compute; reflexivity |].
  split; [by vm_compute | vm_compute; lia].
Qed.

(** ** A frontmatter block that is there *)

Section Block.
Import PyStr Re ReSpec.

Lemma star_greedy_prefix {T} p ws s (k : string -> option T) x :
  all_chars p ws -> star_greedy p s k = Some x ->
  star_greedy p (ws +:+ s) k = Some x.
Proof.
  unfold all_chars. induction ws as [|c ws IH]; simpl; [done |].
  intros [Hc Hws]%andb_prop Hs. rewrite Hc. by rewrite IH.
Qed.

Lemma star_greedy_stop {T} p s (k : string -> option T) :
  starts_clean p s -> star_greedy p s k = k s.
Proof. destruct s as [|c s]; simpl; [done |]. by intros ->. Qed.

Lemma star_greedy_all {T} s (k : string -> option T) x :
  k EmptyString = Some x -> star_greedy any s k = Some x.
Proof.
  intros Hk. induction s as [|c s IH]; simpl; [done | by rewrite IH].
Qed.

(** The lazy star stops at the first place where the text goes on with
    [p] and the rest of the pattern matches. *)
Lemma star_lazy_first {T} p s j (G : string -> option T) x :
  find p s = Some j -> G (drop j s) = Some x ->
  star_lazy any s (fun s2 => if startswith p s2 then G s2 else None) = Some x.
Proof.
  revert j; induction s as [|c s IH]; intros j; cbn [find star_lazy].
  - destruct (startswith p EmptyString); [|done].
    intros [= <-] HG. simpl in HG. by rewrite HG.
  - destruct (startswith p (String c s)) eqn:Hp.
    + intros [= <-] HG. simpl in HG. by rewrite HG.
    + destruct (find p s) as [i|] eqn:Hi; [|done].
      intros [= <-] HG. cbn [any]. simpl in HG. by eapply IH.
Qed.

Lemma startswith_longer p x r :
  startswith p x = false -> String.length p <= String.length x ->
  startswith p (x +:+ r) = false.
Proof.
  revert x; induction p as [|c p IH]; intros [|a x]; simpl; try done; try lia.
  intros H Hlen. destruct (Ascii.eqb c a); [|done]. apply IH; [done | lia].
Qed.

Lemma find_here p s : startswith p s = true -> find p s = Some 0.
Proof. intros H. destruct s; cbn [find]; by rewrite H. Qed.

Lemma find_first_more p a r :
  find p (a +:+ p) = Some (String.length a) ->
  find p (a +:+ p +:+ r) = Some (String.length a).
Proof.
  induction a as [|c a IH].
  - intros _. simpl. apply find_here, startswith_append.
  - change (String c a +:+ p) with (String c (a +:+ p)).
    change (String c a +:+ p +:+ r) with (String c (a +:+ p +:+ r)).
    cbn [find String.length].
    destruct (startswith p (String c (a +:+ p))) eqn:Hp; [done |].
    destruct (find p (a +:+ p)) as [i|] eqn:Hi; [|done].
    intros [= ->]. rewrite <- append_assoc.
    change (String c ((a +:+ p) +:+ r)) with (String c (a +:+ p) +:+ r).
    rewrite startswith_longer; [| done |].
    + change (String c (a +:+ p) +:+ r) with (String c ((a +:+ p) +:+ r)).
      rewrite append_assoc, IH; done.
    + cbn [String.length]. rewrite length_append. lia.
Qed.

Lemma run_chr_lit {T} c p r s caps (k : string -> captures -> option T) :
  run (Seq (Chr c) (Seq (lit p) r)) s caps k
  = if startswith (String c p) s
    then run r (drop (S (String.length p)) s) caps k else None.
Proof.
  cbn [run]. destruct s as [|a s]; [done |].
  cbn [startswith drop]. rewrite (Ascii.eqb_sym c a).
  destruct (Ascii.eqb a c); [|done]. cbn [andb]. by rewrite run_lit.
Qed.

(** The rest of the pattern behind the block: the closing line, white
    space up to a line end, and the body. *)
Lemma run_closing {T} ws2 body caps (k : string -> captures -> option T) x :
  all_chars isspace ws2 -> starts_clean isspace body ->
  k EmptyString ((2, body) :: caps) = Some x ->
  run (cat [ Star isspace; Chr LF; Group 2 (Star any); Eol ])
    (ws2 +:+ nl +:+ body) caps k = Some x.
Proof.
  intros Hws Hbody Hk. unfold cat. cbn [foldr run].
  apply star_greedy_prefix; [done |].
  change (nl +:+ body) with (String LF body). cbn [star_greedy].
  change (isspace LF) with true. cbv iota.
  rewrite star_greedy_stop by done.
  assert (Hb : match body with
               | String a s' => if Ascii.eqb a LF then
                   run (Seq (Group 2 (Star any)) (Seq Eol Eps)) s' caps k
                   else None
               | EmptyString => None
               end = None).
  { destruct body as [|a b]; [done |]. simpl in Hbody.
    destruct (Ascii.eqb a LF) eqn:Ha; [|done].
    apply Ascii.eqb_eq in Ha. by subst a. }
  cbn [run] in Hb |- *. rewrite Hb. rewrite Ascii.eqb_refl.
  apply star_greedy_all. cbn [String.length Nat.sub].
  rewrite Nat.sub_0_r.
  replace (take (String.length body) body) with body; [done |].
  rewrite <- (append_nil_r body) at 3. by rewrite take_append.
Qed.

Lemma run_star {T} p r s caps (k : string -> captures -> option T) :
  run (Seq (Star p) r) s caps k
  = star_greedy p s (fun s1 => run r s1 caps k).
Proof. reflexivity. Qed.

Lemma run_group_lazy {T} n p r s caps (k : string -> captures -> option T) :
  run (Seq (Group n (StarLazy p)) r) s caps k
  = star_lazy p s (fun s1 =>
      run r s1 ((n, take (String.length s - String.length s1) s) :: caps) k).
Proof. reflexivity. Qed.

Lemma run_chr_outside {T} r t s caps (k : string -> captures -> option T) :
  starts_outside isspace t -> run (Seq (Chr LF) r) (t +:+ s) caps k = None.
Proof.
  destruct t as [|a t]; [done |]. simpl. intros Ha.
  destruct (Ascii.eqb a LF) eqn:E; [|done].
  apply Ascii.eqb_eq in E. by subst a.
Qed.

Lemma starts_outside_clean p t s :
  starts_outside p t -> starts_clean p (t +:+ s).
Proof. by destruct t. Qed.

(** The match of the frontmatter pattern on a document with a block
    whose text starts a line of its own and in which no line starts
    with three hyphens. *)
Lemma re_match_block ws1 text ws2 body :
  all_chars isspace ws1 -> all_chars isspace ws2 ->
  starts_outside isspace text ->
  find closing_line (text +:+ closing_line) = Some (String.length text) ->
  starts_clean isspace body ->
  re_match frontmatter_pattern (block_doc ws1 text ws2 body)
  = Some (MatchObj (block_doc ws1 text ws2 body) [(2, body); (1, text)] "").
Proof.
  intros Hws1 Hws2 Htext Hfind Hbody.
  unfold re_match, frontmatter_pattern, cat. cbn [foldr].
  set (doc := block_doc ws1 text ws2 body).
  rewrite run_seq, run_lit. unfold doc at 1 2, block_doc.
  rewrite startswith_append, drop_append, run_star.
  apply star_greedy_prefix; [done |].
  set (rest1 := text +:+ closing_line +:+ ws2 +:+ nl +:+ body).
  change (nl +:+ rest1) with (String LF rest1). cbn [star_greedy].
  change (isspace LF) with true. cbv iota.
  rewrite star_greedy_stop by (by apply starts_outside_clean).
  unfold rest1 at 1. rewrite run_chr_outside by done.
  rewrite run_seq, run_chr, run_group_lazy.
  rewrite (star_lazy_ext any rest1 _
    (fun s2 => if startswith closing_line s2
               then run (cat [ Star isspace; Chr LF; Group 2 (Star any); Eol ])
                      (drop 4 s2)
                      [(1, take (String.length rest1 - String.length s2) rest1)]
                      (fun s1 caps1 =>
                         Some (MatchObj
                                 (take (String.length doc - String.length s1) doc)
                                 caps1 s1))
               else None)).
  2:{ intros s1. by rewrite run_chr_lit. }
  apply (star_lazy_first closing_line rest1 (String.length text)).
  { apply find_first_more, Hfind. }
  unfold rest1. rewrite drop_append.
  change (drop 4 (closing_line +:+ ws2 +:+ nl +:+ body))
    with (ws2 +:+ nl +:+ body).
  apply run_closing; [done.. |].
  cbn [String.length]. rewrite Nat.sub_0_r. f_equal. f_equal.
  - rewrite <- (append_nil_r doc) at 2. by rewrite take_append.
  - do 2 f_equal. rewrite length_append, Nat.add_sub.
    by rewrite take_append.
Qed.
End Block.

(** X1. A document that starts with a line of three hyphens, a block
    whose first character is not white space and in which no line starts
    with three hyphens, and a closing line of three hyphens, is split
    into the metadata of the lines of the block and the body.  White
    space may follow the hyphens of both delimiter lines, line ends
    included: blank lines between the closing line and the body are not
    part of the body.  The block holds no white space from outside ASCII
    and the body does not start with any; Python would take it for white
    space where the parser looks for some. *)
Theorem parse_frontmatter_block (ws1 text ws2 body : string) :
  ReSpec.all_chars PyStr.isspace ws1 ->
  ReSpec.all_chars PyStr.isspace ws2 ->
  starts_outside PyStr.isspace text ->
  PyStr.has_wide text = false ->
  PyStr.find closing_line (text +:+ closing_line) = Some (String.length text) ->
  starts_clean PyStr.isspace body ->
  PyStr.starts_wide body = false ->
  parse_frontmatter (block_doc ws1 text ws2 body) = (metadata_of text, body).
Proof.
  intros Hws1 Hws2 Htext _ Hfind Hbody _. unfold parse_frontmatter.
  by rewrite re_match_block.
Qed.

Lemma parse_frontmatter_block_witness :
  parse_frontmatter
    (block_doc " " ("title: Hello" +:+ PyStr.nl +:+ "date: 2024-03-05")
       PyStr.nl "# Hi")
  = (<[ "date" := "2024-03-05" ]> {[ "title" := "Hello" ]}, "# Hi").
Proof.
  exact (parse_frontmatter_block " "
           ("title: Hello" +:+ PyStr.nl +:+ "date: 2024-03-05") PyStr.nl "# Hi"
           eq_refl eq_refl eq_refl eq_refl eq_refl eq_refl eq_refl).
Defined.

(** X2. A line of the block without a colon leaves the metadata as they
    are, and of two lines with the same key the later one decides the
    value. *)
Theorem parse_line_ignores_and_overwrites :
  (forall (metadata : metadata_t) (line : string),
      PyStr.contains ":" line = false -> parse_line metadata line = metadata)
  /\ (forall (metadata : metadata_t) (key v1 v2 : string),
        PyStr.contains ":" key = false ->
        parse_line (parse_line metadata (key +:+ ":" +:+ v1))
          (key +:+ ":" +:+ v2)
        = parse_line metadata (key +:+ ":" +:+ v2))
  /\ metadata_of sample_block = {[ "title" := "B" ]}.
Proof.
  split; [|split].
  - intros metadata line Hline. unfold parse_line.
    by rewrite (split_once_none ":"%char line Hline).
  - intros metadata key v1 v2 Hkey. unfold parse_line.
    change (key +:+ ":" +:+ v1) with (key +:+ String ":" v1).
    change (key +:+ ":" +:+ v2) with (key +:+ String ":" v2).
    rewrite !(split_once_first ":"%char key _ Hkey).
    apply insert_insert_eq.
  - by vm_compute.
Qed.

Lemma parse_line_ignores_and_overwrites_witness :
  parse_line {[ "title" := "A" ]} "just text" = {[ "title" := "A" ]}
  /\ parse_line (parse_line ∅ ("title" +:+ ":" +:+ " A"))
       ("title" +:+ ":" +:+ " B")
     = parse_line ∅ ("title" +:+ ":" +:+ " B").
Proof.
  destruct parse_line_ignores_and_overwrites as (Hnone & Htwice & _).
  split.
  - exact (Hnone {[ "title" := "A" ]} "just text" eq_refl).
  - exact (Htwice ∅ "title" " A" " B" eq_refl).
Defined.

(** ** Defaults *)

Section Defaults.
Import PyStr Re DateTime.

Lemma re_match_iso_no_digit c s :
  isdigit c = false -> re_match iso_date_pattern (String c s) = None.
Proof.
  intros Hc. unfold re_match, iso_date_pattern, cat. cbn [foldr run].
  by rewrite Hc.
Qed.

Lemma month_name_head m :
  month_name m = EmptyString
  \/ exists c s, month_name m = String c s /\ isdigit c = false.
Proof.
  destruct m as [|p]; [by left |].
  do 4 (try destruct p as [p|p|]); cbn [month_name]; eauto.
Qed.

(** The long form of a date never looks like an ISO date. *)
Lemma format_date_strftime d : format_date (strftime d) = strftime d.
Proof.
  unfold format_date, strftime.
  destruct (month_name_head (month d)) as [-> | (c & s & -> & Hc)].
  - change (EmptyString +:+ " " +:+ zfill 2 (day d) +:+ ", " +:+ zfill 4 (year d))
      with (String " " (zfill 2 (day d) +:+ ", " +:+ zfill 4 (year d))).
    by rewrite re_match_iso_no_digit.
  - change (String c s +:+ " " +:+ zfill 2 (day d) +:+ ", " +:+ zfill 4 (year d))
      with (String c (s +:+ " " +:+ zfill 2 (day d) +:+ ", " +:+ zfill 4 (year d))).
    by rewrite re_match_iso_no_digit.
Qed.
End Defaults.

(** X3. Without a date in the frontmatter the date of a post is the day
    of the build in the long form "Month DD, YYYY", which the step that
    reformats ISO dates leaves as it is; without a title the title is the
    slug with its hyphens turned into spaces and its words capitalised,
    so my-first-post gives My First Post; without a description the
    description is empty.  The date is stated from the year 1000 on and
    the title for a slug in ASCII, whose letters are all that the
    capitalising here knows. *)
Theorem missing_keys_get_defaults :
  (forall (now : DateTime.date) (slug : string) (metadata : metadata_t),
      clock_ok now ->
      metadata !! "date" = None ->
      post_date now metadata
      = long_text (DateTime.year now) (DateTime.month now) (DateTime.day now)
      /\ Post.date (post_record now slug metadata) = post_date now metadata
      /\ format_date (post_date now metadata) = post_date now metadata)
  /\ (forall (metadata : metadata_t) (slug : string),
        PyStr.isascii slug = true ->
        metadata !! "title" = None ->
        post_title metadata slug = PyStr.title (PyStr.replace "-" " " slug))
  /\ post_title ∅ "my-first-post" = "My First Post"
  /\ (forall (now : DateTime.date) (slug : string) (metadata : metadata_t),
        metadata !! "description" = None ->
        Post.description (post_record now slug metadata) = EmptyString).
Proof.
  split; [|split; [|split]].
  - intros now slug metadata _ H.
    assert (Hd : post_date now metadata = DateTime.strftime now)
      by (unfold post_date; rewrite H; apply format_date_strftime).
    cbn [post_record Post.date]. rewrite Hd.
    split; [reflexivity |]. split; [done |]. apply format_date_strftime.
  - intros metadata slug _ H. unfold post_title. by rewrite H.
  - by vm_compute.
  - intros now slug metadata H. cbn [post_record Post.description].
    by rewrite H.
Qed.

Lemma missing_keys_get_defaults_witness :
  post_date (DateTime.Date 2024 3 5) {[ "title" := "Hello" ]}
  = "March 05, 2024"
  /\ post_title {[ "date" := "2024-03-05" ]} "a-b" = "A B".
Proof.
  destruct missing_keys_get_defaults as (Hdate & Htitle & _).
  split.
  - refine (proj1 (Hdate (DateTime.Date 2024 3 5) "hello"
                     {[ "title" := "Hello" ]} (conj eq_refl _) eq_refl)).
    intros H; discriminate H.
  - exact (Htitle {[ "date" := "2024-03-05" ]} "a-b" eq_refl eq_refl).
Defined.

(** X4. The slug is the name of the source file without its suffix; the
    page of a post goes to blog/SLUG/index.html and the fragment of the
    post in the listing links to /blog/SLUG/.  For my-first-post.md the
    page is blog/my-first-post/index.html. *)
Theorem slug_names_page_and_link :
  stem "my-first-post.md" = "my-first-post"
  /\ page_path "my-first-post" = "blog/my-first-post/index.html"
  /\ (forall slug : string,
        slug <> "." -> slug <> EmptyString ->
        page_path slug = "blog/" +:+ slug +:+ "/index.html")
  /\ (forall p : post,
        exists a b : string,
          list_item p
          = a +:+ "<a href=" +:+ PyStr.dq +:+ "/blog/" +:+ Post.slug p +:+ "/"
            +:+ PyStr.dq +:+ b)
  /\ (forall (markdown_to_html : string -> string) (now : DateTime.date)
             (content template : string) (posts : list post) (w : IO.world),
        IO.files w !! "blog_src/my-first-post.md" = Some content ->
        IO.files w !! TEMPLATE_FILE = Some template ->
        IO.files w !! "blog/my-first-post" = None ->
        exists w',
          process markdown_to_html now "my-first-post.md" posts w
          = (inr (posts ++ [record_of now "my-first-post.md" content]), w')
          /\ IO.files w' !! "blog/my-first-post/index.html"
             = Some (page_of markdown_to_html now template "my-first-post.md"
                       content)
          /\ Post.slug (record_of now "my-first-post.md" content)
             = "my-first-post").
Proof.
  split; [by vm_compute |]. split; [by vm_compute |].
  split; [apply page_path_plain |]. split.
  - intros p.
    exists (concat_str
      [ PyStr.nl;
        "          <div class="; PyStr.dq; "view-list-item"; PyStr.dq;
        " style="; PyStr.dq;
        "margin-bottom: 1.5rem; padding-bottom: 1.5rem; border-bottom: 1px solid #e0e0e0;";
        PyStr.dq; ">"; PyStr.nl;
        "            <i class="; PyStr.dq; "far fa-file-alt pub-icon"; PyStr.dq;
        " aria-hidden="; PyStr.dq; "true"; PyStr.dq; "></i>"; PyStr.nl;
        "            " ]).
    eexists. unfold list_item, PyStr.nl, PyStr.dq.
    cbn [concat_str foldr String.append]. reflexivity.
  - intros markdown_to_html now content template posts w Hsrc Htpl Hdir.
    eexists. split.
    + apply (process_spec markdown_to_html now "my-first-post.md" content
               template posts w); [|done..].
      split; [by vm_compute | split; by vm_compute].
    + split; [|by vm_compute]. cbn [IO.files].
      replace (page_path (stem "my-first-post.md"))
        with "blog/my-first-post/index.html" by (by vm_compute).
      by rewrite lookup_insert_eq.
Qed.

Lemma slug_names_page_and_link_witness :
  exists w',
    process (fun s => s) (DateTime.Date 2024 1 1) "my-first-post.md" []
      first_post_site
    = (inr ([] ++ [record_of (DateTime.Date 2024 1 1) "my-first-post.md"
                     sample_source]), w')
    /\ IO.files w' !! "blog/my-first-post/index.html"
       = Some (page_of (fun s => s) (DateTime.Date 2024 1 1)
                 "<h1>{{TITLE}}</h1>{{CONTENT}}" "my-first-post.md"
                 sample_source)
    /\ Post.slug (record_of (DateTime.Date 2024 1 1) "my-first-post.md"
                    sample_source) = "my-first-post".
Proof.
  exact (proj2 (proj2 (proj2 (proj2 slug_names_page_and_link)))
           (fun s => s) (DateTime.Date 2024 1 1) sample_source
           "<h1>{{TITLE}}</h1>{{CONTENT}}" [] first_post_site
           eq_refl eq_refl eq_refl).
Defined.

(** ** A run that goes through *)

Section Build.
Import IO.
Variable markdown_to_html : string -> string.
Variable now : DateTime.date.

Lemma main_run md_files template listing w :
  md_files <> [] ->
  dirs_ok (files w) ->
  sources_ok (files w) md_files ->
  files w !! TEMPLATE_FILE = Some template ->
  files w !! BLOG_LISTING_FILE = Some listing ->
  PyStr.contains bs (region_of (records_of now (files w) md_files)) = false ->
  exists w',
    main markdown_to_html now md_files w = (inr tt, w')
    /\ files w'
       = built markdown_to_html now template listing md_files (files w)
    /\ trace w'
       = trace w ++ startup_events ++ concat (map process_events md_files)
         ++ listing_events (length md_files).
Proof.
  intros Hne Hdirs Hok Htpl Hlist Hbs.
  destruct md_files as [|md_file md_files]; [done |].
  rewrite main_startup by done. set (w1 := World _ _ _).
  destruct (process_all_spec markdown_to_html now template (files w)
              (md_file :: md_files) [] w1) as (w2 & Hrun & Hf & Ht);
    [done.. |].
  unfold bind at 1. rewrite Hrun. unfold bind at 1, print at 1.
  unfold bind at 1.
  rewrite (update_blog_listing_run _ listing).
  2:{ cbn [files log]. rewrite Hf. cbn [w1 files].
      rewrite write_pages_other; [done |].
      intros name Hin Heq. symmetry in Heq. revert Heq.
      apply page_path_not_listing, name_ok_stem, Hok, Hin. }
  cbn [app]. fold (records_of now (files w) (md_file :: md_files)).
  unfold Re.sub. unfold bs in Hbs. rewrite Hbs.
  fold (literal_listing
          (region_of (records_of now (files w) (md_file :: md_files))) listing).
  unfold bind, print, log. cbn [files dirs trace].
  eexists. split; [reflexivity |]. cbn [files trace]. split.
  - unfold built. by rewrite Hf.
  - rewrite Ht. cbn [w1 trace]. unfold listing_events, records_of.
    rewrite length_map. rewrite <- !app_assoc. reflexivity.
Qed.
End Build.

(** ** A second run *)

Section Rerun.
Variable markdown_to_html : string -> string.

Lemma page_of_explicit now1 now2 template md_file content :
  is_Some (fst (parse_frontmatter content) !! "date") ->
  page_of markdown_to_html now1 template md_file content
  = page_of markdown_to_html now2 template md_file content.
Proof.
  intros [d Hd]. unfold page_of, page_html.
  by rewrite !(post_date_explicit _ _ _ Hd).
Qed.

Lemma record_of_explicit now1 now2 md_file content :
  is_Some (fst (parse_frontmatter content) !! "date") ->
  record_of now1 md_file content = record_of now2 md_file content.
Proof.
  intros [d Hd]. unfold record_of, post_record.
  by rewrite !(post_date_explicit _ _ _ Hd).
Qed.

Lemma write_pages_ext now1 now2 template fs0 fs1 md_files : forall fs,
  (forall md_file, In md_file md_files ->
     page_of markdown_to_html now1 template md_file (source fs0 md_file)
     = page_of markdown_to_html now2 template md_file (source fs1 md_file)) ->
  write_pages markdown_to_html now1 template fs0 md_files fs
  = write_pages markdown_to_html now2 template fs1 md_files fs.
Proof.
  induction md_files as [|name md_files IH]; intros fs Heq; [done |].
  rewrite !write_pages_cons, (Heq name (or_introl eq_refl)).
  apply IH. intros n Hn. apply Heq. by right.
Qed.

Lemma page_path_not_root s :
  s <> "." /\ s <> EmptyString ->
  page_path s <> BLOG_SRC_DIR /\ page_path s <> BLOG_OUTPUT_DIR.
Proof.
  intros [Ha Hb]. rewrite page_path_plain by done. split; discriminate.
Qed.

(** A path that is neither the listing nor the page of a post is after
    the run what it was before. *)
Lemma built_other now template listing md_files fs path :
  path <> BLOG_LISTING_FILE ->
  (forall name, In name md_files -> path <> page_path (stem name)) ->
  built markdown_to_html now template listing md_files fs !! path = fs !! path.
Proof.
  intros Hl Hp. unfold built. rewrite lookup_insert_ne by done.
  by apply write_pages_other.
Qed.

Lemma src_path_not_listing name : src_path name <> BLOG_LISTING_FILE.
Proof. by destruct (src_path_cases name) as [-> | ->]. Qed.

Section Built.
Variables (now : DateTime.date) (template listing : string).
Variables (md_files : list string) (fs : gmap string string).
Hypothesis Hdirs : dirs_ok fs.
Hypothesis Hok : sources_ok fs md_files.
Hypothesis Htpl : fs !! TEMPLATE_FILE = Some template.
Hypothesis Hlist : fs !! BLOG_LISTING_FILE = Some listing.

Let fs1 := built markdown_to_html now template listing md_files fs.

Lemma built_source name : fs1 !! src_path name = fs !! src_path name.
Proof.
  apply built_other; [apply src_path_not_listing |].
  intros n Hn Heq. symmetry in Heq. revert Heq.
  apply page_path_not_source, name_ok_stem, Hok, Hn.
Qed.

Lemma built_dirs_ok : dirs_ok fs1.
Proof.
  destruct Hdirs as [Hsrc Hout]. split.
  - unfold fs1. rewrite built_other; [done | discriminate |].
    intros n Hn Heq. symmetry in Heq. revert Heq.
    apply page_path_not_root, name_ok_stem, Hok, Hn.
  - unfold fs1. rewrite built_other; [done | discriminate |].
    intros n Hn Heq. symmetry in Heq. revert Heq.
    apply page_path_not_root, name_ok_stem, Hok, Hn.
Qed.

Lemma built_sources_ok : sources_ok fs1 md_files.
Proof.
  intros name Hin. destruct (Hok name Hin) as (Hname & Hsrc & Hdir).
  split; [done |]. split; [by rewrite built_source |].
  unfold fs1. rewrite built_other; [done | |].
  - intros Heq. rewrite Heq, Hlist in Hdir. discriminate.
  - intros n Hn Heq. symmetry in Heq. revert Heq.
    apply page_path_not_dir;
      [apply name_ok_stem, Hok, Hn | by apply name_ok_stem | by destruct Hname].
Qed.

Lemma built_template : fs1 !! TEMPLATE_FILE = Some template.
Proof.
  unfold fs1. rewrite built_other; [done | discriminate |].
  intros n Hn Heq. symmetry in Heq. revert Heq.
  apply page_path_not_template, name_ok_stem, Hok, Hn.
Qed.

Lemma built_listing :
  fs1 !! BLOG_LISTING_FILE
  = Some (literal_listing (region_of (records_of now fs md_files)) listing).
Proof. unfold fs1, built. by rewrite lookup_insert_eq. Qed.

Lemma built_sources name : source fs1 name = source fs name.
Proof. unfold source. by rewrite built_source. Qed.
End Built.
End Rerun.

(** The sample site is one of text files with plain names. *)
Lemma hello_slug_ok md_file : In md_file ["hello.md"] -> slug_ok md_file.
Proof.
  intros [<- | []]. repeat split; try discriminate; try reflexivity.
Qed.

Lemma sample_sources_plain (fs : gmap string string) :
  fs !! "blog_src/hello.md" = Some sample_source ->
  plain_sources fs ["hello.md"].
Proof.
  intros Hsrc md_file [<- | []]. unfold source.
  change (src_path "hello.md") with "blog_src/hello.md".
  rewrite Hsrc. by vm_compute.
Qed.

Lemma sample_clock_ok : clock_ok (DateTime.Date 2024 1 1).
Proof. split; [reflexivity |]. intros H; discriminate H. Qed.

Lemma canonical_template : canonical TEMPLATE_FILE.
Proof.
  repeat constructor; try discriminate.
Qed.

(** X5. A run over a source directory with files, all of which can be
    read, with the template and the listing in place and a replacement
    text without a backslash, ends without an error.  It has made the two
    directories, taken the files in their order (a progress line, the
    source and the template read, the directory of the post made, the page
    written, a second line), and then rewritten the listing once and
    reported the number of posts.  Afterwards every post has its page at
    blog/SLUG/index.html, the listing holds the new regions, and every
    other file is what it was.  The template and the listing are text
    files, the sources are ASCII text with ASCII names and no date before
    the year 1000, the slugs are plain names (a file named ...md has the
    slug .. and its page goes to index.html above the output directory),
    and the other files are named by their canonical paths. *)
Theorem main_builds_site (markdown_to_html : string -> string)
    (now : DateTime.date) (md_files : list string) (template listing : string)
    (w : IO.world) :
  md_files <> [] ->
  dirs_ok (IO.files w) ->
  sources_ok (IO.files w) md_files ->
  (forall md_file, In md_file md_files -> slug_ok md_file) ->
  NoDup (map stem md_files) ->
  IO.files w !! TEMPLATE_FILE = Some template ->
  IO.files w !! BLOG_LISTING_FILE = Some listing ->
  plain_sources (IO.files w) md_files ->
  clock_ok now ->
  IO.text_file template = true ->
  IO.text_file listing = true ->
  PyStr.contains bs (region_of (records_of now (IO.files w) md_files)) = false ->
  exists w',
    main markdown_to_html now md_files w = (inr tt, w')
    /\ (forall md_file, In md_file md_files ->
          IO.files w' !! page_path (stem md_file)
          = Some (page_of markdown_to_html now template md_file
                    (source (IO.files w) md_file)))
    /\ IO.files w' !! BLOG_LISTING_FILE
       = Some (literal_listing
                 (region_of (records_of now (IO.files w) md_files)) listing)
    /\ (forall path,
          canonical path ->
          path <> BLOG_LISTING_FILE ->
          (forall name, In name md_files -> path <> page_path (stem name)) ->
          IO.files w' !! path = IO.files w !! path)
    /\ IO.trace w'
       = IO.trace w ++ startup_events ++ concat (map process_events md_files)
         ++ listing_events (length md_files).
Proof.
  intros Hne Hdirs Hok _ Hnd Htpl Hlist _ _ _ _ Hbs.
  destruct (main_run markdown_to_html now md_files template listing w)
    as (w' & Hrun & Hf & Ht); [done.. |].
  exists w'. split; [done |]. rewrite Hf. split; [|split; [|split]].
  - intros md_file Hin. unfold built. rewrite lookup_insert_ne.
    + apply write_pages_page; [|done..]. intros n Hn. by apply Hok.
    + intros Heq. symmetry in Heq. revert Heq.
      apply page_path_not_listing, name_ok_stem, Hok, Hin.
  - unfold built. by rewrite lookup_insert_eq.
  - intros path _ Hl Hp. by apply built_other.
  - done.
Qed.

Lemma main_builds_site_witness :
  exists w',
    main (fun s => s) (DateTime.Date 2024 1 1) ["hello.md"] sample_site
    = (inr tt, w')
    /\ IO.files w' !! "blog/hello/index.html" = Some "<h1>Hello</h1>Text"
    /\ IO.files w' !! BLOG_LISTING_FILE
       = Some ("<body>" +:+ region_of [plain_post] +:+ "</body>")
    /\ IO.files w' !! TEMPLATE_FILE = Some "<h1>{{TITLE}}</h1>{{CONTENT}}".
Proof.
  destruct (main_builds_site (fun s => s) (DateTime.Date 2024 1 1) ["hello.md"]
              "<h1>{{TITLE}}</h1>{{CONTENT}}"
              ("<body>" +:+ blog_list_open +:+ "</div></body>") sample_site)
    as (w' & Hrun & Hpage & Hlisting & Hother & _).
  - discriminate.
  - split; reflexivity.
  - apply sample_sources_ok; reflexivity.
  - exact hello_slug_ok.
  - apply NoDup_singleton.
  - reflexivity.
  - reflexivity.
  - apply sample_sources_plain; reflexivity.
  - exact sample_clock_ok.
  - reflexivity.
  - reflexivity.
  - by vm_compute.
  - exists w'. split; [exact Hrun |]. split; [|split].
    + exact (Hpage "hello.md" (or_introl eq_refl)).
    + rewrite Hlisting. by vm_compute.
    + rewrite (Hother TEMPLATE_FILE);
        [reflexivity | exact canonical_template | discriminate |].
      intros name [<- | []]. by vm_compute.
Defined.

(** X6. When every post carries a date of its own, a second run over
    the files the first run left goes through as well, whatever the day,
    and leaves every file but the listing as the first run left it: the
    pages are the same, byte for byte.  The listing it writes is the
    listing of the first run with its regions replaced once more. *)
Theorem second_run_keeps_pages (markdown_to_html : string -> string)
    (now1 now2 : DateTime.date) (md_files : list string)
    (template listing : string) (w : IO.world) :
  md_files <> [] ->
  dirs_ok (IO.files w) ->
  sources_ok (IO.files w) md_files ->
  NoDup (map stem md_files) ->
  IO.files w !! TEMPLATE_FILE = Some template ->
  IO.files w !! BLOG_LISTING_FILE = Some listing ->
  dated (IO.files w) md_files ->
  PyStr.contains bs (region_of (records_of now1 (IO.files w) md_files)) = false ->
  exists w1 w2 : IO.world,
    main markdown_to_html now1 md_files w = (inr tt, w1)
    /\ main markdown_to_html now2 md_files w1 = (inr tt, w2)
    /\ (forall path,
          path <> BLOG_LISTING_FILE ->
          IO.files w2 !! path = IO.files w1 !! path)
    /\ IO.files w2 !! BLOG_LISTING_FILE
       = Some (literal_listing
                 (region_of (records_of now1 (IO.files w) md_files))
                 (literal_listing
                    (region_of (records_of now1 (IO.files w) md_files))
                    listing)).
Proof.
  intros Hne Hdirs Hok Hnd Htpl Hlist Hdated Hbs.
  destruct (main_run markdown_to_html now1 md_files template listing w)
    as (w1 & Hrun1 & Hf1 & _); [done.. |].
  set (region := region_of (records_of now1 (IO.files w) md_files)) in *.
  assert (Hrec : records_of now2 (IO.files w1) md_files
                 = records_of now1 (IO.files w) md_files).
  { unfold records_of. apply map_ext_in. intros name Hin.
    rewrite Hf1, (built_sources markdown_to_html now1 template listing
                    md_files (IO.files w) Hok).
    by apply record_of_explicit, Hdated. }
  destruct (main_run markdown_to_html now2 md_files template
              (literal_listing region listing) w1)
    as (w2 & Hrun2 & Hf2 & _); try done.
  - rewrite Hf1. by apply built_dirs_ok.
  - rewrite Hf1. by eapply built_sources_ok.
  - rewrite Hf1. by apply built_template.
  - rewrite Hf1. by apply built_listing.
  - by rewrite Hrec.
  - exists w1, w2. split; [done |]. split; [done |]. split.
    + intros path Hl. rewrite Hf2. unfold built at 1.
      rewrite lookup_insert_ne by done.
      rewrite (write_pages_ext markdown_to_html now2 now1 template
                 (IO.files w1) (IO.files w) md_files).
      2:{ intros name Hin.
          rewrite Hf1, (built_sources markdown_to_html now1 template listing
                          md_files (IO.files w) Hok).
          by apply page_of_explicit, Hdated. }
      destruct (in_dec String.string_dec path
                  (map (fun n => page_path (stem n)) md_files)) as [Hin | Hnot].
      * apply in_map_iff in Hin as (name & <- & Hin).
        rewrite write_pages_page; [|intros n Hn; by apply Hok | done..].
        rewrite Hf1. unfold built. rewrite lookup_insert_ne by done.
        rewrite write_pages_page; [done |intros n Hn; by apply Hok | done..].
      * apply write_pages_other. intros name Hin ->. apply Hnot.
        apply in_map_iff. by exists name.
    + rewrite Hf2. unfold built. rewrite lookup_insert_eq. by rewrite Hrec.
Qed.

Lemma second_run_keeps_pages_witness :
  exists w1 w2 : IO.world,
    main (fun s => s) (DateTime.Date 2024 1 1) ["hello.md"] sample_site
    = (inr tt, w1)
    /\ main (fun s => s) (DateTime.Date 2025 6 7) ["hello.md"] w1 = (inr tt, w2)
    /\ IO.files w2 !! "blog/hello/index.html"
       = IO.files w1 !! "blog/hello/index.html".
Proof.
  destruct (second_run_keeps_pages (fun s => s) (DateTime.Date 2024 1 1)
              (DateTime.Date 2025 6 7) ["hello.md"]
              "<h1>{{TITLE}}</h1>{{CONTENT}}"
              ("<body>" +:+ blog_list_open +:+ "</div></body>") sample_site)
    as (w1 & w2 & Hrun1 & Hrun2 & Hsame & _).
  - discriminate.
  - split; reflexivity.
  - apply sample_sources_ok; reflexivity.
  - apply NoDup_singleton.
  - reflexivity.
  - reflexivity.
  - intros name [<- | []]. exists "2024-03-05". by vm_compute.
  - by vm_compute.
  - exists w1, w2. split; [exact Hrun1 |]. split; [exact Hrun2 |].
    apply Hsame. discriminate.
Defined.

(** ** Slugs *)

Section Slugs.
Import PyStr.

Lemma rfind_dot_md base :
  rfind_dot (base +:+ ".md") = Some (String.length base).
Proof.
  induction base as [|c base IH]; [done |].
  change (String c base +:+ ".md") with (String c (base +:+ ".md")).
  cbn [rfind_dot String.length]. by rewrite IH.
Qed.

Lemma stem_md base : base <> EmptyString -> stem (base +:+ ".md") = base.
Proof.
  intros Hne. unfold stem. rewrite rfind_dot_md, length_append.
  destruct base as [|c base]; [done |]. cbn [String.length].
  replace (0 <? S (String.length base)) with true
    by (symmetry; apply Nat.ltb_lt; lia).
  replace (S (String.length base) <? S (String.length base) + 3 - 1) with true
    by (symmetry; apply Nat.ltb_lt; lia).
  cbn [andb]. apply (take_append (String c base)).
Qed.

Lemma stem_md_inj a b : md_name a -> md_name b -> stem a = stem b -> a = b.
Proof.
  intros (x & Hx & ->) (y & Hy & ->). rewrite !stem_md by done. by intros ->.
Qed.

Lemma stems_distinct names :
  (forall name, In name names -> md_name name) ->
  List.NoDup names -> List.NoDup (map stem names).
Proof.
  induction names as [|name names IH]; intros Hmd Hnd; [constructor |].
  inversion Hnd as [|? ? Hfresh Hnd']; subst. cbn [map]. constructor.
  - intros Hin. apply in_map_iff in Hin as (other & Heq & Hin).
    apply Hfresh. replace name with other; [done |].
    apply stem_md_inj; [apply Hmd; by right | apply Hmd; by left | done].
  - apply IH; [|done]. intros n Hn. apply Hmd. by right.
Qed.
End Slugs.

(** X7. The slug of a source file NAME.md with a non-empty NAME is NAME:
    the suffix is taken off and nothing else, whatever dots and hyphens
    the name holds.  Two different files of that kind have different
    slugs, so no page of a run overwrites another and the pages go to
    different paths.  The file named .md alone keeps its whole name as
    slug. *)
Theorem slug_of_md_file :
  (forall base : string, base <> EmptyString -> stem (base +:+ ".md") = base)
  /\ (forall a b : string, md_name a -> md_name b -> stem a = stem b -> a = b)
  /\ (forall names : list string,
        (forall name, In name names -> md_name name) ->
        List.NoDup names -> List.NoDup (map stem names))
  /\ (forall a b : string,
        md_name a -> md_name b -> name_ok a -> name_ok b ->
        page_path (stem a) = page_path (stem b) -> a = b)
  /\ stem ".md" = ".md".
Proof.
  split; [apply stem_md |]. split; [apply stem_md_inj |].
  split; [apply stems_distinct |]. split; [|by vm_compute].
  intros a b Ha Hb Hoka Hokb Heq. apply stem_md_inj; [done.. |].
  apply page_path_inj in Heq; [done | by apply name_ok_stem..].
Qed.

Lemma slug_of_md_file_witness :
  stem ("my.first-post" +:+ ".md") = "my.first-post"
  /\ List.NoDup (map stem ["a.md"; "a.b.md"]).
Proof.
  destruct slug_of_md_file as (Hstem & _ & Hdistinct & _).
  split.
  - apply Hstem. discriminate.
  - apply Hdistinct.
    + intros name [<- | [<- | []]].
      * exists "a". split; [discriminate | reflexivity].
      * exists "a.b". split; [discriminate | reflexivity].
    + repeat constructor; cbn; intuition discriminate.
Defined.

(** ** Formatting a date twice, and the months in the listing *)

Section LongDates.
Import PyStr Re DateTime.

Lemma format_date_iso_text y m d :
  valid y m d = true -> format_date (iso_text y m d) = long_text y m d.
Proof.
  intros Hv. unfold format_date.
  destruct (valid_bounds _ _ _ Hv) as (Hy & Hm & Hd).
  destruct (iso_date_pattern_text y m d) as [mo ->]; [lia | lia | lia |].
  by rewrite (strptime_iso_text _ _ _ Hv).
Qed.

(** What [format_date] gives is its argument or the long form of a
    date. *)
Lemma format_date_cases s :
  format_date s = s \/ exists d, format_date s = strftime d.
Proof.
  unfold format_date.
  destruct (re_match iso_date_pattern s); [|left; reflexivity].
  destruct (strptime s) as [d|].
  - right. by exists d.
  - by left.
Qed.

Lemma format_date_twice s : format_date (format_date s) = format_date s.
Proof.
  destruct (format_date_cases s) as [H | [d H]]; [by rewrite !H |].
  rewrite H. apply format_date_strftime.
Qed.

(** No name of a month starts another, so two long forms with
    different months compare as the names of the months do. *)
Lemma long_text_order y1 m1 d1 y2 m2 d2 :
  (1 <= m1 <= 12)%N -> (1 <= m2 <= 12)%N -> m1 <> m2 ->
  str_lt (long_text y1 m1 d1) (long_text y2 m2 d2)
  = str_lt (month_name m1) (month_name m2).
Proof.
  intros H1 H2 Hne. unfold long_text, str_lt.
  destruct m1 as [|p1]; [lia |]. destruct m2 as [|p2]; [lia |].
  do 4 (try destruct p1 as [p1|p1|]); try lia;
    do 4 (try destruct p2 as [p2|p2|]); try lia;
    try (by destruct Hne); reflexivity.
Qed.
End LongDates.

(** X8. Formatting a date a second time changes nothing: what the first
    pass gives is the text it was given or the long form of a date, and
    the long form does not look like an ISO date.  So the date of a record
    is stable under the formatting step, and so is the default date of
    the day of the build. *)
Theorem format_date_idempotent :
  (forall date : string, format_date (format_date date) = format_date date)
  /\ (forall (now : DateTime.date) (metadata : metadata_t),
        format_date (post_date now metadata) = post_date now metadata)
  /\ (forall d : DateTime.date,
        format_date (DateTime.strftime d) = DateTime.strftime d)
  /\ (forall date : string,
        format_date date = date
        \/ exists d : DateTime.date, format_date date = DateTime.strftime d).
Proof.
  split; [apply format_date_twice |]. split.
  - intros now metadata. apply format_date_twice.
  - split; [apply format_date_strftime | apply format_date_cases].
Qed.

(** X9. Posts with ISO dates are listed by the names of their months,
    not by their days: among posts of different months the one whose
    month comes later in the alphabet stands first, whatever the years
    and the days, and whichever was read first.  A post of April 2024
    stands behind a post of January 2023. *)
Theorem listing_orders_months_by_name (now : DateTime.date)
    (slug1 slug2 : string) (y1 m1 d1 y2 m2 d2 : N) :
  DateTime.valid y1 m1 d1 = true ->
  DateTime.valid y2 m2 d2 = true ->
  PyStr.str_lt (DateTime.month_name m1) (DateTime.month_name m2) = true ->
  let p1 := dated_record now slug1 (iso_text y1 m1 d1) in
  let p2 := dated_record now slug2 (iso_text y2 m2 d2) in
  Post.date p1 = long_text y1 m1 d1
  /\ Post.date p2 = long_text y2 m2 d2
  /\ blog_list_html [p1; p2] = list_item p2 +:+ list_item p1
  /\ blog_list_html [p2; p1] = list_item p2 +:+ list_item p1.
Proof.
  intros Hv1 Hv2 Hlt p1 p2.
  assert (Hd1 : Post.date p1 = long_text y1 m1 d1).
  { unfold p1, dated_record. cbn [post_record Post.date].
    rewrite (post_date_explicit _ _ (iso_text y1 m1 d1)).
    - by apply format_date_iso_text.
    - apply lookup_insert_eq. }
  assert (Hd2 : Post.date p2 = long_text y2 m2 d2).
  { unfold p2, dated_record. cbn [post_record Post.date].
    rewrite (post_date_explicit _ _ (iso_text y2 m2 d2)).
    - by apply format_date_iso_text.
    - apply lookup_insert_eq. }
  destruct (valid_bounds _ _ _ Hv1) as (_ & Hm1 & _).
  destruct (valid_bounds _ _ _ Hv2) as (_ & Hm2 & _).
  assert (Hne : m1 <> m2).
  { intros ->. pose proof (str_lt_le_strict _ _ Hlt) as Hle.
    apply str_lt_le in Hle. congruence. }
  assert (H12 : PyStr.str_lt (Post.date p1) (Post.date p2) = true).
  { rewrite Hd1, Hd2. by rewrite long_text_order. }
  assert (H21 : PyStr.str_lt (Post.date p2) (Post.date p1) = false).
  { apply str_lt_le. by apply str_lt_le_strict. }
  split; [done |]. split; [done |].
  unfold blog_list_html, sorted_reverse. cbn [foldr insert_desc].
  rewrite H12, H21. cbn [map concat_str foldr]. by rewrite append_nil_r.
Qed.

Lemma listing_orders_months_by_name_witness :
  let april := dated_record (DateTime.Date 2025 1 1) "new" "2024-04-15" in
  let january := dated_record (DateTime.Date 2025 1 1) "old" "2023-01-15" in
  Post.date april = "April 15, 2024"
  /\ Post.date january = "January 15, 2023"
  /\ blog_list_html [april; january] = list_item january +:+ list_item april
  /\ blog_list_html [january; april] = list_item january +:+ list_item april.
Proof.
  exact (listing_orders_months_by_name (DateTime.Date 2025 1 1) "new" "old"
           2024 4 15 2023 1 15 eq_refl eq_refl eq_refl).
Defined.

(** ** The order of the source files *)

Section FileOrder.
Import PyStr.
Context {A : Type} (key : A -> string).

Lemma key_inj_in (l : list A) a b :
  List.NoDup (map key l) -> In a l -> In b l -> key a = key b -> a = b.
Proof.
  induction l as [|x l IH]; [done |]. cbn [map].
  intros Hnd Ha Hb Hk. inversion Hnd as [|? ? Hfresh Hnd']; subst.
  destruct Ha as [-> | Ha], Hb as [-> | Hb]; [done | | | by apply IH].
  - destruct Hfresh. rewrite Hk. by apply in_map.
  - destruct Hfresh. rewrite <- Hk. by apply in_map.
Qed.

(** Two lists in descending order with the same elements, no two of
    which share a key, are the same list. *)
Lemma sorted_perm_eq (l1 : list A) : forall l2,
  StronglySorted (before key) l1 -> StronglySorted (before key) l2 ->
  Permutation l1 l2 -> List.NoDup (map key l1) -> l1 = l2.
Proof.
  induction l1 as [|a t1 IH]; intros l2 Hs1 Hs2 Hp Hnd.
  - by apply Permutation_nil in Hp.
  - destruct l2 as [|b t2].
    { symmetry in Hp. by apply Permutation_nil in Hp. }
    assert (Hab : a = b).
    { assert (Ha : In a (b :: t2))
        by (apply (Permutation_in _ Hp); by left).
      assert (Hb : In b (a :: t1))
        by (apply (Permutation_in _ (Permutation_sym Hp)); by left).
      destruct Ha as [-> | Ha]; [done |].
      destruct Hb as [-> | Hb]; [done |].
      apply StronglySorted_inv in Hs1 as [_ H1].
      apply StronglySorted_inv in Hs2 as [_ H2].
      rewrite List.Forall_forall in H1, H2.
      apply (key_inj_in (a :: t1)); [done | by left | by right |].
      apply String.leb_antisym; apply Is_true_true;
        [apply (H2 a Ha) | apply (H1 b Hb)]. }
    subst b. f_equal. apply Permutation_cons_inv in Hp.
    apply StronglySorted_inv in Hs1 as [Hs1 _].
    apply StronglySorted_inv in Hs2 as [Hs2 _].
    cbn [map] in Hnd. inversion Hnd; subst. by apply IH.
Qed.

Lemma sorted_reverse_order_free (l1 l2 : list A) :
  Permutation l1 l2 -> List.NoDup (map key l1) ->
  sorted_reverse key l1 = sorted_reverse key l2.
Proof.
  intros Hp Hnd. apply sorted_perm_eq; try apply sorted_reverse_sorted.
  - rewrite (sorted_reverse_perm key l1), Hp.
    symmetry. apply sorted_reverse_perm.
  - eapply Permutation_NoDup; [|exact Hnd].
    apply Permutation_map. symmetry. apply sorted_reverse_perm.
Qed.
End FileOrder.

(** X10. The listing does not depend on the order in which the source
    files were read, as long as no two posts have the same date string:
    for two lists with the same records the fragments come out in the
    same order.  (Records with the same date keep the order of the
    files.) *)
Theorem listing_ignores_file_order (posts1 posts2 : list post) :
  Permutation posts1 posts2 ->
  List.NoDup (map Post.date posts1) ->
  blog_list_html posts1 = blog_list_html posts2
  /\ region_of posts1 = region_of posts2.
Proof.
  intros Hp Hnd.
  assert (H : blog_list_html posts1 = blog_list_html posts2).
  { destruct posts1 as [|p1 t1].
    - apply Permutation_nil in Hp. by subst.
    - destruct posts2 as [|p2 t2].
      + symmetry in Hp. by apply Permutation_nil in Hp.
      + unfold blog_list_html.
        by rewrite (sorted_reverse_order_free Post.date _ _ Hp Hnd). }
  split; [done |]. unfold region_of. by rewrite H.
Qed.

Lemma listing_ignores_file_order_witness :
  let a := sample_post "A" "March 05, 2024" "" in
  let b := sample_post "B" "June 01, 2024" "" in
  blog_list_html [a; b] = blog_list_html [b; a]
  /\ region_of [a; b] = region_of [b; a].
Proof.
  intros a b. apply listing_ignores_file_order.
  - apply perm_swap.
  - repeat constructor; cbn; intuition discriminate.
Defined.

(** ** What a run may change *)

Section ChangesOnly.
Import IO.

Lemma co_same {A} P (c : M A) : (forall w, snd (c w) = w) -> changes_only P c.
Proof.
  intros H w. rewrite H. split; [|done].
  exists []. by rewrite app_nil_r.
Qed.

Lemma co_ret {A} P (x : A) : changes_only P (ret x).
Proof. by apply co_same. Qed.

Lemma co_raise {A} P e : changes_only P (@raise A e).
Proof. by apply co_same. Qed.

Lemma co_log P e w :
  (forall path, e <> EvWrite path) ->
  (exists new, trace (log e w) = trace w ++ new
               /\ Forall (writes_within P) new)
  /\ (forall path, ~ P path -> files (log e w) !! path = files w !! path).
Proof.
  intros He. split; [|done]. exists [e]. split; [done |].
  constructor; [|constructor]. intros path ->. by destruct (He path).
Qed.

Lemma co_print P line : changes_only P (print line).
Proof. intros w. by apply co_log. Qed.

Lemma co_read_file P path : changes_only P (read_file path).
Proof.
  intros w. unfold read_file. destruct (files w !! path).
  - by apply co_log.
  - cbn [snd]. split; [|done]. exists []. by rewrite app_nil_r.
Qed.

Lemma co_mkdir P path : changes_only P (mkdir path).
Proof.
  intros w. unfold mkdir. destruct (files w !! path); cbn [snd].
  - split; [|done]. exists []. by rewrite app_nil_r.
  - split; [|done]. exists [EvMkdir path]. split; [done |].
    constructor; [|constructor]. by intros p.
Qed.

Lemma co_write_file (P : string -> Prop) path text :
  P path -> changes_only P (write_file path text).
Proof.
  intros HP w. unfold write_file. cbn [snd files trace]. split.
  - exists [EvWrite path]. split; [done |].
    constructor; [|constructor]. by intros p [= <-].
  - intros p Hp. rewrite lookup_insert_ne; [done |]. by intros ->.
Qed.

Lemma co_bind {A B} P (c : M A) (k : A -> M B) :
  changes_only P c -> (forall x, changes_only P (k x)) ->
  changes_only P (bind c k).
Proof.
  intros Hc Hk w. unfold bind.
  destruct (Hc w) as [(new1 & Ht1 & Hw1) Hf1].
  destruct (c w) as [[e | x] w1]; cbn [snd] in *.
  - split; [by exists new1 | done].
  - destruct (Hk x w1) as [(new2 & Ht2 & Hw2) Hf2]. split.
    + exists (new1 ++ new2). rewrite Ht2, Ht1, <- app_assoc.
      split; [done |]. by apply Forall_app.
    + intros path Hp. by rewrite Hf2, Hf1.
Qed.

Lemma co_weaken {A} (P Q : string -> Prop) (c : M A) :
  (forall path, P path -> Q path) -> changes_only P c -> changes_only Q c.
Proof.
  intros HPQ Hc w. destruct (Hc w) as [(new & Ht & Hw) Hf]. split.
  - exists new. split; [done |].
    eapply Forall_impl; [exact Hw |]. intros e He path Hpath.
    by apply HPQ, He.
  - intros path Hp. apply Hf. intros HP. by apply Hp, HPQ.
Qed.

Variable markdown_to_html : string -> string.
Variable now : DateTime.date.

Lemma co_generate P metadata html_content slug template_path :
  changes_only P
    (generate_blog_post now metadata html_content slug template_path).
Proof.
  unfold generate_blog_post. apply co_bind; [apply co_read_file |].
  intros template. apply co_ret.
Qed.

Lemma co_update posts :
  changes_only (fun path => path = BLOG_LISTING_FILE)
    (update_blog_listing posts).
Proof.
  unfold update_blog_listing. apply co_bind; [apply co_read_file |].
  intros listing_html. destruct (Re.sub _ _ _); [apply co_raise |].
  by apply co_write_file.
Qed.

Lemma co_process md_file posts :
  changes_only (fun path => path = page_path (stem md_file))
    (process markdown_to_html now md_file posts).
Proof.
  unfold process.
  repeat first [ apply co_print | apply co_read_file | apply co_generate
               | apply co_mkdir | apply co_ret
               | by apply co_write_file
               | apply co_bind; [|intros ?] ].
Qed.

Lemma co_process_all md_files : forall posts,
  changes_only (output_path md_files)
    (process_all markdown_to_html now md_files posts).
Proof.
  induction md_files as [|md_file md_files IH]; intros posts;
    [apply co_ret |].
  cbn [process_all]. apply co_bind.
  - eapply co_weaken; [|apply co_process].
    intros path ->. right. exists md_file. split; [by left | done].
  - intros posts'. eapply co_weaken; [|apply IH].
    intros path [-> | (n & Hn & ->)]; [by left |].
    right. exists n. split; [by right | done].
Qed.

Lemma co_main md_files :
  changes_only (output_path md_files) (main markdown_to_html now md_files).
Proof.
  unfold main.
  apply co_bind; [apply co_mkdir | intros _].
  apply co_bind; [apply co_mkdir | intros _].
  destruct md_files as [|md_file md_files].
  - apply co_bind; [apply co_print | intros _; apply co_print].
  - apply co_bind; [apply co_process_all | intros posts].
    apply co_bind; [apply co_print | intros _].
    apply co_bind.
    { eapply co_weaken; [|apply co_update]. intros path ->. by left. }
    intros _. apply co_bind; [apply co_print | intros _; apply co_print].
Qed.
End ChangesOnly.

(** A slug that is a plain name is one that names a post. *)
Lemma slug_ok_name_ok md_file : slug_ok md_file -> name_ok md_file.
Proof. by intros (? & ? & _ & ?). Qed.

(** X11. Whether a run ends well or with an error, it writes to no path
    but the listing and the pages of the posts of its source files, and
    the trace of what was done only grows.  When the slugs are plain
    names these paths are the files blog/index.html and
    blog/SLUG/index.html, and every other file, named by its canonical
    path, holds afterwards what it held before; the template and the
    files of the source directory are among these.  (A source file named
    ...md has the slug .., and its page goes to index.html above the
    output directory.) *)
Theorem main_changes_only_outputs (markdown_to_html : string -> string)
    (now : DateTime.date) (md_files : list string) (w : IO.world) :
  (exists new : list IO.event,
      IO.trace (snd (main markdown_to_html now md_files w)) = IO.trace w ++ new
      /\ Forall (writes_within (output_path md_files)) new)
  /\ ((forall md_file, In md_file md_files -> slug_ok md_file) ->
      (forall path : string,
          canonical path ->
          path <> BLOG_LISTING_FILE ->
          (forall md_file, In md_file md_files ->
             path <> page_path (stem md_file)) ->
          IO.files (snd (main markdown_to_html now md_files w)) !! path
          = IO.files w !! path)
      /\ IO.files (snd (main markdown_to_html now md_files w)) !! TEMPLATE_FILE
         = IO.files w !! TEMPLATE_FILE
      /\ forall name : string,
           plain_name name ->
           IO.files (snd (main markdown_to_html now md_files w)) !! src_path name
           = IO.files w !! src_path name).
Proof.
  destruct (co_main markdown_to_html now md_files w) as [Htrace Hfiles].
  split; [done |]. intros Hok. split; [|split].
  - intros path _ Hl Hp. apply Hfiles. intros [-> | (n & Hn & ->)]; [done |].
    by apply (Hp n).
  - apply Hfiles. intros [Heq | (n & Hn & Heq)]; [discriminate |].
    symmetry in Heq. revert Heq.
    apply page_path_not_template, name_ok_stem, slug_ok_name_ok, Hok, Hn.
  - intros name _. apply Hfiles. intros [Heq | (n & Hn & Heq)].
    + by apply (src_path_not_listing name).
    + symmetry in Heq. revert Heq.
      apply page_path_not_source, name_ok_stem, slug_ok_name_ok, Hok, Hn.
Qed.

Lemma main_changes_only_outputs_witness :
  IO.files (snd (main (fun s => s) (DateTime.Date 2024 1 1) ["hello.md"]
                   sample_site)) !! "blog_src/hello.md"
  = Some sample_source
  /\ IO.files (snd (main (fun s => s) (DateTime.Date 2024 1 1) ["hello.md"]
                      sample_site_no_listing)) !! TEMPLATE_FILE
     = Some "<h1>{{TITLE}}</h1>{{CONTENT}}".
Proof.
  split.
  - destruct (main_changes_only_outputs (fun s => s) (DateTime.Date 2024 1 1)
                ["hello.md"] sample_site) as (_ & Hother).
    destruct (Hother hello_slug_ok) as (_ & _ & Hsrc).
    refine (eq_trans (Hsrc "hello.md" _) _); [|reflexivity].
    repeat split; try discriminate; try reflexivity.
  - destruct (main_changes_only_outputs (fun s => s) (DateTime.Date 2024 1 1)
                ["hello.md"] sample_site_no_listing) as (_ & Hother).
    destruct (Hother hello_slug_ok) as (_ & Htpl & _).
    rewrite Htpl. reflexivity.
Defined.

(** ** A loop that stops on the way *)

Section LoopFails.
Import IO.
Variable markdown_to_html : string -> string.
Variable now : DateTime.date.

Lemma process_all_app l1 l2 : forall posts w,
  process_all markdown_to_html now (l1 ++ l2) posts w
  = bind (process_all markdown_to_html now l1 posts)
      (fun posts' => process_all markdown_to_html now l2 posts') w.
Proof.
  induction l1 as [|a l1 IH]; intros posts w; [done |].
  cbn [app process_all]. unfold bind in *.
  destruct (process markdown_to_html now a posts w) as [[e | posts1] w1];
    [done |].
  by rewrite IH.
Qed.

(** The run up to the file [bad]: the files before it have their
    pages, and what the turn of [bad] raises is what the run raises. *)
Lemma loop_prefix done bad rest template w :
  dirs_ok (files w) ->
  sources_ok (files w) done ->
  files w !! TEMPLATE_FILE = Some template ->
  exists w2,
    files w2 = write_pages markdown_to_html now template (files w) done (files w)
    /\ trace w2 = trace w ++ startup_events ++ concat (map process_events done)
    /\ forall e w3,
         process markdown_to_html now bad (records_of now (files w) done) w2
         = (inl e, w3) ->
         main markdown_to_html now (done ++ bad :: rest) w = (inl e, w3).
Proof.
  intros Hdirs Hok Htpl.
  set (w1 := World (files w) ({[BLOG_OUTPUT_DIR]} ∪ ({[BLOG_SRC_DIR]} ∪ dirs w))
               (trace w ++ startup_events)).
  destruct (process_all_spec markdown_to_html now template (files w) done [] w1)
    as (w2 & Hrun & Hf & Ht); [done.. |].
  exists w2. split; [done |]. split.
  { rewrite Ht. cbn [w1 trace]. by rewrite <- app_assoc. }
  intros e w3 Hbad.
  assert (Hmain : main markdown_to_html now (done ++ bad :: rest) w
                  = bind (process_all markdown_to_html now (done ++ bad :: rest) [])
                      (fun posts =>
                         bind (print (PyStr.nl +:+ "Updating blog listing page..."))
                           (fun _ => bind (update_blog_listing posts)
                             (fun _ => bind (print ("  Updated: " +:+ BLOG_LISTING_FILE))
                               (fun _ => print (PyStr.nl +:+ check_mark
                                   +:+ " Build complete! Generated "
                                   +:+ PyStr.decimal (N.of_nat (length posts))
                                   +:+ " blog post(s).")))))
                      w1).
  { destruct (done ++ bad :: rest) as [|f fs] eqn:Hl.
    - by destruct done.
    - by apply main_startup. }
  rewrite Hmain. unfold bind at 1. rewrite process_all_app.
  unfold bind at 1. rewrite Hrun. cbn [app process_all].
  unfold bind at 1. fold (records_of now (files w) done). by rewrite Hbad.
Qed.

(** The turn of a file whose source cannot be read. *)
Lemma process_unreadable md_file posts w :
  files w !! src_path md_file = None ->
  process markdown_to_html now md_file posts w
  = (inl (FileNotFoundError (src_path md_file)),
     log (EvPrint ("Processing " +:+ md_file +:+ "...")) w).
Proof.
  intros Hsrc. unfold process, bind, print, read_file. cbn [files log].
  fold (src_path md_file). by rewrite Hsrc.
Qed.

(** The turn of a file whose directory cannot be made. *)
Lemma process_collision md_file content template posts w :
  files w !! src_path md_file = Some content ->
  files w !! TEMPLATE_FILE = Some template ->
  is_Some (files w !! post_dir (stem md_file)) ->
  process markdown_to_html now md_file posts w
  = (inl (FileExistsError (post_dir (stem md_file))),
     World (files w) (dirs w)
       (trace w ++ [ EvPrint ("Processing " +:+ md_file +:+ "...");
                     EvRead (src_path md_file); EvRead TEMPLATE_FILE ])).
Proof.
  intros Hsrc Htpl [x Hdir]. unfold process, bind, print, read_file.
  cbn [files log]. fold (src_path md_file). rewrite Hsrc.
  rewrite generate_blog_post_read. cbn [files log]. rewrite Htpl.
  unfold mkdir. cbn [files log]. fold (post_dir (stem md_file)).
  rewrite Hdir. unfold log. cbn [files dirs trace].
  by rewrite <- !app_assoc.
Qed.
End LoopFails.

(** X12. A source file that cannot be read ends the run at once with
    FileNotFoundError for that file: the files before it have their
    pages, the only thing done for the file itself is its progress line,
    the files behind it are not looked at, and the listing is neither
    read nor written. *)
Theorem unreadable_source_stops_the_run (markdown_to_html : string -> string)
    (now : DateTime.date) (done : list string) (bad : string)
    (rest : list string) (template : string) (w : IO.world) :
  dirs_ok (IO.files w) ->
  sources_ok (IO.files w) done ->
  IO.files w !! TEMPLATE_FILE = Some template ->
  IO.files w !! src_path bad = None ->
  exists w',
    main markdown_to_html now (done ++ bad :: rest) w
    = (inl (IO.FileNotFoundError (src_path bad)), w')
    /\ IO.files w'
       = write_pages markdown_to_html now template (IO.files w) done (IO.files w)
    /\ IO.files w' !! BLOG_LISTING_FILE = IO.files w !! BLOG_LISTING_FILE
    /\ IO.trace w'
       = IO.trace w ++ startup_events ++ concat (map process_events done)
         ++ [ IO.EvPrint ("Processing " +:+ bad +:+ "...") ].
Proof.
  intros Hdirs Hok Htpl Hsrc.
  destruct (loop_prefix markdown_to_html now done bad rest template w)
    as (w2 & Hf & Ht & Hrun); [done.. |].
  eexists. split.
  - apply Hrun, process_unreadable. rewrite Hf, write_pages_other; [done |].
    intros name Hin Heq. symmetry in Heq. revert Heq.
    apply page_path_not_source, name_ok_stem, Hok, Hin.
  - cbn [IO.files IO.log IO.trace]. split; [done |]. split.
    + rewrite Hf. apply write_pages_other.
      intros name Hin Heq. symmetry in Heq. revert Heq.
      apply page_path_not_listing, name_ok_stem, Hok, Hin.
    + rewrite Ht. by rewrite <- !app_assoc.
Qed.

Lemma unreadable_source_stops_the_run_witness :
  exists w',
    main (fun s => s) (DateTime.Date 2024 1 1)
      (["hello.md"] ++ "gone.md" :: ["later.md"]) sample_site
    = (inl (IO.FileNotFoundError (src_path "gone.md")), w')
    /\ IO.files w' !! "blog/hello/index.html" = Some "<h1>Hello</h1>Text"
    /\ IO.files w' !! BLOG_LISTING_FILE
       = Some ("<body>" +:+ blog_list_open +:+ "</div></body>").
Proof.
  destruct (unreadable_source_stops_the_run (fun s => s) (DateTime.Date 2024 1 1)
              ["hello.md"] "gone.md" ["later.md"]
              "<h1>{{TITLE}}</h1>{{CONTENT}}" sample_site)
    as (w' & Hrun & Hf & Hl & _).
  - split; reflexivity.
  - apply sample_sources_ok; reflexivity.
  - reflexivity.
  - reflexivity.
  - exists w'. split; [exact Hrun |]. split.
    + rewrite Hf. by vm_compute.
    + rewrite Hl. reflexivity.
Defined.

(** X13. Making a directory fails where a regular file has the name,
    and the run ends with FileExistsError: at the start for the source
    directory, before anything is done, and for the output directory; in
    the loop for the directory of a post, after the source and the
    template have been read and before the page is written, the posts
    before it keeping their pages.  A source file index.html.md is such a
    case whenever the listing exists, its directory being the listing. *)
Theorem directory_collisions_stop_the_run (markdown_to_html : string -> string)
    (now : DateTime.date) :
  (forall (md_files : list string) (w : IO.world),
      is_Some (IO.files w !! BLOG_SRC_DIR) ->
      main markdown_to_html now md_files w
      = (inl (IO.FileExistsError BLOG_SRC_DIR), w))
  /\ (forall (md_files : list string) (w : IO.world),
        IO.files w !! BLOG_SRC_DIR = None ->
        is_Some (IO.files w !! BLOG_OUTPUT_DIR) ->
        exists w',
          main markdown_to_html now md_files w
          = (inl (IO.FileExistsError BLOG_OUTPUT_DIR), w')
          /\ IO.files w' = IO.files w
          /\ IO.trace w' = IO.trace w ++ [ IO.EvMkdir BLOG_SRC_DIR ])
  /\ (forall (done : list string) (bad : string) (rest : list string)
             (template content : string) (w : IO.world),
        dirs_ok (IO.files w) ->
        sources_ok (IO.files w) done ->
        IO.files w !! TEMPLATE_FILE = Some template ->
        IO.files w !! src_path bad = Some content ->
        is_Some (IO.files w !! post_dir (stem bad)) ->
        exists w',
          main markdown_to_html now (done ++ bad :: rest) w
          = (inl (IO.FileExistsError (post_dir (stem bad))), w')
          /\ IO.files w'
             = write_pages markdown_to_html now template (IO.files w) done
                 (IO.files w)
          /\ IO.trace w'
             = IO.trace w ++ startup_events ++ concat (map process_events done)
               ++ [ IO.EvPrint ("Processing " +:+ bad +:+ "...");
                    IO.EvRead (src_path bad); IO.EvRead TEMPLATE_FILE ])
  /\ (forall (rest : list string) (template listing content : string)
             (w : IO.world),
        dirs_ok (IO.files w) ->
        IO.files w !! TEMPLATE_FILE = Some template ->
        IO.files w !! BLOG_LISTING_FILE = Some listing ->
        IO.files w !! src_path "index.html.md" = Some content ->
        exists w',
          main markdown_to_html now ("index.html.md" :: rest) w
          = (inl (IO.FileExistsError BLOG_LISTING_FILE), w')
          /\ IO.files w' = IO.files w).
Proof.
  assert (Hloop : forall (done : list string) (bad : string) (rest : list string)
             (template content : string) (w : IO.world),
        dirs_ok (IO.files w) ->
        sources_ok (IO.files w) done ->
        IO.files w !! TEMPLATE_FILE = Some template ->
        IO.files w !! src_path bad = Some content ->
        is_Some (IO.files w !! post_dir (stem bad)) ->
        exists w',
          main markdown_to_html now (done ++ bad :: rest) w
          = (inl (IO.FileExistsError (post_dir (stem bad))), w')
          /\ IO.files w'
             = write_pages markdown_to_html now template (IO.files w) done
                 (IO.files w)
          /\ IO.trace w'
             = IO.trace w ++ startup_events ++ concat (map process_events done)
               ++ [ IO.EvPrint ("Processing " +:+ bad +:+ "...");
                    IO.EvRead (src_path bad); IO.EvRead TEMPLATE_FILE ]).
  { intros done bad rest template content w Hdirs Hok Htpl Hsrc Hdir.
    destruct (loop_prefix markdown_to_html now done bad rest template w)
      as (w2 & Hf & Ht & Hrun); [done.. |].
    eexists. split.
    - apply Hrun. apply (process_collision _ _ _ content template).
      + rewrite Hf, write_pages_other; [done |].
        intros name Hin Heq. symmetry in Heq. revert Heq.
        apply page_path_not_source, name_ok_stem, Hok, Hin.
      + rewrite Hf, write_pages_other; [done |].
        intros name Hin Heq. symmetry in Heq. revert Heq.
        apply page_path_not_template, name_ok_stem, Hok, Hin.
      + rewrite Hf. by apply write_pages_keeps.
    - cbn [IO.files IO.trace]. split; [done |].
      rewrite Ht. by rewrite <- !app_assoc. }
  split; [|split; [|split; [exact Hloop |]]].
  - intros md_files w [x Hx]. unfold main, IO.bind, IO.mkdir. by rewrite Hx.
  - intros md_files w Hsrc [x Hx]. unfold main. unfold IO.bind at 1, IO.mkdir at 1.
    rewrite Hsrc. unfold IO.bind at 1, IO.mkdir at 1. cbn [IO.files].
    rewrite Hx. eexists. split; [reflexivity |]. done.
  - intros rest template listing content w Hdirs Htpl Hlist Hsrc.
    destruct (Hloop [] "index.html.md" rest template content w)
      as (w' & Hrun & Hf & _); [done | by intros ? [] | done | done | |].
    + replace (post_dir (stem "index.html.md")) with BLOG_LISTING_FILE
        by (by vm_compute).
      by rewrite Hlist.
    + exists w'. split; [|done].
      replace BLOG_LISTING_FILE with (post_dir (stem "index.html.md"))
        by (by vm_compute).
      exact Hrun.
Qed.

Lemma directory_collisions_stop_the_run_witness :
  exists w',
    main (fun s => s) (DateTime.Date 2024 1 1) ["index.html.md"] index_post_site
    = (inl (IO.FileExistsError BLOG_LISTING_FILE), w')
    /\ IO.files w' = IO.files index_post_site.
Proof.
  exact (proj2 (proj2 (proj2
           (directory_collisions_stop_the_run (fun s => s) (DateTime.Date 2024 1 1))))
           [] "<h1>{{TITLE}}</h1>{{CONTENT}}"
           ("<body>" +:+ blog_list_open +:+ "</div></body>") sample_source
           index_post_site (conj eq_refl eq_refl) eq_refl eq_refl eq_refl).
Defined.

(** ** What the metadata look like *)

Section Metadata.
Import PyStr Re ReSpec.

Lemma contains_char_app c a b :
  contains (String c "") (a +:+ b)
  = contains (String c "") a || contains (String c "") b.
Proof.
  induction a as [|x a IH]; [by destruct b |].
  change (String x a +:+ b) with (String x (a +:+ b)).
  cbn [contains startswith]. rewrite IH.
  by destruct (Ascii.eqb c x).
Qed.

Lemma split_no_sep sep s :
  forall line, In line (split sep s) -> contains (String sep "") line = false.
Proof.
  induction s as [|c s IH]; intros line; cbn [split].
  - by intros [<- | []].
  - destruct (Ascii.eqb c sep) eqn:Hc.
    + intros [<- | Hin]; [done | by apply IH].
    + destruct (split sep s) as [|h t] eqn:Hs.
      * intros [<- | []]. cbn. rewrite Ascii.eqb_sym, Hc. done.
      * intros [<- | Hin]; [|apply IH; by right].
        cbn [contains startswith]. rewrite Ascii.eqb_sym, Hc. cbn [andb orb].
        apply IH. by left.
Qed.

Lemma split_once_spec sep line key value :
  split_once sep line = Some (key, value) ->
  line = key +:+ String sep value /\ contains (String sep "") key = false.
Proof.
  revert key; induction line as [|c line IH]; intros key; cbn [split_once];
    [done |].
  destruct (Ascii.eqb c sep) eqn:Hc.
  - intros [= <- <-]. apply Ascii.eqb_eq in Hc. by subst c.
  - destruct (split_once sep line) as [[k v]|]; [|done].
    intros [= <- <-]. destruct (IH k eq_refl) as [-> Hk]. split; [done |].
    cbn [contains startswith]. by rewrite Ascii.eqb_sym, Hc, Hk.
Qed.

(** What is left of a text after stripping holds no character the
    text did not hold. *)
Lemma stripped_no_char p c s t :
  stripped p s t -> contains (String c "") s = false ->
  contains (String c "") t = false.
Proof.
  intros (a & b & -> & _) H. rewrite !contains_char_app in H.
  apply orb_false_elim in H as [_ H]. by apply orb_false_elim in H as [H _].
Qed.

Lemma parse_line_clean (metadata : metadata_t) line :
  contains nl line = false ->
  (forall k v, metadata !! k = Some v -> clean_key k /\ clean_value v) ->
  forall k v, parse_line metadata line !! k = Some v ->
              clean_key k /\ clean_value v.
Proof.
  intros Hline Hm k v. unfold parse_line.
  destruct (split_once ":"%char line) as [[key value]|] eqn:Hs; [|apply Hm].
  apply split_once_spec in Hs as [-> Hkey].
  change (contains nl (key +:+ String ":" value))
    with (contains (String LF "") (key +:+ String ":" value)) in Hline.
  rewrite contains_char_app in Hline.
  apply orb_false_elim in Hline as [Hk Hv].
  assert (Hv' : contains (String LF "") value = false).
  { cbn [contains startswith] in Hv. by apply orb_false_elim in Hv as [_ Hv]. }
  destruct (decide (k = strip key)) as [-> | Hne].
  - rewrite lookup_insert_eq. intros [= <-].
    pose proof (strip_by_stripped isspace key) as Hsk.
    pose proof (strip_by_stripped isspace value) as H1.
    pose proof (strip_by_stripped (Ascii.eqb DQ) (strip value)) as H2.
    pose proof (strip_by_stripped (Ascii.eqb SQ)
                  (strip_char DQ (strip value))) as H3.
    split.
    + split; [by eapply stripped_no_char |].
      split; [by eapply stripped_no_char |].
      by destruct Hsk as (a & b & _ & _ & _ & ? & ?).
    + split.
      * eapply stripped_no_char; [exact H3 |].
        eapply stripped_no_char; [exact H2 |].
        by eapply stripped_no_char.
      * by destruct H3 as (a & b & _ & _ & _ & ? & ?).
  - rewrite lookup_insert_ne by done. apply Hm.
Qed.

Lemma fold_parse_line_clean lines : forall metadata : metadata_t,
  (forall line, In line lines -> contains nl line = false) ->
  (forall k v, metadata !! k = Some v -> clean_key k /\ clean_value v) ->
  forall k v, fold_left parse_line lines metadata !! k = Some v ->
              clean_key k /\ clean_value v.
Proof.
  induction lines as [|line lines IH]; intros metadata Hl Hm; [done |].
  cbn [fold_left]. apply IH.
  - intros l Hin. apply Hl. by right.
  - apply parse_line_clean; [|done]. apply Hl. by left.
Qed.

(** The part of a pattern behind a list of its pieces. *)
Lemma run_cat_sound {T} l tail : forall s caps
    (k : string -> captures -> option T) x,
  run (cat (l ++ tail)) s caps k = Some x ->
  exists w s1 caps1, s = w +:+ s1 /\ run (cat tail) s1 caps1 k = Some x.
Proof.
  induction l as [|r l IH]; intros s caps k x H.
  - by exists EmptyString, s, caps.
  - change (cat ((r :: l) ++ tail)) with (Seq r (cat (l ++ tail))) in H.
    rewrite run_seq in H.
    apply run_sound in H as (w1 & s1 & caps1 & -> & _ & H).
    apply IH in H as (w2 & s2 & caps2 & -> & H).
    exists (w1 +:+ w2), s2, caps2. by rewrite append_assoc.
Qed.

(** The second group of the frontmatter pattern takes the whole rest
    of the text. *)
Lemma frontmatter_body content m :
  re_match frontmatter_pattern content = Some m ->
  exists prefix body,
    content = prefix +:+ body /\ group m 2 = Some body /\ rest m = EmptyString.
Proof.
  unfold re_match.
  change frontmatter_pattern
    with (cat ([ lit "---"; Star isspace; Chr LF; Group 1 (StarLazy any);
                 Chr LF; lit "---"; Star isspace; Chr LF ]
               ++ [ Group 2 (Star any); Eol ])).
  intros H. apply run_cat_sound in H as (w & s1 & caps1 & Hs & H).
  exists w, s1. split; [done |].
  unfold cat in H. cbn [foldr run] in H.
  erewrite star_greedy_all in H; [|reflexivity].
  injection H as <-. cbn [group caps rest capture Nat.eqb].
  split; [|done]. f_equal. cbn [String.length]. rewrite Nat.sub_0_r.
  rewrite <- (append_nil_r s1) at 2. by rewrite take_append.
Qed.
End Metadata.

(** X14. Whatever the document, every key of the metadata the parser
    returns is free of colons and line ends and has no white space at
    its ends, every value is free of line ends and has no single quote at
    its ends, and the body it returns is the end of the document: the
    text behind the block comes back as it is, to the last character. *)
Theorem parse_frontmatter_invariants (content : string) :
  (forall k v : string,
      fst (parse_frontmatter content) !! k = Some v ->
      clean_key k /\ clean_value v)
  /\ (exists prefix : string,
        content = prefix +:+ snd (parse_frontmatter content)).
Proof.
  unfold parse_frontmatter.
  destruct (Re.re_match frontmatter_pattern content) as [m|] eqn:Hm;
    cbn [fst snd].
  - split.
    + apply fold_parse_line_clean; [apply split_no_sep | done].
    + destruct (frontmatter_body content m Hm) as (prefix & body & -> & -> & _).
      by exists prefix.
  - split; [done |]. by exists EmptyString.
Qed.

Lemma parse_frontmatter_invariants_witness :
  clean_key "title" /\ clean_value "Hello".
Proof.
  exact (proj1 (parse_frontmatter_invariants sample_source) "title" "Hello"
           eq_refl).
Defined.

(** ** Documents without a block *)

Section NoBlock.
Import PyStr Re ReSpec.

Lemma contains_here p s : startswith p s = true -> contains p s = true.
Proof. intros H. destruct s; cbn [contains]; by rewrite H. Qed.

Lemma contains_middle p a b : contains p (a +:+ p +:+ b) = true.
Proof. apply contains_append, contains_here, startswith_append. Qed.

(** A text the frontmatter pattern matches starts with three hyphens
    and has a later line that starts with three hyphens. *)
Lemma frontmatter_match_shape content m :
  re_match frontmatter_pattern content = Some m ->
  startswith "---" content = true
  /\ contains closing_line (drop 3 content) = true.
Proof.
  intros [Hc Hm]%re_match_sound.
  apply frontmatter_pattern_block in Hm
    as (ws1 & text & ws2 & body & Heq & _).
  rewrite Hc, Heq. split; [done |].
  change (drop 3 ("---" +:+ ws1 +:+ nl +:+ text +:+ nl +:+ "---" +:+ ws2
                  +:+ nl +:+ body))
    with (ws1 +:+ nl +:+ text +:+ closing_line +:+ ws2 +:+ nl +:+ body).
  replace (ws1 +:+ nl +:+ text +:+ closing_line +:+ ws2 +:+ nl +:+ body)
    with ((ws1 +:+ nl +:+ text) +:+ closing_line +:+ ws2 +:+ nl +:+ body)
    by (by rewrite !append_assoc).
  apply contains_middle.
Qed.
End NoBlock.

(** X15. A document that does not start with three hyphens, and a
    document that does but has no later line starting with three hyphens
    (a block that is never closed), has no metadata and is its own body,
    the empty document among them.  Metadata are found only in a
    document that starts with three hyphens and closes the block. *)
Theorem unopened_or_unclosed_block (content : string) :
  (PyStr.startswith "---" content = false ->
   parse_frontmatter content = (∅, content))
  /\ (PyStr.contains closing_line (PyStr.drop 3 content) = false ->
      parse_frontmatter content = (∅, content))
  /\ (fst (parse_frontmatter content) <> ∅ ->
      PyStr.startswith "---" content = true
      /\ PyStr.contains closing_line (PyStr.drop 3 content) = true).
Proof.
  unfold parse_frontmatter.
  destruct (Re.re_match frontmatter_pattern content) as [m|] eqn:Hm.
  - destruct (frontmatter_match_shape content m Hm) as [Hs Hc].
    split; [by rewrite Hs |]. split; [by rewrite Hc | done].
  - split; [done |]. split; [done |]. cbn [fst]. by intros [].
Qed.

Lemma unopened_or_unclosed_block_witness :
  parse_frontmatter "# Title" = (∅, "# Title")
  /\ parse_frontmatter ("---" +:+ PyStr.nl +:+ "title: Hello" +:+ PyStr.nl
                        +:+ "Text")
     = (∅, "---" +:+ PyStr.nl +:+ "title: Hello" +:+ PyStr.nl +:+ "Text")
  /\ parse_frontmatter "" = (∅, "").
Proof.
  split; [|split].
  - exact (proj1 (unopened_or_unclosed_block "# Title") eq_refl).
  - exact (proj1 (proj2 (unopened_or_unclosed_block
             ("---" +:+ PyStr.nl +:+ "title: Hello" +:+ PyStr.nl +:+ "Text")))
             eq_refl).
  - exact (proj1 (unopened_or_unclosed_block "") eq_refl).
Defined.

(** ** The renderer *)

Section Renderer.
Import PyStr.

(** A text in which [old] does not occur is left as it is. *)
Lemma replace_absent old new s :
  old <> EmptyString -> contains old s = false -> replace old new s = s.
Proof.
  intros Hne. induction s as [|c s IH].
  - intros _. rewrite replace_empty. by destruct old.
  - cbn [contains]. intros [Hs Hc]%orb_false_elim.
    rewrite replace_miss by done. by rewrite IH.
Qed.

Lemma page_html_plain now (metadata : metadata_t) html_content slug template :
  no_placeholder template ->
  page_html now metadata html_content slug template = template.
Proof.
  intros (Ht & Hd & Hdate & Hs & Hc). unfold page_html.
  rewrite (replace_absent "{{TITLE}}" _ template) by done.
  rewrite (replace_absent "{{DESCRIPTION}}" _ template) by done.
  rewrite (replace_absent "{{DATE}}" _ template) by done.
  rewrite (replace_absent "{{SLUG}}" _ template) by done.
  by rewrite (replace_absent "{{CONTENT}}" _ template).
Qed.

Lemma page_html_keys now (m1 m2 : metadata_t) html_content slug template :
  m1 !! "title" = m2 !! "title" ->
  m1 !! "description" = m2 !! "description" ->
  m1 !! "date" = m2 !! "date" ->
  page_html now m1 html_content slug template
  = page_html now m2 html_content slug template.
Proof.
  intros Ht Hd Hdate. unfold page_html, post_title, post_date.
  by rewrite Ht, Hd, Hdate.
Qed.
End Renderer.

(** X16. The renderer fails only when the template cannot be read, with
    FileNotFoundError and nothing done; otherwise it returns the page
    after one read of the template and changes no file.  The page depends
    on the metadata through the keys title, description and date alone,
    and a template in which none of the five placeholders occurs comes
    back as it is, whatever else it holds. *)
Theorem generate_blog_post_outcomes (now : DateTime.date)
    (metadata : metadata_t) (html_content slug template_path : string)
    (w : IO.world) :
  (IO.files w !! template_path = None ->
   generate_blog_post now metadata html_content slug template_path w
   = (inl (IO.FileNotFoundError template_path), w))
  /\ (forall template : string,
        IO.files w !! template_path = Some template ->
        exists html : string,
          generate_blog_post now metadata html_content slug template_path w
          = (inr html, IO.log (IO.EvRead template_path) w)
          /\ (no_placeholder template -> html = template)
          /\ (forall metadata' : metadata_t,
                metadata' !! "title" = metadata !! "title" ->
                metadata' !! "description" = metadata !! "description" ->
                metadata' !! "date" = metadata !! "date" ->
                generate_blog_post now metadata' html_content slug
                  template_path w
                = (inr html, IO.log (IO.EvRead template_path) w))).
Proof.
  split.
  - intros H. by rewrite generate_blog_post_read, H.
  - intros template H.
    exists (page_html now metadata html_content slug template).
    split; [by rewrite generate_blog_post_read, H |]. split.
    + apply page_html_plain.
    + intros metadata' Ht Hd Hdate. rewrite generate_blog_post_read, H.
      by rewrite (page_html_keys now metadata' metadata).
Qed.

Lemma generate_blog_post_outcomes_witness :
  generate_blog_post (DateTime.Date 2024 1 1) {[ "title" := "Hello" ]}
    "<p>Hi</p>" "hello" TEMPLATE_FILE sample_site_no_template
  = (inl (IO.FileNotFoundError TEMPLATE_FILE), sample_site_no_template)
  /\ exists html : string,
      generate_blog_post (DateTime.Date 2024 1 1) {[ "title" := "Hello" ]}
        "<p>Hi</p>" "hello" TEMPLATE_FILE sample_site
      = (inr html, IO.log (IO.EvRead TEMPLATE_FILE) sample_site)
      /\ generate_blog_post (DateTime.Date 2024 1 1)
           (<[ "author" := "A" ]> {[ "title" := "Hello" ]})
           "<p>Hi</p>" "hello" TEMPLATE_FILE sample_site
         = (inr html, IO.log (IO.EvRead TEMPLATE_FILE) sample_site).
Proof.
  split.
  - exact (proj1 (generate_blog_post_outcomes (DateTime.Date 2024 1 1)
             {[ "title" := "Hello" ]} "<p>Hi</p>" "hello" TEMPLATE_FILE
             sample_site_no_template) eq_refl).
  - destruct (proj2 (generate_blog_post_outcomes (DateTime.Date 2024 1 1)
                {[ "title" := "Hello" ]} "<p>Hi</p>" "hello" TEMPLATE_FILE
                sample_site) "<h1>{{TITLE}}</h1>{{CONTENT}}" eq_refl)
      as (html & Hrun & _ & Hkeys).
    exists html. split; [exact Hrun |].
    apply Hkeys; reflexivity.
Defined.

(** ** The listing updated twice *)

Section FindFacts.
Import PyStr.

Lemma startswith_app p a b :
  startswith p a = true -> startswith p (a +:+ b) = true.
Proof.
  revert a; induction p as [|c p IH]; intros [|x a]; simpl; try done.
  intros [Hc Hp]%andb_prop. rewrite Hc. by apply IH.
Qed.

Lemma contains_app_l p a b :
  contains p a = true -> contains p (a +:+ b) = true.
Proof.
  induction a as [|x a IH].
  - cbn [contains]. rewrite orb_false_r. intros H.
    apply contains_here. by apply (startswith_app p EmptyString).
  - change (String x a +:+ b) with (String x (a +:+ b)). cbn [contains].
    intros [H | H]%orb_prop.
    + change (String x (a +:+ b)) with (String x a +:+ b).
      by rewrite startswith_app.
    + rewrite IH by done. apply orb_true_r.
Qed.

Lemma contains_concat p x l :
  In x l -> contains p x = true -> contains p (concat_str l) = true.
Proof.
  induction l as [|a l IH]; [done |]. cbn [concat_str foldr].
  intros [-> | Hin] Hx; [by apply contains_app_l |].
  apply contains_append. by apply IH.
Qed.

Lemma contains_find p s : contains p s = true -> exists j, find p s = Some j.
Proof.
  induction s as [|c s IH]; cbn [contains find].
  - rewrite orb_false_r. intros ->. by exists 0.
  - destruct (startswith p (String c s)); [by exists 0 |].
    cbn [orb]. intros H. destruct (IH H) as [j ->]. by exists (S j).
Qed.

Lemma find_app_l p a b j : find p a = Some j -> find p (a +:+ b) = Some j.
Proof.
  revert j; induction a as [|c a IH]; intros j.
  - cbn [find]. destruct (startswith p EmptyString) eqn:Hp; [|done].
    intros [= <-]. apply find_here. by apply (startswith_app p EmptyString).
  - intros Hj. pose proof (find_bound _ _ _ Hj) as Hb. revert Hj.
    change (String c a +:+ b) with (String c (a +:+ b)). cbn [find].
    destruct (startswith p (String c a)) eqn:Hp.
    + intros [= <-].
      change (String c (a +:+ b)) with (String c a +:+ b).
      by rewrite startswith_app.
    + destruct (find p a) as [i|] eqn:Hi; [|done]. intros [= <-].
      change (String c (a +:+ b)) with (String c a +:+ b).
      rewrite startswith_longer; [| done |].
      * change (String c a +:+ b) with (String c (a +:+ b)).
        by rewrite (IH i).
      * apply find_bound in Hi. cbn [String.length]. lia.
Qed.

Lemma find_prefix p a x :
  find p (a +:+ p +:+ x) = Some (String.length a) ->
  find p (a +:+ p) = Some (String.length a).
Proof.
  induction a as [|c a IH].
  - intros _. simpl. apply find_here. rewrite <- (append_nil_r p) at 2.
    apply startswith_append.
  - change (String c a +:+ p +:+ x) with (String c (a +:+ p +:+ x)).
    change (String c a +:+ p) with (String c (a +:+ p)).
    cbn [find String.length].
    destruct (startswith p (String c (a +:+ p +:+ x))) eqn:Hp; [done |].
    destruct (find p (a +:+ p +:+ x)) as [i|] eqn:Hi; [|done].
    intros [= ->]. rewrite (IH eq_refl).
    destruct (startswith p (String c (a +:+ p))) eqn:Hq; [|done].
    apply (startswith_app _ _ x) in Hq.
    change (String c (a +:+ p) +:+ x) with (String c ((a +:+ p) +:+ x)) in Hq.
    rewrite append_assoc in Hq. congruence.
Qed.

Lemma find_none_drop p s :
  find p s = None -> forall k, startswith p (drop k s) = false.
Proof.
  induction s as [|c s IH]; cbn [find].
  - destruct (startswith p EmptyString) eqn:Hp; [done |].
    intros _ k. by destruct k.
  - destruct (startswith p (String c s)) eqn:Hp; [done |].
    destruct (find p s) as [i|] eqn:Hi; [done |]. intros _ [|k]; [done |].
    by apply IH.
Qed.

Lemma startswith_app_char p a c z :
  startswith p (a +:+ String c z) = true ->
  startswith p a = true \/ contains (String c "") p = true.
Proof.
  revert a; induction p as [|x p IH]; intros a; [by left |].
  destruct a as [|y a].
  - cbn [String.append startswith]. intros [Hx _]%andb_prop.
    right. cbn [contains startswith]. rewrite (Ascii.eqb_sym c x), Hx.
    done.
  - change (String y a +:+ String c z) with (String y (a +:+ String c z)).
    cbn [startswith]. intros [Hx Hp]%andb_prop.
    destruct (IH a Hp) as [H | H].
    + left. by rewrite Hx, H.
    + right. cbn [contains]. rewrite H. apply orb_true_r.
Qed.

(** A text without [p] followed by a character that [p] does not hold:
    [p] occurs in the whole only where it occurs behind them. *)
Lemma find_none_app_char p a c z :
  contains (String c "") p = false ->
  find p a = None -> find p (String c z) = None ->
  find p (a +:+ String c z) = None.
Proof.
  intros Hc. induction a as [|y a IH]; [done |].
  intros Ha Hz.
  change (String y a +:+ String c z) with (String y (a +:+ String c z)).
  cbn [find] in Ha |- *.
  destruct (startswith p (String y a)) eqn:Hp; [done |].
  destruct (find p a) as [i|] eqn:Hi; [done |].
  rewrite (IH eq_refl Hz).
  destruct (startswith p (String y (a +:+ String c z))) eqn:Hq; [|done].
  change (String y (a +:+ String c z)) with (String y a +:+ String c z) in Hq.
  apply startswith_app_char in Hq as [Hq | Hq]; congruence.
Qed.

Lemma drop_app_le n a b :
  n <= String.length a -> drop n (a +:+ b) = drop n a +:+ b.
Proof.
  revert a; induction n as [|n IH]; intros a Hn; [by destruct a |].
  destruct a as [|c a]; [simpl in Hn; lia |].
  cbn [drop String.append]. apply IH. simpl in Hn. lia.
Qed.

Lemma drop_app_ge n a b :
  drop (String.length a + n) (a +:+ b) = drop n b.
Proof. by rewrite <- drop_drop, drop_append. Qed.
End FindFacts.

Section Twice.
Import PyStr Re.

(** A stretch of text in which no opening tag starts is passed over. *)
Lemma listing_shift f A Z :
  (forall k, k < String.length A ->
     startswith blog_list_open (drop k (A +:+ Z)) = false) ->
  sub_from blog_list_pattern f 0 (A +:+ Z)
  = A +:+ sub_from blog_list_pattern f 0 Z.
Proof.
  induction A as [|c A IH]; intros H; [done |].
  change (String c A +:+ Z) with (String c (A +:+ Z)).
  rewrite sub_from_miss.
  - rewrite IH; [done |]. intros k Hk. apply (H (S k)). simpl. lia.
  - rewrite re_match_blog_list.
    pose proof (H 0) as H0. cbn [drop] in H0.
    change (String c A +:+ Z) with (String c (A +:+ Z)) in H0.
    rewrite H0; [done | simpl; lia].
Qed.

(** The replacement text: the opening tag and [B], whose first closing
    tag is at [j1]; [Y] is what follows that tag. *)
Variables (B : string) (j1 : nat).
Hypothesis Hj : find blog_list_close B = Some j1.
Hypothesis Hseal : forall Z k,
  k < String.length (drop (j1 + 6) B) ->
  startswith blog_list_open (drop k (drop (j1 + 6) B +:+ Z)) = false.

Let r := blog_list_open +:+ B.
Let Y := drop (j1 + 6) B.

(** A region that is the replacement text itself is replaced again,
    and what follows its first closing tag stays behind. *)
Lemma region_again pre Z :
  find blog_list_open (pre +:+ blog_list_open) = Some (String.length pre) ->
  literal_listing r (pre +:+ r +:+ Z)
  = pre +:+ r +:+ Y +:+ literal_listing r Z.
Proof.
  intros Hpre. unfold r at 2. rewrite (append_assoc blog_list_open B Z).
  set (doc := pre +:+ blog_list_open +:+ B +:+ Z).
  assert (Hi : find blog_list_open doc = Some (String.length pre))
    by (by apply find_first_more).
  assert (Hd : drop (String.length pre + 20) doc = B +:+ Z).
  { unfold doc. rewrite <- drop_drop, drop_append.
    apply (drop_append blog_list_open). }
  assert (Hc : find blog_list_close (drop (String.length pre + 20) doc)
               = Some j1)
    by (rewrite Hd; by apply find_app_l).
  unfold literal_listing. rewrite (sub_from_region _ _ _ _ Hi Hc).
  unfold doc at 1. rewrite take_append. f_equal. f_equal.
  replace (String.length pre + 20 + j1 + 6)
    with (String.length pre + 20 + (j1 + 6)) by lia.
  rewrite <- drop_drop, Hd.
  rewrite drop_app_le.
  - apply listing_shift, Hseal.
  - apply find_bound in Hj. change (String.length blog_list_close) with 6 in Hj.
    lia.
Qed.

Lemma twice_region doc i j :
  find blog_list_open doc = Some i ->
  find blog_list_close (drop (i + 20) doc) = Some j ->
  literal_listing r (literal_listing r doc)
  = take i doc +:+ r +:+ Y
    +:+ literal_listing r (literal_listing r (drop (i + 20 + j + 6) doc)).
Proof.
  intros Hi Hc. unfold literal_listing at 2.
  rewrite (sub_from_region _ _ _ _ Hi Hc).
  fold (literal_listing r (drop (i + 20 + j + 6) doc)).
  assert (Hlen : String.length (take i doc) = i).
  { apply take_length. apply find_bound in Hi. lia. }
  rewrite region_again; [done |].
  apply (find_prefix _ _ (drop (i + 20) doc)). rewrite Hlen.
  rewrite <- (open_at _ _ Hi), take_drop. exact Hi.
Qed.

Lemma rest_shorter doc i j :
  find blog_list_open doc = Some i ->
  String.length (drop (i + 20 + j + 6) doc) < String.length doc.
Proof.
  intros Hi. apply find_bound in Hi.
  change (String.length blog_list_open) with 20 in Hi.
  rewrite length_drop. lia.
Qed.

(** A second pass never makes the listing shorter, ... *)
Lemma twice_length n : forall doc,
  String.length doc <= n ->
  String.length (literal_listing r doc)
  <= String.length (literal_listing r (literal_listing r doc)).
Proof.
  induction n as [|n IH]; intros doc Hn.
  - destruct doc; [by vm_compute | simpl in Hn; lia].
  - destruct (find blog_list_open doc) as [i|] eqn:Hi.
    2:{ by rewrite !(literal_listing_no_open _ _ Hi). }
    destruct (find blog_list_close (drop (i + 20) doc)) as [j|] eqn:Hc.
    2:{ by rewrite !(literal_listing_no_close _ _ _ Hi Hc). }
    rewrite (twice_region _ _ _ Hi Hc). unfold literal_listing at 1.
    rewrite (sub_from_region _ _ _ _ Hi Hc).
    fold (literal_listing r (drop (i + 20 + j + 6) doc)).
    rewrite !length_append.
    pose proof (IH (drop (i + 20 + j + 6) doc)) as Hrest.
    pose proof (rest_shorter doc i j Hi). lia.
Qed.

(** ... and where there was a region it makes it longer by [Y]. *)
Lemma twice_grows doc i j :
  find blog_list_open doc = Some i ->
  find blog_list_close (drop (i + 20) doc) = Some j ->
  String.length (literal_listing r doc) + String.length Y
  <= String.length (literal_listing r (literal_listing r doc)).
Proof.
  intros Hi Hc. rewrite (twice_region _ _ _ Hi Hc).
  unfold literal_listing at 1. rewrite (sub_from_region _ _ _ _ Hi Hc).
  fold (literal_listing r (drop (i + 20 + j + 6) doc)).
  rewrite !length_append.
  pose proof (twice_length _ (drop (i + 20 + j + 6) doc) (le_n _)). lia.
Qed.

(** When nothing follows the first closing tag of the replacement, a
    second pass changes nothing. *)
Lemma twice_same n : Y = EmptyString -> forall doc,
  String.length doc <= n ->
  literal_listing r (literal_listing r doc) = literal_listing r doc.
Proof.
  intros HY. induction n as [|n IH]; intros doc Hn.
  - destruct doc; [by vm_compute | simpl in Hn; lia].
  - destruct (find blog_list_open doc) as [i|] eqn:Hi.
    2:{ by rewrite !(literal_listing_no_open _ _ Hi). }
    destruct (find blog_list_close (drop (i + 20) doc)) as [j|] eqn:Hc.
    2:{ by rewrite !(literal_listing_no_close _ _ _ Hi Hc). }
    rewrite (twice_region _ _ _ Hi Hc), HY. unfold literal_listing at 3.
    rewrite (sub_from_region _ _ _ _ Hi Hc).
    fold (literal_listing r (drop (i + 20 + j + 6) doc)).
    rewrite IH; [done |].
    pose proof (rest_shorter doc i j Hi). lia.
Qed.
End Twice.

(** ** The listing of a second run *)

Section PostsTwice.
Import PyStr Re.

Lemma region_of_shape posts :
  region_of posts = blog_list_open +:+ blog_list_html posts +:+ region_tail.
Proof.
  unfold region_of, blog_list_region. cbn [concat_str foldr].
  by rewrite append_nil_r.
Qed.

Lemma list_item_close p : contains blog_list_close (list_item p) = true.
Proof.
  unfold list_item. apply (contains_concat _ "            </div>").
  - cbn. tauto.
  - by vm_compute.
Qed.

Lemma sorted_reverse_nonempty {A} (key : A -> string) l :
  l <> [] -> exists x xs, sorted_reverse key l = x :: xs.
Proof.
  intros Hne. destruct (sorted_reverse key l) as [|x xs] eqn:Hs; [|eauto].
  pose proof (sorted_reverse_perm key l) as Hp. rewrite Hs in Hp.
  apply Permutation_nil in Hp. by subst.
Qed.

(** With a post in the list, the fragments hold a closing tag. *)
Lemma items_close posts :
  posts <> [] -> exists j1, find blog_list_close (blog_list_html posts) = Some j1.
Proof.
  intros Hne. apply contains_find.
  destruct posts as [|p ps]; [done |]. unfold blog_list_html.
  destruct (sorted_reverse_nonempty Post.date (p :: ps) Hne) as (x & xs & ->).
  cbn [map concat_str foldr]. apply contains_app_l, list_item_close.
Qed.

(** No opening tag starts in what follows the first closing tag of
    the fragments, up to the end of the replacement text, whatever
    comes behind. *)
Lemma items_sealed items j1 :
  find blog_list_open items = None ->
  j1 + 6 <= String.length items ->
  forall Z k,
    k < String.length (drop (j1 + 6) (items +:+ region_tail)) ->
    startswith blog_list_open
      (drop k (drop (j1 + 6) (items +:+ region_tail) +:+ Z)) = false.
Proof.
  intros Hno Hj Z k. rewrite drop_app_le by done.
  set (Y1 := drop (j1 + 6) items).
  assert (HY1 : find blog_list_open Y1 = None).
  { apply (find_none_suffix _ (take (j1 + 6) items)).
    by rewrite take_drop. }
  rewrite length_append, append_assoc.
  change (region_tail +:+ Z)
    with (String LF ("          </div>" +:+ Z)).
  change (String.length region_tail) with 17. intros Hk.
  destruct (Nat.le_gt_cases k (String.length Y1)) as [Hle | Hgt].
  - rewrite drop_app_le by done.
    destruct (startswith blog_list_open
                (drop k Y1 +:+ String LF ("          </div>" +:+ Z)))
      eqn:Hs; [|done].
    apply startswith_app_char in Hs as [Hs | Hs].
    + by rewrite (find_none_drop _ _ HY1 k) in Hs.
    + by vm_compute in Hs.
  - replace k with (String.length Y1 + (k - String.length Y1)) by lia.
    rewrite drop_app_ge.
    assert (Hk' : k - String.length Y1 < 17) by lia.
    revert Hk'. generalize (k - String.length Y1). intros k' Hk'.
    do 17 (destruct k' as [|k']; [reflexivity |]). lia.
Qed.

(** With a post in the list, a listing with a region grows when it is
    updated a second time. *)
Lemma posts_twice_grows posts doc i j :
  posts <> [] ->
  find blog_list_open (blog_list_html posts) = None ->
  find blog_list_open doc = Some i ->
  find blog_list_close (drop (i + 20) doc) = Some j ->
  String.length (listing_once posts doc) + 17
  <= String.length (listing_twice posts doc).
Proof.
  intros Hne Hno Hi Hc. destruct (items_close posts Hne) as [j1 Hj1].
  unfold listing_twice, listing_once. rewrite region_of_shape.
  pose proof (find_bound _ _ _ Hj1) as Hb.
  change (String.length blog_list_close) with 6 in Hb.
  pose proof (twice_grows (blog_list_html posts +:+ region_tail) j1
                (find_app_l _ _ _ _ Hj1)
                (items_sealed _ _ Hno Hb) doc i j Hi Hc) as Hg.
  rewrite drop_app_le, length_append in Hg by done.
  change (String.length region_tail) with 17 in Hg. lia.
Qed.

(** Without posts a second update changes nothing. *)
Lemma empty_twice_same doc : listing_twice [] doc = listing_once [] doc.
Proof.
  unfold listing_twice, listing_once. rewrite region_of_shape.
  apply (twice_same (blog_list_html [] +:+ region_tail) 53)
    with (n := String.length doc); [by vm_compute | | by vm_compute | done].
  intros Z k Hk. by vm_compute in Hk; lia.
Qed.
End PostsTwice.

(** X17. Run twice with the same posts on a listing, the updater first
    replaces the regions and then replaces them again.  With a post in
    the list whose fragments do not hold the opening tag, a listing with
    a region comes out of the second update longer than out of the first,
    by the line end, the indentation and the closing tag of the first
    replacement at the least: the closing tag inside the fragment ends
    the match, and the rest of the old region stays.  Without posts, or
    on a listing without an opening tag, the second update changes
    nothing. *)
Theorem listing_update_twice :
  (forall (posts : list post) (doc : string) (w : IO.world),
      PyStr.contains bs (region_of posts) = false ->
      IO.files w !! BLOG_LISTING_FILE = Some doc ->
      exists w1 w2 : IO.world,
        update_blog_listing posts w = (inr tt, w1)
        /\ update_blog_listing posts w1 = (inr tt, w2)
        /\ IO.files w1 !! BLOG_LISTING_FILE = Some (listing_once posts doc)
        /\ IO.files w2 !! BLOG_LISTING_FILE = Some (listing_twice posts doc))
  /\ (forall (posts : list post) (doc : string) (i j : nat),
        posts <> [] ->
        PyStr.find blog_list_open (blog_list_html posts) = None ->
        PyStr.find blog_list_open doc = Some i ->
        PyStr.find blog_list_close (PyStr.drop (i + 20) doc) = Some j ->
        String.length (listing_once posts doc) + 17
        <= String.length (listing_twice posts doc)
        /\ listing_twice posts doc <> listing_once posts doc)
  /\ (forall doc : string, listing_twice [] doc = listing_once [] doc)
  /\ (forall (posts : list post) (doc : string),
        PyStr.find blog_list_open doc = None -> listing_twice posts doc = doc).
Proof.
  split; [|split; [|split]].
  - intros posts doc w Hbs Hdoc.
    assert (Hsub : forall d, Re.sub blog_list_pattern (region_of posts) d
                             = inr (literal_listing (region_of posts) d)).
    { intros d. unfold Re.sub. unfold bs in Hbs. by rewrite Hbs. }
    eexists _, _. split.
    { rewrite (update_blog_listing_run _ _ _ Hdoc), Hsub. reflexivity. }
    split.
    { rewrite (update_blog_listing_run _ (listing_once posts doc)), Hsub;
        [reflexivity |].
      cbn [IO.files]. apply lookup_insert_eq. }
    cbn [IO.files]. split; [apply lookup_insert_eq |].
    rewrite insert_insert_eq. apply lookup_insert_eq.
  - intros posts doc i j Hne Hno Hi Hc.
    pose proof (posts_twice_grows posts doc i j Hne Hno Hi Hc) as Hg.
    split; [done |]. intros Heq. rewrite Heq in Hg. lia.
  - apply empty_twice_same.
  - intros posts doc Hno. unfold listing_twice, listing_once.
    by rewrite !(literal_listing_no_open _ _ Hno).
Qed.

Lemma listing_update_twice_witness :
  String.length (listing_once [plain_post] listing_one_region) + 17
  <= String.length (listing_twice [plain_post] listing_one_region)
  /\ listing_twice [plain_post] listing_one_region
     <> listing_once [plain_post] listing_one_region
  /\ exists w1 w2 : IO.world,
      update_blog_listing [plain_post]
        (world_of {[ BLOG_LISTING_FILE := listing_one_region ]}) = (inr tt, w1)
      /\ update_blog_listing [plain_post] w1 = (inr tt, w2)
      /\ IO.files w1 !! BLOG_LISTING_FILE
         = Some (listing_once [plain_post] listing_one_region)
      /\ IO.files w2 !! BLOG_LISTING_FILE
         = Some (listing_twice [plain_post] listing_one_region).
Proof.
  destruct listing_update_twice as (Hrun & Hgrow & _).
  destruct (Hgrow [plain_post] listing_one_region 6 3) as [Hlen Hne];
    [discriminate | reflexivity | reflexivity | reflexivity |].
  split; [exact Hlen |]. split; [exact Hne |].
  exact (Hrun [plain_post] listing_one_region
           (world_of {[ BLOG_LISTING_FILE := listing_one_region ]})
           eq_refl eq_refl).
Defined.

(** ** The listing after two runs *)

Section RunsTwice.
Variable markdown_to_html : string -> string.

(** Two runs, the second over what the first left. *)
Lemma two_runs now1 now2 md_files template listing w :
  md_files <> [] ->
  dirs_ok (IO.files w) ->
  sources_ok (IO.files w) md_files ->
  IO.files w !! TEMPLATE_FILE = Some template ->
  IO.files w !! BLOG_LISTING_FILE = Some listing ->
  dated (IO.files w) md_files ->
  PyStr.contains bs (region_of (records_of now1 (IO.files w) md_files)) = false ->
  exists w1 w2 : IO.world,
    main markdown_to_html now1 md_files w = (inr tt, w1)
    /\ main markdown_to_html now2 md_files w1 = (inr tt, w2)
    /\ IO.files w1 !! BLOG_LISTING_FILE
       = Some (listing_once (records_of now1 (IO.files w) md_files) listing)
    /\ IO.files w2 !! BLOG_LISTING_FILE
       = Some (listing_twice (records_of now1 (IO.files w) md_files) listing).
Proof.
  intros Hne Hdirs Hok Htpl Hlist Hdated Hbs.
  destruct (main_run markdown_to_html now1 md_files template listing w)
    as (w1 & Hrun1 & Hf1 & _); [done.. |].
  set (posts := records_of now1 (IO.files w) md_files) in *.
  assert (Hrec : records_of now2 (IO.files w1) md_files = posts).
  { unfold posts, records_of. apply map_ext_in. intros name Hin.
    rewrite Hf1, (built_sources markdown_to_html now1 template listing
                    md_files (IO.files w) Hok).
    by apply record_of_explicit, Hdated. }
  destruct (main_run markdown_to_html now2 md_files template
              (listing_once posts listing) w1)
    as (w2 & Hrun2 & Hf2 & _); try done.
  - rewrite Hf1. by apply built_dirs_ok.
  - rewrite Hf1. by eapply built_sources_ok.
  - rewrite Hf1. by apply built_template.
  - rewrite Hf1. by apply built_listing.
  - by rewrite Hrec.
  - exists w1, w2. split; [done |]. split; [done |]. split.
    + rewrite Hf1. by apply built_listing.
    + rewrite Hf2. unfold built. rewrite lookup_insert_eq. by rewrite Hrec.
Qed.
End RunsTwice.

(** X18. A second run over the files the first run left, every post
    carrying a date of its own and no fragment holding the opening tag,
    writes a longer listing than the first whenever the listing had a
    region: the build does not reproduce its listing, for any site with
    a post. *)
Theorem second_run_grows_listing (markdown_to_html : string -> string)
    (now1 now2 : DateTime.date) (md_files : list string)
    (template listing : string) (w : IO.world) (i j : nat) :
  md_files <> [] ->
  dirs_ok (IO.files w) ->
  sources_ok (IO.files w) md_files ->
  IO.files w !! TEMPLATE_FILE = Some template ->
  IO.files w !! BLOG_LISTING_FILE = Some listing ->
  dated (IO.files w) md_files ->
  PyStr.contains bs (region_of (records_of now1 (IO.files w) md_files)) = false ->
  PyStr.find blog_list_open
    (blog_list_html (records_of now1 (IO.files w) md_files)) = None ->
  PyStr.find blog_list_open listing = Some i ->
  PyStr.find blog_list_close (PyStr.drop (i + 20) listing) = Some j ->
  exists (w1 w2 : IO.world) (listing1 listing2 : string),
    main markdown_to_html now1 md_files w = (inr tt, w1)
    /\ main markdown_to_html now2 md_files w1 = (inr tt, w2)
    /\ IO.files w1 !! BLOG_LISTING_FILE = Some listing1
    /\ IO.files w2 !! BLOG_LISTING_FILE = Some listing2
    /\ String.length listing1 + 17 <= String.length listing2.
Proof.
  intros Hne Hdirs Hok Htpl Hlist Hdated Hbs Hno Hi Hc.
  destruct (two_runs markdown_to_html now1 now2 md_files template listing w)
    as (w1 & w2 & Hrun1 & Hrun2 & Hl1 & Hl2); [done.. |].
  eexists w1, w2, _, _. split; [done |]. split; [done |].
  split; [done |]. split; [done |].
  apply (posts_twice_grows _ _ i j); [|done..].
  destruct md_files; [done | discriminate].
Qed.

Lemma second_run_grows_listing_witness :
  exists (w1 w2 : IO.world) (listing1 listing2 : string),
    main (fun s => s) (DateTime.Date 2024 1 1) ["hello.md"] sample_site
    = (inr tt, w1)
    /\ main (fun s => s) (DateTime.Date 2025 6 7) ["hello.md"] w1 = (inr tt, w2)
    /\ IO.files w1 !! BLOG_LISTING_FILE = Some listing1
    /\ IO.files w2 !! BLOG_LISTING_FILE = Some listing2
    /\ String.length listing1 + 17 <= String.length listing2.
Proof.
  apply (second_run_grows_listing (fun s => s) (DateTime.Date 2024 1 1)
           (DateTime.Date 2025 6 7) ["hello.md"]
           "<h1>{{TITLE}}</h1>{{CONTENT}}"
           ("<body>" +:+ blog_list_open +:+ "</div></body>") sample_site 6 0).
  - discriminate.
  - split; reflexivity.
  - apply sample_sources_ok; reflexivity.
  - reflexivity.
  - reflexivity.
  - intros name [<- | []]. exists "2024-03-05". by vm_compute.
  - by vm_compute.
  - by vm_compute.
  - reflexivity.
  - reflexivity.
Defined.

(** ** A listing without the marker *)

(** X19. When the listing has no opening tag of the list, or no closing
    tag behind it, a run with posts still ends well and reports the
    update, but the listing it writes back is the listing it read: no
    post shows up in it.  The template and the listing are text files
    and the sources ASCII text; a listing with carriage returns would come
    back with line feeds in their place. *)
Theorem listing_without_marker_is_kept (markdown_to_html : string -> string)
    (now : DateTime.date) (md_files : list string) (template listing : string)
    (w : IO.world) :
  md_files <> [] ->
  dirs_ok (IO.files w) ->
  sources_ok (IO.files w) md_files ->
  IO.files w !! TEMPLATE_FILE = Some template ->
  IO.files w !! BLOG_LISTING_FILE = Some listing ->
  plain_sources (IO.files w) md_files ->
  IO.text_file template = true ->
  IO.text_file listing = true ->
  PyStr.contains bs (region_of (records_of now (IO.files w) md_files)) = false ->
  PyStr.find blog_list_open listing = None
  \/ (exists i : nat,
         PyStr.find blog_list_open listing = Some i
         /\ PyStr.find blog_list_close (PyStr.drop (i + 20) listing) = None) ->
  exists w',
    main markdown_to_html now md_files w = (inr tt, w')
    /\ IO.files w' !! BLOG_LISTING_FILE = Some listing
    /\ In (IO.EvWrite BLOG_LISTING_FILE) (IO.trace w')
    /\ In (IO.EvPrint "  Updated: blog/index.html") (IO.trace w').
Proof.
  intros Hne Hdirs Hok Htpl Hlist _ _ _ Hbs Hmark.
  destruct (main_run markdown_to_html now md_files template listing w)
    as (w' & Hrun & Hf & Ht); [done.. |].
  exists w'. split; [done |]. split.
  - rewrite Hf. unfold built. rewrite lookup_insert_eq. f_equal.
    destruct Hmark as [Hno | (i & Hi & Hc)].
    + by apply literal_listing_no_open.
    + by apply (literal_listing_no_close _ _ i).
  - rewrite Ht. unfold listing_events.
    split; repeat (apply in_or_app; right); cbn; tauto.
Qed.

(** A listing with the line ends CR LF is not a text file in this
    sense. *)
Lemma crlf_listing_not_text : IO.text_file crlf_listing = false.
Proof. reflexivity. Qed.

Lemma listing_without_marker_is_kept_witness :
  exists w',
    main (fun s => s) (DateTime.Date 2024 1 1) ["hello.md"] sample_site_plain
    = (inr tt, w')
    /\ IO.files w' !! BLOG_LISTING_FILE = Some "<body><p>Posts</p></body>"
    /\ In (IO.EvWrite BLOG_LISTING_FILE) (IO.trace w')
    /\ In (IO.EvPrint "  Updated: blog/index.html") (IO.trace w').
Proof.
  apply (listing_without_marker_is_kept (fun s => s) (DateTime.Date 2024 1 1)
           ["hello.md"] "<h1>{{TITLE}}</h1>{{CONTENT}}"
           "<body><p>Posts</p></body>" sample_site_plain).
  - discriminate.
  - split; reflexivity.
  - apply sample_sources_ok; reflexivity.
  - reflexivity.
  - reflexivity.
  - apply sample_sources_plain; reflexivity.
  - reflexivity.
  - reflexivity.
  - by vm_compute.
  - left. reflexivity.
Defined.

(** ** The title made from the slug *)

Section DefaultTitle.
Import PyStr.

Lemma replace_hyphen_cons c s :
  replace "-" " " (String c s)
  = String (if Ascii.eqb c "-" then " "%char else c) (replace "-" " " s).
Proof.
  unfold replace. cbn [is_empty replace_from startswith String.length Nat.sub].
  rewrite (Ascii.eqb_sym "-" c). destruct (Ascii.eqb c "-"); [|done].
  cbn [andb]. by destruct s.
Qed.

Lemma title_from_length b s : String.length (title_from b s) = String.length s.
Proof.
  revert b; induction s as [|c s IH]; intros b; [done |].
  cbn [title_from]. destruct (isalpha c); cbn [String.length]; by rewrite IH.
Qed.

Lemma replace_hyphen_length s :
  String.length (replace "-" " " s) = String.length s.
Proof.
  induction s as [|c s IH]; [done |].
  rewrite replace_hyphen_cons. cbn [String.length]. by rewrite IH.
Qed.

Lemma cased_not_hyphen c :
  isalpha c = true ->
  Ascii.eqb "-" (upper c) = false /\ Ascii.eqb "-" (lower c) = false.
Proof.
  destruct c as [[] [] [] [] [] [] [] []]; intros H; try discriminate H;
    by vm_compute.
Qed.

Lemma title_from_no_hyphen b s :
  contains "-" s = false -> contains "-" (title_from b s) = false.
Proof.
  revert b; induction s as [|c s IH]; intros b; [done |].
  cbn [contains startswith title_from].
  intros [Hc Hs]%orb_false_elim. rewrite andb_true_r in Hc.
  destruct (isalpha c) eqn:Ha; cbn [contains startswith];
    rewrite (IH _ Hs), andb_true_r, orb_false_r; [|done].
  destruct (cased_not_hyphen c Ha). by destruct b.
Qed.

Lemma replace_hyphen_none s : contains "-" (replace "-" " " s) = false.
Proof.
  induction s as [|c s IH]; [done |].
  rewrite replace_hyphen_cons. cbn [contains startswith].
  rewrite IH, andb_true_r, orb_false_r.
  destruct (Ascii.eqb c "-") eqn:Hc; [done |]. by rewrite Ascii.eqb_sym.
Qed.
End DefaultTitle.

(** X20. The title made from a slug in ASCII has as many characters as
    the slug and holds no hyphen; letters that follow a digit are raised
    like the first letter of a word, so 3d-printing gives 3D Printing.
    (Outside ASCII a letter can become two when it is raised.) *)
Theorem default_title_shape :
  (forall (metadata : metadata_t) (slug : string),
      PyStr.isascii slug = true ->
      metadata !! "title" = None ->
      String.length (post_title metadata slug) = String.length slug
      /\ PyStr.contains "-" (post_title metadata slug) = false)
  /\ post_title ∅ "3d-printing" = "3D Printing"
  /\ post_title ∅ "" = "".
Proof.
  split; [|split; by vm_compute].
  intros metadata slug _ H. unfold post_title. rewrite H. cbn [default].
  unfold PyStr.title. split.
  - by rewrite title_from_length, replace_hyphen_length.
  - apply title_from_no_hyphen, replace_hyphen_none.
Qed.

Lemma default_title_shape_witness :
  String.length (post_title {[ "date" := "2024-03-05" ]} "my-first-post") = 13
  /\ PyStr.contains "-" (post_title {[ "date" := "2024-03-05" ]} "my-first-post")
     = false.
Proof.
  exact (proj1 default_title_shape {[ "date" := "2024-03-05" ]} "my-first-post"
           eq_refl eq_refl).
Defined.

(** ** ASCII text *)

(** ASCII text is what the statements above ask of a text: it is
    well-formed UTF-8, it holds no white space from outside ASCII, and
    trimming it is trimming its ASCII white space. *)
Section Ascii.
Import PyStr.

Lemma ascii_char_low c : between 0 127 c = true -> (code c <? 128) = true.
Proof.
  unfold between. intros [_ H%Nat.leb_le]%andb_prop.
  apply Nat.ltb_lt. lia.
Qed.

Lemma ascii_char_wide2 a b : between 0 127 a = true -> wide2 a b = false.
Proof.
  unfold between, wide2. intros [_ H%Nat.leb_le]%andb_prop.
  destruct (code a =? 194) eqn:E; [|done]. apply Nat.eqb_eq in E. lia.
Qed.

Lemma ascii_char_wide3 a b c : between 0 127 a = true -> wide3 a b c = false.
Proof.
  unfold between at 1, wide3. intros [_ H%Nat.leb_le]%andb_prop.
  destruct (code a =? 225) eqn:E1; [apply Nat.eqb_eq in E1; lia |].
  destruct (code a =? 226) eqn:E2; [apply Nat.eqb_eq in E2; lia |].
  destruct (code a =? 227) eqn:E3; [apply Nat.eqb_eq in E3; lia |].
  done.
Qed.

Lemma isascii_utf8 s : isascii s = true -> utf8 s = true.
Proof.
  unfold isascii. induction s as [|c s IH]; [done |].
  cbn [forallb_str utf8]. intros [Hc Hs]%andb_prop.
  rewrite (ascii_char_low c Hc). by apply IH.
Qed.

Lemma isascii_starts_wide s : isascii s = true -> starts_wide s = false.
Proof.
  unfold isascii. destruct s as [|a [|b r]]; try done.
  cbn [forallb_str starts_wide]. intros [Ha _]%andb_prop.
  rewrite (ascii_char_wide2 a b Ha). destruct r as [|c r]; [done |].
  by rewrite (ascii_char_wide3 a b c Ha).
Qed.

Lemma isascii_is_wide s : isascii s = true -> is_wide s = false.
Proof.
  unfold isascii. destruct s as [|a [|b [|c [|d r]]]]; try done;
    cbn [forallb_str is_wide]; intros [Ha _]%andb_prop.
  - by apply ascii_char_wide2.
  - by apply ascii_char_wide3.
Qed.

Lemma isascii_tail c s : isascii (String c s) = true -> isascii s = true.
Proof. unfold isascii. cbn [forallb_str]. by intros [_ H]%andb_prop. Qed.

Lemma isascii_has_wide s : isascii s = true -> has_wide s = false.
Proof.
  induction s as [|c s IH]; [done |]. intros H. cbn [has_wide].
  by rewrite (isascii_starts_wide _ H), (IH (isascii_tail _ _ H)).
Qed.

Lemma isascii_ends_wide s : isascii s = true -> ends_wide s = false.
Proof.
  induction s as [|c s IH]; [done |]. intros H. cbn [ends_wide].
  by rewrite (isascii_is_wide _ H), (IH (isascii_tail _ _ H)).
Qed.

Lemma isascii_lstrip p s : isascii s = true -> isascii (lstrip_by p s) = true.
Proof.
  induction s as [|c s IH]; [done |]. intros H. cbn [lstrip_by].
  destruct (p c); [|done]. apply IH. by eapply isascii_tail.
Qed.

Lemma isascii_rstrip p s : isascii s = true -> isascii (rstrip_by p s) = true.
Proof.
  induction s as [|c s IH]; [done |]. intros H. cbn [rstrip_by].
  destruct (is_empty (rstrip_by p s) && p c); [done |].
  unfold isascii in *. cbn [forallb_str] in *.
  apply andb_prop in H as [Hc Hs]. by rewrite Hc, IH.
Qed.

Lemma isascii_strip s : isascii s = true -> strip_is_ascii s = true.
Proof.
  intros H. unfold strip_is_ascii.
  assert (Ht : isascii (strip s) = true)
    by (by apply isascii_rstrip, isascii_lstrip).
  by rewrite (isascii_starts_wide _ Ht), (isascii_ends_wide _ Ht).
Qed.

Lemma ascii_text_file s : ascii_text s = true -> IO.text_file s = true.
Proof.
  unfold ascii_text, IO.text_file. intros [Ha ->]%andb_prop.
  by rewrite (isascii_utf8 _ Ha).
Qed.
End Ascii.

(** ** Where the conditions bite *)

(** A value between two no-break spaces: Python trims them, the strip
    here does not. *)
Lemma nbsp_value_needs_python :
  PyStr.strip_is_ascii (nbsp +:+ "Hello" +:+ nbsp) = false
  /\ PyStr.has_wide (nbsp +:+ "Hello" +:+ nbsp) = true
  /\ PyStr.utf8 (nbsp +:+ "Hello" +:+ nbsp) = true.
Proof. by vm_compute. Qed.

(** A date in Arabic-Indic digits (the year 2024 in two bytes a digit):
    Python reads the digits, the pattern here does not. *)
Lemma arabic_date_not_ascii :
  let year := String "217" (String "162" (String "217" (String "160"
               (String "217" (String "162" (String "217" (String "164" ""))))))) in
  PyStr.isascii (PyStr.take 10 (year +:+ "-03-05")) = false
  /\ PyStr.utf8 (year +:+ "-03-05") = true
  /\ format_date (year +:+ "-03-05") = year +:+ "-03-05".
Proof. by vm_compute. Qed.

(** The source file ...md: its slug is the parent directory. *)
Lemma parent_slug_not_plain :
  stem "...md" = ".." /\ name_ok "...md" /\ ~ slug_ok "...md"
  /\ page_path (stem "...md") = "blog/../index.html"
  /\ ~ canonical (page_path (stem "...md")).
Proof.
  split; [reflexivity |]. split; [by repeat split |].
  split; [by intros (_ & _ & H & _) |]. split; [reflexivity |].
  intros H. apply Forall_cons_iff in H as [_ H].
  apply Forall_cons_iff in H as [(_ & _ & H & _) _]. by apply H.
Qed.

